(** * Solana token scan: the signal-aggregation and scoring pipeline

    A shallow embedding of the address validator, the source resolver, the
    relevance verifier, the ranking scorer, the engagement aggregator and the
    recommendation scorer of [improved_analysis.py] and [standalone_test.py],
    with the properties the specification states about them, followed by the
    query synthesis, the simulated search and the price resolver of
    [improved_analysis.py] and the earlier pipeline of [standalone_test.py]
    and [app.py], with further properties read off the code.

    Conventions of the embedding:
    - a Python [str] is a [string], the sequence of its UTF-8 bytes; [lower]
      maps [A-Z] to [a-z] and leaves every other byte, which is [str.lower]
      on ASCII text (the case mapping of other scripts is not modelled);
      lengths, slices and [split] work on bytes, which are the characters of
      ASCII text;
    - a value taken from a provider's answer is a [json] value, and a method
      it lacks raises;
    - a Python [dict] read through [.get(key, default)] with fixed keys is a
      record whose field holds the default when the key is absent; the
      [engagement] sub-dictionary, whose emptiness is tested, is a
      [gmap string Z];
    - a Python [set] is a [gset];
    - a raised exception is [None] in an [option] result;
    - a [float] that the program obtains by dividing an integer by ten is the
      exact rational in [Q]. *)

From Stdlib Require Import String Ascii ZArith List Lia Bool QArith Qround Qminmax.
From Stdlib Require Import Sorting.Sorted Sorting.Permutation.
From stdpp Require Import gmap strings list pretty.

Local Open Scope string_scope.
Local Open Scope Z_scope.

(** ** Python string primitives *)

Module PyStr.

(** [len(s)] *)
Definition len (s : string) : Z := Z.of_nat (String.length s).

(** [needle in hay] for two strings: some suffix of [hay] starts with
    [needle]. *)
Fixpoint contains (needle hay : string) : bool :=
  String.prefix needle hay ||
  match hay with
  | EmptyString => false
  | String _ rest => contains needle rest
  end.

(** [c in chars] for a one-character [c]. *)
Fixpoint char_in (c : ascii) (chars : string) : bool :=
  match chars with
  | EmptyString => false
  | String d rest => Ascii.eqb c d || char_in c rest
  end.

(** [all(p(c) for c in s)] *)
Fixpoint all_chars (p : ascii -> bool) (s : string) : bool :=
  match s with
  | EmptyString => true
  | String c rest => p c && all_chars p rest
  end.

Definition lower_char (c : ascii) : ascii :=
  let n := nat_of_ascii c in
  if (65 <=? n)%nat && (n <=? 90)%nat then ascii_of_nat (n + 32) else c.

(** [s.lower()] on ASCII text: [A-Z] go to [a-z] and every other byte
    stays, which is also what [str.lower] does to digits, punctuation and
    emoji.  The case mapping of other scripts is not modelled; the
    properties that depend on it are stated for ASCII identifiers and
    symbols. *)
Fixpoint lower (s : string) : string :=
  match s with
  | EmptyString => EmptyString
  | String c rest => String (lower_char c) (lower rest)
  end.

(** [s[i:i+n]]: at most [n] characters from position [i], clipped at the
    end of [s]. *)
Definition slice (i n : nat) (s : string) : string := String.substring i n s.

(** [s[:n]] *)
Definition take (n : nat) (s : string) : string := slice 0 n s.

(** [bool(s)]: a string is truthy when it is not empty. *)
Definition truthy (s : string) : bool :=
  match s with EmptyString => false | _ => true end.

(** [s.replace(c, "")] for a one-character [c]. *)
Fixpoint remove_char (c : ascii) (s : string) : string :=
  match s with
  | EmptyString => EmptyString
  | String d rest =>
      if Ascii.eqb c d then remove_char c rest else String d (remove_char c rest)
  end.

Definition is_digit (c : ascii) : bool :=
  let n := nat_of_ascii c in (48 <=? n)%nat && (n <=? 57)%nat.

(** [s.isdigit()]: non-empty and made of digits only. *)
Definition isdigit (s : string) : bool := truthy s && all_chars is_digit s.

(** [range(0, stop, step)] for a positive [step], as the list of its
    values; empty when [stop <= 0]. *)
Fixpoint range_from (fuel : nat) (i stop step : Z) : list Z :=
  match fuel with
  | O => []
  | S fuel' => if i <? stop then i :: range_from fuel' (i + step) stop step else []
  end.

Definition range0 (stop step : Z) : list Z :=
  range_from (Z.to_nat stop) 0 stop step.

End PyStr.

(** ** Address validator ([validate_solana_contract]) *)

Definition valid_chars : string :=
  "123456789ABCDEFGHJKLMNPQRSTUVWXYZabcdefghijkmnopqrstuvwxyz".

Definition validate_solana_contract (contract_address : string) : bool :=
  if negb (PyStr.truthy contract_address) then false
  else if (PyStr.len contract_address <? 32) || (PyStr.len contract_address >? 44) then false
  else PyStr.all_chars (fun c => PyStr.char_in c valid_chars) contract_address.

(** [s] is composed only of characters of the base58 alphabet. *)
Definition base58_only (s : string) : Prop :=
  forall c, In c (list_ascii_of_string s) -> In c (list_ascii_of_string valid_chars).

(** ** Relevance verifier ([_verify_and_filter_results]) *)

(** A candidate mention: the dictionary the search step produces.  A missing
    ["title"], ["content"], ["url"] or ["author"] reads as the empty string
    and a missing ["engagement"] as the empty dictionary, which is what the
    [.get] calls of the program default to or treat alike;
    ["verification_score"] is the key the verifier adds. *)
Record Mention := {
  title : string;
  content : string;
  url : string;
  author : string;
  engagement : gmap string Z;
  verification_score : option Z
}.

(** [result["verification_score"] = score] *)
Definition set_verification_score (result : Mention) (score : Z) : Mention :=
  {| title := title result; content := content result; url := url result;
     author := author result; engagement := engagement result;
     verification_score := Some score |}.

(** [f"{result.get('title', '')} {result.get('content', '')}".lower()] *)
Definition scored_text (result : Mention) : string :=
  PyStr.lower (title result ++ " " ++ content result)%string.

(** [any(contract_address[i:i+8].lower() in content
         for i in range(0, len(contract_address)-7, 4))] *)
Definition address_fragment_in (contract_address content : string) : bool :=
  existsb
    (fun i => PyStr.contains (PyStr.lower (PyStr.slice (Z.to_nat i) 8 contract_address)) content)
    (PyStr.range0 (PyStr.len contract_address - 7) 4).

(** [token_symbol and token_symbol != "UNKNOWN"] *)
Definition symbol_known (token_symbol : string) : bool :=
  PyStr.truthy token_symbol && negb (String.eqb token_symbol "UNKNOWN").

(** [bool(result.get("engagement") or result.get("author"))] *)
Definition has_engagement_or_author (result : Mention) : bool :=
  bool_decide (engagement result ≠ ∅) || PyStr.truthy (author result).

(** The body of the loop of [_verify_and_filter_results] up to the threshold
    test: the score accumulated for one [result]. *)
Definition verification_score_of
    (result : Mention) (contract_address token_symbol : string) : Z :=
  let content := scored_text result in
  let verification_score := 0 in
  let verification_score :=
    if address_fragment_in contract_address content
    then verification_score + 50 else verification_score in
  let verification_score :=
    if symbol_known token_symbol then
      if PyStr.contains (PyStr.lower token_symbol) content
         || PyStr.contains ("$" ++ PyStr.lower token_symbol)%string content
      then verification_score + 30 else verification_score
    else verification_score in
  let verification_score :=
    if PyStr.contains "pump" content
       && (PyStr.contains "fun" content || PyStr.contains "solana" content)
    then verification_score + 20 else verification_score in
  let url := url result in
  let verification_score :=
    if PyStr.contains "x.com" url || PyStr.contains "twitter.com" url
    then verification_score + 20 else verification_score in
  let verification_score :=
    if has_engagement_or_author result
    then verification_score + 10 else verification_score in
  verification_score.

(** The [for result in results] loop, threading [verified_results]. *)
Fixpoint verify_loop (results : list Mention)
    (contract_address token_name token_symbol : string)
    (verified_results : list Mention) : list Mention :=
  match results with
  | [] => verified_results
  | result :: rest =>
      let verification_score :=
        verification_score_of result contract_address token_symbol in
      if 70 <=? verification_score
      then verify_loop rest contract_address token_name token_symbol
             (verified_results ++ [set_verification_score result verification_score])%list
      else verify_loop rest contract_address token_name token_symbol verified_results
  end.

Definition _verify_and_filter_results (results : list Mention)
    (contract_address token_name token_symbol : string) : list Mention :=
  verify_loop results contract_address token_name token_symbol [].

(** *** The scoring rule in the words of the specification *)

(** [needle] occurs in [hay]. *)
Definition occurs_in (needle hay : string) : Prop :=
  exists before after, hay = (before ++ needle ++ after)%string.

(** The text contains, case-folded, one of the 8-character substrings of the
    identifier that start at the positions 0, 4, 8, ... and fit in it. *)
Definition mentions_identifier (identifier text : string) : Prop :=
  exists k : nat,
    (4 * k + 8 <= String.length identifier)%nat /\
    occurs_in (PyStr.lower (String.substring (4 * k) 8 identifier)) text.

(** The symbol is known and the text contains it, bare or behind the
    currency sigil. *)
Definition mentions_symbol (symbol text : string) : Prop :=
  symbol <> "" /\ symbol <> "UNKNOWN" /\
  (occurs_in (PyStr.lower symbol) text \/
   occurs_in ("$" ++ PyStr.lower symbol)%string text).

(** The domain-context keyword pair. *)
Definition has_domain_context (text : string) : Prop :=
  occurs_in "pump" text /\ (occurs_in "fun" text \/ occurs_in "solana" text).

(** The URL contains the name of a target domain, at any place: the test
    the program makes. *)
Definition on_target_domain (u : string) : Prop :=
  occurs_in "x.com" u \/ occurs_in "twitter.com" u.

(** The candidate carries non-empty engagement or author metadata. *)
Definition has_metadata (m : Mention) : Prop :=
  engagement m ≠ ∅ \/ author m <> "".

(** A signal [P] of weight [w] contributes [s]. *)
Definition awards (w : Z) (P : Prop) (s : Z) : Prop :=
  (P /\ s = w) \/ (~ P /\ s = 0).

(** The text the signals are read from: title and body, joined and
    case-folded. *)
Definition folded_text (m : Mention) : string :=
  PyStr.lower (title m ++ " " ++ content m)%string.

(** [total] is the sum of the five independent signals for [m], for a given
    reading [domain_signal] of the signal on the URL. *)
Definition signal_sum (domain_signal : string -> Prop)
    (identifier symbol : string) (m : Mention) (total : Z) : Prop :=
  exists s1 s2 s3 s4 s5,
    awards 50 (mentions_identifier identifier (folded_text m)) s1 /\
    awards 30 (mentions_symbol symbol (folded_text m)) s2 /\
    awards 20 (has_domain_context (folded_text m)) s3 /\
    awards 20 (domain_signal (url m)) s4 /\
    awards 10 (has_metadata m) s5 /\
    total = s1 + s2 + s3 + s4 + s5.

(** [v] is the candidate [m] with the score [s] attached as
    [verification_score] and nothing else changed. *)
Definition carries_score (m : Mention) (s : Z) (v : Mention) : Prop :=
  title v = title m /\ content v = content m /\ url v = url m /\
  author v = author m /\ engagement v = engagement m /\
  verification_score v = Some s.

(** *** The signal on the URL in the words of the specification: the host of
    the URL is one of the target domains *)

Definition target_domains : list string := ["x.com"; "twitter.com"].

(** The text up to the first of [/], [?] and [#]. *)
Fixpoint until_delimiter (s : string) : string :=
  match s with
  | EmptyString => EmptyString
  | String c rest =>
      if PyStr.char_in c "/?#" then EmptyString else String c (until_delimiter rest)
  end.

(** The host of a URL: what stands between [://] and the path, the query or
    the fragment. *)
Definition url_host (u : string) : string :=
  match String.index 0 "://" u with
  | Some i => until_delimiter (String.substring (i + 3) (String.length u) u)
  | None => until_delimiter u
  end.

Definition ends_with (suffix s : string) : bool :=
  (String.length suffix <=? String.length s)%nat
  && String.eqb
       (String.substring (String.length s - String.length suffix) (String.length suffix) s)
       suffix.

(** The host is a target domain or lies under one. *)
Definition host_on_target_domain (u : string) : bool :=
  existsb (fun d => String.eqb (url_host u) d || ends_with ("." ++ d) (url_host u))
    target_domains.

(** *** Sample candidates

    [test_contract] is the address [test_improved_analysis] runs on;
    [launch_post] and [trading_post] follow the two posts
    [_simulate_realistic_social_search] fabricates for the symbol [BONK]. *)

Definition test_contract : string := "GBUxQFRXQjSPjkxymAUKPfbUbSpRY8Ui7az1HCxtpump".

Definition launch_post : Mention :=
  {| title := "New token launch on pump.fun! BONK";
     content := "Just launched $BONK on pump.fun! Contract: GBUxQFRXQjSP... #Solana #PumpFun #Memecoin";
     url := "https://x.com/crypto_trader/status/1700000000";
     author := "@crypto_trader_123";
     engagement := {[ "likes" := 45; "retweets" := 12; "replies" := 8 ]};
     verification_score := None |}.

(** The same post found again by a later query: same URL. *)
Definition launch_post_again : Mention :=
  {| title := "New token launch on pump.fun! BONK (repost)";
     content := content launch_post;
     url := url launch_post;
     author := author launch_post;
     engagement := engagement launch_post;
     verification_score := None |}.

(** A post with neither author nor engagement data that never quotes the
    address. *)
Definition trading_post : Mention :=
  {| title := "Trading $BONK on Solana";
     content := "Bought some $BONK earlier today. Chart looking good on pump.fun!";
     url := "https://x.com/solana_degen/status/1700000100";
     author := "";
     engagement := ∅;
     verification_score := None |}.

(** The trading post found on a site that is no social media platform. *)
Definition streaming_post : Mention :=
  {| title := title trading_post;
     content := content trading_post;
     url := "https://netflix.com/title/80100172";
     author := "";
     engagement := ∅;
     verification_score := None |}.

(** ** Ranking path ([search_x_mentions] of [standalone_test.py]) *)

(** A result object of the search client.  The program reads its attributes
    with [getattr(result, attr, '')] and treats a missing attribute, [None]
    and the empty string alike; [None] stands for the first two. *)
Module Exa.
Record result := {
  title : option string;
  text : option string;
  url : option string
}.
End Exa.

(** [getattr(result, 'url', '')], read where only its truth value and its
    string value matter. *)
Definition result_url (result : Exa.result) : string :=
  default "" (Exa.url result).

(** The loop "Remove duplicates based on URL", threading [seen_urls] and
    [unique_results]. *)
Fixpoint remove_duplicates_loop (all_results : list Exa.result)
    (seen_urls : gset string) (unique_results : list Exa.result) : list Exa.result :=
  match all_results with
  | [] => unique_results
  | result :: rest =>
      let url := result_url result in
      if PyStr.truthy url && negb (bool_decide (url ∈ seen_urls))
      then remove_duplicates_loop rest ({[ url ]} ∪ seen_urls)
             (unique_results ++ [result])%list
      else remove_duplicates_loop rest seen_urls unique_results
  end.

Definition remove_duplicates (all_results : list Exa.result) : list Exa.result :=
  remove_duplicates_loop all_results ∅ [].

Definition crypto_keywords : list string :=
  ["pump"; "moon"; "solana"; "dex"; "trade"; "buy"; "sell"; "token"; "coin";
   "crypto"; "gem"].

(** The text [calculate_relevance] scores:
    [(title + " " + text).lower()] with [getattr(...) or ""] for both. *)
Definition ranked_text (result : Exa.result) : string :=
  let title := default "" (Exa.title result) in
  let text := default "" (Exa.text result) in
  PyStr.lower (title ++ " " ++ text)%string.

(** The closure [calculate_relevance] with the variables it captures. *)
Definition calculate_relevance (contract_address token_name token_symbol : string)
    (result : Exa.result) : Z :=
  let content := ranked_text result in
  let score := 0 in
  let score :=
    if PyStr.contains (PyStr.lower contract_address) content
    then score + 100 else score in
  let score :=
    fold_left
      (fun score length =>
         if PyStr.contains (PyStr.lower (PyStr.take (Z.to_nat length) contract_address)) content
         then score + (50 - (12 - length) * 5) else score)
      [12; 8; 6] score in
  let score :=
    if PyStr.truthy token_symbol && PyStr.contains (PyStr.lower token_symbol) content
    then score + 20 else score in
  let score :=
    if PyStr.truthy token_name && PyStr.contains (PyStr.lower token_name) content
    then score + 15 else score in
  let score :=
    fold_left
      (fun score keyword => if PyStr.contains keyword content then score + 2 else score)
      crypto_keywords score in
  score.

(** [l.sort(key=key, reverse=True)]: the stable sort by decreasing key, as
    an insertion sort; an element goes behind the ones with a strictly
    greater key and before the later ones with the same key. *)
Fixpoint insert_by_key {A} (key : A -> Z) (x : A) (l : list A) : list A :=
  match l with
  | [] => [x]
  | y :: rest => if key x <? key y then y :: insert_by_key key x rest else x :: l
  end.

Definition sort_reverse {A} (key : A -> Z) (l : list A) : list A :=
  foldr (insert_by_key key) [] l.

(** The order of decreasing keys. *)
Definition key_ge {A} (key : A -> Z) (a b : A) : Prop := key b <= key a.

(** What [search_x_mentions] returns on success. *)
Record SearchOutcome := {
  search_total_mentions : Z;
  search_results : list Exa.result
}.

(** [search_x_mentions] from "Remove duplicates based on URL" on, given the
    [all_results] the queries have gathered. *)
Definition rank_mentions (all_results : list Exa.result)
    (contract_address token_name token_symbol : string) : SearchOutcome :=
  let unique_results := remove_duplicates all_results in
  let unique_results :=
    sort_reverse (calculate_relevance contract_address token_name token_symbol)
      unique_results in
  let relevant_results :=
    filter (fun r => 0 < calculate_relevance contract_address token_name token_symbol r)
      unique_results in
  {| search_total_mentions := Z.of_nat (length relevant_results);
     search_results := take 10 relevant_results |}.

(** *** The ranking rule in the words of the specification *)

Definition bonus (b : bool) (w : Z) : Z := if b then w else 0.

(** The number of generic crypto keywords present in [text]. *)
Definition keywords_present (text : string) : Z :=
  Z.of_nat (length (filter (fun k => PyStr.contains k text = true) crypto_keywords)).

(** Exact identifier +100, prefixes of 12, 8 and 6 characters +50, +30 and
    +20, symbol +20, name +15, and [per_keyword] points for each generic
    keyword present. *)
Definition relevance_by_weights (per_keyword : Z)
    (identifier name symbol : string) (r : Exa.result) : Z :=
  let text := ranked_text r in
  bonus (PyStr.contains (PyStr.lower identifier) text) 100
  + bonus (PyStr.contains (PyStr.lower (PyStr.take 12 identifier)) text) 50
  + bonus (PyStr.contains (PyStr.lower (PyStr.take 8 identifier)) text) 30
  + bonus (PyStr.contains (PyStr.lower (PyStr.take 6 identifier)) text) 20
  + bonus (PyStr.truthy symbol && PyStr.contains (PyStr.lower symbol) text) 20
  + bonus (PyStr.truthy name && PyStr.contains (PyStr.lower name) text) 15
  + per_keyword * keywords_present text.

(** [r] is the first entry of [l] with its URL: an entry of [l] with no
    entry of the same URL before it. *)
Definition first_with_url (l : list Exa.result) (r : Exa.result) : Prop :=
  exists before after,
    l = (before ++ r :: after)%list /\
    forall r', r' ∈ before -> result_url r' <> result_url r.

(** Sample search results. *)
Definition keyword_only_result : Exa.result :=
  {| Exa.title := Some "pump"; Exa.text := None;
     Exa.url := Some "https://x.com/someone/status/1" |}.

(** ** Engagement aggregator ([analyze_verified_social_engagement]) *)

(** [round(x, 1)] on an exact rational: the nearest multiple of one tenth,
    ties to the even one. *)
Definition round_half_even (q : Q) : Z :=
  let f := Qfloor q in
  match (q - inject_Z f ?= 1 # 2)%Q with
  | Lt => f
  | Gt => f + 1
  | Eq => if Z.even f then f else f + 1
  end.

Definition round1 (q : Q) : Q := Qmake (round_half_even (q * 10)) 10.

Record TotalEngagement := {
  likes : Z;
  retweets : Z;
  replies : Z
}.

(** The summary dictionary.  [total_engagement] is absent from the summary
    of an empty input; the display string ["analysis_quality"] is left out. *)
Record EngagementSummary := {
  engagement_score : Q;
  notable_accounts : list string;
  total_mentions : Z;
  engagement_level : string;
  risk_assessment : string;
  authentic_mentions : Z;
  total_engagement : option TotalEngagement
}.

(** [engagement.get(key, 0)] *)
Definition engagement_get (m : Mention) (key : string) : Z :=
  default 0 (engagement m !! key).

Definition notable_patterns : list string := ["crypto"; "solana"; "defi"; "trader"].

(** The state the [for result in verified_results] loop updates. *)
Record Tally := {
  total_likes : Z;
  total_retweets : Z;
  total_replies : Z;
  tally_notable_accounts : list string
}.

(** One iteration of the loop. *)
Definition tally_step (t : Tally) (result : Mention) : Tally :=
  let total_likes := total_likes t + engagement_get result "likes" in
  let total_retweets := total_retweets t + engagement_get result "retweets" in
  let total_replies := total_replies t + engagement_get result "replies" in
  let author := PyStr.lower (author result) in
  let notable_accounts :=
    if existsb (fun pattern => PyStr.contains pattern author) notable_patterns then
      if engagement_get result "likes" >? 100
      then (tally_notable_accounts t ++ [author])%list
      else tally_notable_accounts t
    else tally_notable_accounts t in
  {| total_likes := total_likes; total_retweets := total_retweets;
     total_replies := total_replies; tally_notable_accounts := notable_accounts |}.

Definition tally_all (verified_results : list Mention) : Tally :=
  fold_left tally_step verified_results
    {| total_likes := 0; total_retweets := 0; total_replies := 0;
       tally_notable_accounts := [] |}.

(** [final_score], before it is rounded. *)
Definition final_score (verified_results : list Mention) : Q :=
  let t := tally_all verified_results in
  let base_score := Z.min (Z.of_nat (length verified_results) * 15) 60 in
  let engagement_bonus := Qmin ((total_likes t + total_retweets t * 2) # 10) 30 in
  let notable_bonus :=
    Z.of_nat (size (list_to_set (tally_notable_accounts t) : gset string)) * 10 in
  Qmin (inject_Z base_score + engagement_bonus + inject_Z notable_bonus)%Q 100.

Definition analyze_verified_social_engagement (verified_results : list Mention)
    (contract_address token_symbol : string) : EngagementSummary :=
  match verified_results with
  | [] =>
      {| engagement_score := 0;
         notable_accounts := [];
         total_mentions := 0;
         engagement_level := "None";
         risk_assessment := "Very High - No Social Media Presence";
         authentic_mentions := 0;
         total_engagement := None |}
  | _ =>
      let t := tally_all verified_results in
      let final_score := final_score verified_results in
      let '(engagement_level, risk_level) :=
        if Qle_bool 80 final_score then ("Very High", "Low - Strong Community")
        else if Qle_bool 60 final_score then ("High", "Medium - Good Community")
        else if Qle_bool 30 final_score then ("Moderate", "High - Limited Community")
        else if Qle_bool 10 final_score then ("Low", "Very High - Minimal Interest")
        else ("Very Low", "Extremely High - No Community") in
      {| engagement_score := round1 final_score;
         notable_accounts := elements (list_to_set (tally_notable_accounts t) : gset string);
         total_mentions := Z.of_nat (length verified_results);
         engagement_level := engagement_level;
         risk_assessment := risk_level;
         authentic_mentions := Z.of_nat (length verified_results);
         total_engagement :=
           Some {| likes := total_likes t; retweets := total_retweets t;
                   replies := total_replies t |} |}
  end.

(** *** The aggregate in the words of the specification *)

(** The sum of one engagement count over the mentions. *)
Definition sum_of (key : string) (l : list Mention) : Z :=
  foldr (fun m acc => engagement_get m key + acc) 0 l.

(** An author is notable when the handle, case-folded, contains one of the
    configured keywords and the post has more than 100 likes. *)
Definition is_notable (m : Mention) : Prop :=
  (exists pattern, pattern ∈ notable_patterns /\
                   occurs_in pattern (PyStr.lower (author m))) /\
  100 < engagement_get m "likes".

(** [accounts] is the set of the distinct notable accounts of [l]. *)
Definition notable_set (l : list Mention) (accounts : gset string) : Prop :=
  forall a, a ∈ accounts <-> exists m, m ∈ l /\ is_notable m /\ a = PyStr.lower (author m).

(** No engagement count that enters the tally is negative. *)
Definition counts_nonnegative (l : list Mention) : Prop :=
  Forall (fun m => 0 <= engagement_get m "likes" /\
                   0 <= engagement_get m "retweets" /\
                   0 <= engagement_get m "replies") l.

(** Breadth, depth and authority, capped at 100. *)
Definition engagement_formula (count likes reposts notable : Z) : Q :=
  Qmin (inject_Z (Z.min (count * 15) 60)
        + Qmin ((likes + 2 * reposts) # 10) 30
        + inject_Z (10 * notable))%Q 100.

(** A verified post of an account that counts as notable. *)
Definition influencer_post : Mention :=
  {| title := "BONK is the next gem";
     content := "Loading up on $BONK, pump.fun launch of the week";
     url := "https://x.com/Crypto_King/status/1700000200";
     author := "@Crypto_King";
     engagement := {[ "likes" := 157; "retweets" := 31 ]};
     verification_score := Some 80 |}.

(** ** Source resolver ([get_token_info_from_multiple_sources]) *)

(** A decoded JSON document; integers stand for the numbers. *)
#[local] Set Warnings "-register-all".
Inductive json :=
  | JNull
  | JBool (b : bool)
  | JNum (z : Z)
  | JStr (s : string)
  | JArr (items : list json)
  | JObj (members : gmap string json).
#[local] Set Warnings "register-all".

(** Python operations on decoded JSON; [None] is a raised exception. *)
Module Py.

(** [bool(x)] *)
Definition truthy (x : json) : bool :=
  match x with
  | JNull => false
  | JBool b => b
  | JNum z => negb (z =? 0)
  | JStr s => PyStr.truthy s
  | JArr items => match items with [] => false | _ => true end
  | JObj members => negb (size members =? 0)%nat
  end.

(** [x.get(key)]: [AttributeError] unless [x] is a dictionary. *)
Definition get (x : json) (key : string) : option json :=
  match x with
  | JObj members => Some (default JNull (members !! key))
  | _ => None
  end.

(** [x.get(key, default)] *)
Definition get_default (x : json) (key : string) (dflt : json) : option json :=
  match x with
  | JObj members => Some (default dflt (members !! key))
  | _ => None
  end.

(** [x[key]]: [KeyError] for an absent key, [TypeError] or the like when
    [x] is no dictionary (a list or string indexed by a string). *)
Definition item (x : json) (key : string) : option json :=
  match x with
  | JObj members => members !! key
  | _ => None
  end.

(** [x[0]]: the first element of a list, the first character of a string;
    [IndexError], [KeyError] or [TypeError] otherwise. *)
Definition first (x : json) : option json :=
  match x with
  | JArr (y :: _) => Some y
  | JStr (String c _) => Some (JStr (String c EmptyString))
  | _ => None
  end.

(** [len(x)]: [TypeError] for [None], booleans and numbers. *)
Definition len (x : json) : option Z :=
  match x with
  | JArr items => Some (Z.of_nat (length items))
  | JStr s => Some (PyStr.len s)
  | JObj members => Some (Z.of_nat (size members))
  | _ => None
  end.

End Py.

(** The token-information dictionary.  A parser's dictionary has no
    ["fallback"] key, which reads as [false]. *)
Module Token.
Record info := {
  name : json;
  symbol : json;
  decimals : json;
  supply : json;
  success : bool;
  fallback : bool;
  source : string
}.
End Token.

(** What a parser returns: the dictionary [{"success": False}], or a full
    dictionary. *)
Inductive Parsed (R : Type) :=
  | NoData
  | Data (r : R).
Arguments NoData {R}.
Arguments Data {R} r.

(** [f"Token {contract_address[:8]}..."] *)
Definition placeholder_name (contract_address : string) : string :=
  ("Token " ++ PyStr.take 8 contract_address ++ "...")%string.

Definition _parse_dexscreener_token_info (data : json) (contract_address : string)
    : option (Parsed Token.info) :=
  pairs ← Py.get data "pairs";
  if negb (Py.truthy pairs) then Some NoData
  else
    pairs ← Py.item data "pairs";
    n ← Py.len pairs;
    if n =? 0 then Some NoData
    else
      pair ← (Py.item data "pairs" ≫= Py.first);
      base_token ← Py.get_default pair "baseToken" (JObj ∅);
      name ← Py.get_default base_token "name" (JStr (placeholder_name contract_address));
      symbol ← Py.get_default base_token "symbol" (JStr "UNKNOWN");
      decimals ← (Py.get_default pair "info" (JObj ∅)
                    ≫= fun info => Py.get_default info "decimals" (JNum 9));
      supply ← (Py.get_default pair "info" (JObj ∅)
                  ≫= fun info => Py.get_default info "totalSupply" (JStr "Unknown"));
      Some (Data {| Token.name := name; Token.symbol := symbol;
                    Token.decimals := decimals; Token.supply := supply;
                    Token.success := true; Token.fallback := false;
                    Token.source := "DexScreener" |}).

Definition _parse_jupiter_token_info (data : json) (contract_address : string)
    : option (Parsed Token.info) :=
  d ← Py.get data "data";
  if negb (Py.truthy d) then Some NoData
  else
    entry ← (Py.item data "data" ≫= fun d => Py.get d contract_address);
    if negb (Py.truthy entry) then Some NoData
    else
      token_data ← (Py.item data "data" ≫= fun d => Py.item d contract_address);
      name ← Py.get_default token_data "name" (JStr (placeholder_name contract_address));
      symbol ← Py.get_default token_data "symbol" (JStr "UNKNOWN");
      decimals ← Py.get_default token_data "decimals" (JNum 9);
      Some (Data {| Token.name := name; Token.symbol := symbol;
                    Token.decimals := decimals; Token.supply := JStr "Unknown";
                    Token.success := true; Token.fallback := false;
                    Token.source := "Jupiter" |}).

Definition _parse_solscan_token_info (data : json) (contract_address : string)
    : option (Parsed Token.info) :=
  name ← (Py.get_default data "symbol" (JStr (placeholder_name contract_address))
            ≫= fun dflt => Py.get_default data "name" dflt);
  symbol ← Py.get_default data "symbol" (JStr "UNKNOWN");
  decimals ← Py.get_default data "decimals" (JNum 9);
  supply ← (Py.get_default data "totalSupply" (JStr "Unknown")
              ≫= fun dflt => Py.get_default data "supply" dflt);
  Some (Data {| Token.name := name; Token.symbol := symbol;
                Token.decimals := decimals; Token.supply := supply;
                Token.success := true; Token.fallback := false;
                Token.source := "Solscan" |}).

Definition _create_fallback_token_info (contract_address : string) : Token.info :=
  {| Token.name := JStr (placeholder_name contract_address);
     Token.symbol := JStr "UNKNOWN";
     Token.decimals := JNum 9;
     Token.supply := JStr "Unknown";
     Token.success := false;
     Token.fallback := true;
     Token.source := "Fallback" |}.

(** What [requests.get(url, timeout=15)] comes to: an exception (time-out,
    connection error), or a response with its status code and its body as
    [response.json()] decodes it ([None] when that raises). *)
Inductive Response :=
  | Raises
  | Http (status_code : Z) (body : option json).

(** An entry of the [sources] list. *)
Record Source (R : Type) := {
  source_name : string;
  source_url : string;
  source_parser : json -> string -> option (Parsed R)
}.
Arguments source_name {R} _.
Arguments source_url {R} _.
Arguments source_parser {R} _.

Section resolver.
Context {R : Type}.
(** [info.get("success")] *)
Variable succeeded : R -> bool.
(** The network, as a function of the URL requested. *)
Variable fetch : string -> Response.

(** The body of the [try] block for one source: [Some r] when the function
    returns [r] from inside the loop, [None] when the loop goes on (status
    other than 200, unsuccessful parse, or an exception caught). *)
Definition try_source (source : Source R) (contract_address : string) : option R :=
  match fetch (source_url source) with
  | Raises => None
  | Http status_code body =>
      if status_code =? 200 then
        match body with
        | None => None
        | Some data =>
            match source_parser source data contract_address with
            | Some (Data info) => if succeeded info then Some info else None
            | Some NoData => None
            | None => None
            end
        end
      else None
  end.

(** The [for source in sources] loop; [requested] lists the URLs passed to
    [requests.get] so far, in order. *)
Fixpoint try_sources (sources : list (Source R)) (contract_address : string)
    (requested : list string) : option R * list string :=
  match sources with
  | [] => (None, requested)
  | source :: rest =>
      let requested := (requested ++ [source_url source])%list in
      match try_source source contract_address with
      | Some info => (Some info, requested)
      | None => try_sources rest contract_address requested
      end
  end.
End resolver.

Definition token_sources (contract_address : string) : list (Source Token.info) :=
  [ {| source_name := "DexScreener";
       source_url := "https://api.dexscreener.com/latest/dex/tokens/" ++ contract_address;
       source_parser := _parse_dexscreener_token_info |};
    {| source_name := "Jupiter API";
       source_url := "https://price.jup.ag/v4/price?ids=" ++ contract_address;
       source_parser := _parse_jupiter_token_info |};
    {| source_name := "Solscan";
       source_url := "https://public-api.solscan.io/token/meta?tokenAddress=" ++ contract_address;
       source_parser := _parse_solscan_token_info |} ]%string.

(** The function returns the token information; the second component lists
    the URLs it has requested. *)
Definition get_token_info_from_multiple_sources (fetch : string -> Response)
    (contract_address : string) : Token.info * list string :=
  let sources := token_sources contract_address in
  match try_sources Token.success fetch sources contract_address [] with
  | (Some token_info, requested) => (token_info, requested)
  | (None, requested) => (_create_fallback_token_info contract_address, requested)
  end.

(** *** Provider outcomes in the words of the specification *)

(** The provider answers 200 with [data] and its parser makes the successful
    [info] of it. *)
Definition source_succeeds {R} (succeeded : R -> bool) (fetch : string -> Response)
    (contract_address : string) (source : Source R) (info : R) : Prop :=
  exists data,
    fetch (source_url source) = Http 200 (Some data) /\
    source_parser source data contract_address = Some (Data info) /\
    succeeded info = true.

(** The provider fails: transport failure, a status other than 200, a body
    that does not decode, or a parse that raises or does not report
    success. *)
Definition source_fails {R} (succeeded : R -> bool) (fetch : string -> Response)
    (contract_address : string) (source : Source R) : Prop :=
  fetch (source_url source) = Raises \/
  (exists status_code body,
     fetch (source_url source) = Http status_code body /\ status_code <> 200) \/
  fetch (source_url source) = Http 200 None \/
  (exists data,
     fetch (source_url source) = Http 200 (Some data) /\
     (source_parser source data contract_address = None \/
      source_parser source data contract_address = Some NoData \/
      exists info, source_parser source data contract_address = Some (Data info) /\
                   succeeded info = false)).

(** The label each parser of [token_sources] stamps on its result, by
    position. *)
Definition parser_labels : list string := ["DexScreener"; "Jupiter"; "Solscan"].

(** A network where DexScreener times out, Jupiter knows the token and
    nothing else answers. *)
Definition jupiter_only (url : string) : Response :=
  if String.eqb url ("https://price.jup.ag/v4/price?ids=" ++ test_contract)%string then
    Http 200 (Some (JObj {[ "data" :=
      JObj {[ test_contract := JObj {[ "name" := JStr "Bonk"; "symbol" := JStr "BONK" ]} ]} ]}))
  else if String.eqb url ("https://api.dexscreener.com/latest/dex/tokens/" ++ test_contract)%string
  then Raises
  else Http 404 None.

(** A network where every request times out. *)
Definition network_down (url : string) : Response := Raises.

(** ** Recommendation scorer ([generate_accurate_investment_recommendation]) *)

(** The price dictionary, each field as [str(...)] renders it. *)
Module Price.
Record data := {
  price_usd : string;
  market_cap : string;
  liquidity : string;
  volume_24h : string;
  price_change_24h : string;
  dex : string;
  success : bool;
  fallback : bool;
  source : string
}.
End Price.

Definition _create_fallback_price_data : Price.data :=
  {| Price.price_usd := "Unknown";
     Price.market_cap := "Unknown";
     Price.liquidity := "Unknown";
     Price.volume_24h := "Unknown";
     Price.price_change_24h := "Unknown";
     Price.dex := "Unknown";
     Price.success := false;
     Price.fallback := true;
     Price.source := "Fallback" |}.

(** [s.replace(".", "").replace(",", "").isdigit()] *)
Definition looks_numeric (s : string) : bool :=
  PyStr.isdigit (PyStr.remove_char "," (PyStr.remove_char "." s)).

(** The value of a string of decimal digits. *)
Fixpoint digits_value (s : string) (acc : Z) : Z :=
  match s with
  | EmptyString => acc
  | String c rest => digits_value rest (10 * acc + (Z.of_nat (nat_of_ascii c) - 48))
  end.

(** The text before the first ["."], and the text after it if there is
    one. *)
Fixpoint split_at_dot (s : string) : string * option string :=
  match s with
  | EmptyString => (EmptyString, None)
  | String c rest =>
      if Ascii.eqb c "." then (EmptyString, Some rest)
      else let '(whole, fraction) := split_at_dot rest in (String c whole, fraction)
  end.

(** [float(s)] for a string of digits and dots with at least one digit, which
    is all the program passes to it: the exact decimal value, or [None]
    ([ValueError]) when there is more than one dot. *)
Definition py_float (s : string) : option Q :=
  match split_at_dot s with
  | (whole, None) =>
      if PyStr.isdigit whole then Some (inject_Z (digits_value whole 0)) else None
  | (whole, Some fraction) =>
      if PyStr.isdigit (whole ++ fraction)%string
      then Some (Qmake (digits_value (whole ++ fraction)%string 0)
                   (Z.to_pos (10 ^ PyStr.len fraction)))
      else None
  end.

(** The lines of the breakdown.  A constructor stands for one message of the
    program and carries the values its f-string interpolates. *)
Inductive Reason :=
  | NoVerifiedMentions
  | StrongSocialPresence (authentic_mentions : Z)
  | ModerateSocialPresence (authentic_mentions : Z)
  | WeakSocialPresence (authentic_mentions : Z)
  | ManyNotableAccounts (count : nat)
  | SomeNotableAccounts (count : nat)
  | NoNotableAccounts
  | StrongLiquidity (amount : Q)
  | ModerateLiquidity (amount : Q)
  | LowLiquidity (amount : Q)
  | UnknownLiquidity
  | HighVolume (amount : Q)
  | ModerateVolume (amount : Q)
  | LowVolume (amount : Q)
  | UnknownVolume
  | UnableToAnalyze.

(** The message as the program writes it, interpolations left in place. *)
Definition reason_text (r : Reason) : string :=
  match r with
  | NoVerifiedMentions => "❌ No verified social media mentions found"
  | StrongSocialPresence _ => "✅ Strong social presence ({authentic_mentions} verified mentions)"
  | ModerateSocialPresence _ => "⚠️ Moderate social presence ({authentic_mentions} verified mentions)"
  | WeakSocialPresence _ => "❌ Weak social presence ({authentic_mentions} verified mentions)"
  | ManyNotableAccounts _ => "✅ {len(notable_accounts)} notable accounts discussing"
  | SomeNotableAccounts _ => "⚠️ {len(notable_accounts)} notable account(s) discussing"
  | NoNotableAccounts => "❌ No notable accounts discussing"
  | StrongLiquidity _ => "✅ Strong liquidity (${liquidity:,.0f})"
  | ModerateLiquidity _ => "⚠️ Moderate liquidity (${liquidity:,.0f})"
  | LowLiquidity _ => "❌ Low liquidity (${liquidity:,.0f})"
  | UnknownLiquidity => "❌ Unknown liquidity data"
  | HighVolume _ => "✅ High trading volume (${volume:,.0f}/24h)"
  | ModerateVolume _ => "⚠️ Moderate trading volume (${volume:,.0f}/24h)"
  | LowVolume _ => "❌ Low trading volume (${volume:,.0f}/24h)"
  | UnknownVolume => "❌ Unknown volume data"
  | UnableToAnalyze => "❌ Unable to analyze market data"
  end.

Record Recommendation := {
  recommendation : string;
  score : Z;
  risk_level : string;
  reasons : list Reason;
  analysis_quality : string;
  confidence : string
}.

(** The running [score] and [reasons]. *)
Definition Progress : Type := Z * list Reason.

(** [score += points; reasons.append(reason)] *)
Definition credit (p : Progress) (points : Z) (reason : Reason) : Progress :=
  (p.1 + points, (p.2 ++ [reason])%list).

(** "Social Media Analysis" *)
Definition social_analysis (social_data : EngagementSummary) (p : Progress) : Progress :=
  let social_score := engagement_score social_data in
  let authentic_mentions := authentic_mentions social_data in
  if authentic_mentions =? 0 then credit p 0 NoVerifiedMentions
  else if Qle_bool 70 social_score then credit p 40 (StrongSocialPresence authentic_mentions)
  else if Qle_bool 40 social_score then credit p 25 (ModerateSocialPresence authentic_mentions)
  else credit p 10 (WeakSocialPresence authentic_mentions).

(** "Notable Accounts Analysis" *)
Definition notable_analysis (social_data : EngagementSummary) (p : Progress) : Progress :=
  let notable_accounts := notable_accounts social_data in
  if (3 <=? length notable_accounts)%nat
  then credit p 20 (ManyNotableAccounts (length notable_accounts))
  else if (1 <=? length notable_accounts)%nat
  then credit p 10 (SomeNotableAccounts (length notable_accounts))
  else credit p 0 NoNotableAccounts.

(** "Liquidity analysis"; [None] when [float] raises. *)
Definition liquidity_analysis (price_data : Price.data) (p : Progress) : option Progress :=
  let liquidity_str := Price.liquidity price_data in
  if looks_numeric liquidity_str then
    liquidity ← py_float (PyStr.remove_char "," liquidity_str);
    if Qle_bool 100000 liquidity then Some (credit p 20 (StrongLiquidity liquidity))
    else if Qle_bool 25000 liquidity then Some (credit p 10 (ModerateLiquidity liquidity))
    else Some (credit p 0 (LowLiquidity liquidity))
  else Some (credit p 0 UnknownLiquidity).

(** "Volume analysis"; [None] when [float] raises. *)
Definition volume_analysis (price_data : Price.data) (p : Progress) : option Progress :=
  let volume_str := Price.volume_24h price_data in
  if looks_numeric volume_str then
    volume ← py_float (PyStr.remove_char "," volume_str);
    if Qle_bool 100000 volume then Some (credit p 20 (HighVolume volume))
    else if Qle_bool 25000 volume then Some (credit p 10 (ModerateVolume volume))
    else Some (credit p 0 (LowVolume volume))
  else Some (credit p 0 UnknownVolume).

(** The [try] block "Market Data Analysis" with its [except] clause: what
    was credited before the exception stays. *)
Definition market_analysis (price_data : Price.data) (p : Progress) : Progress :=
  match liquidity_analysis price_data p with
  | None => credit p 0 UnableToAnalyze
  | Some p1 =>
      match volume_analysis price_data p1 with
      | None => credit p1 0 UnableToAnalyze
      | Some p2 => p2
      end
  end.

Definition generate_accurate_investment_recommendation
    (token_data : Token.info) (price_data : Price.data) (social_data : EngagementSummary)
    : Recommendation :=
  let p : Progress := (0, []) in
  let p := social_analysis social_data p in
  let p := notable_analysis social_data p in
  let p := market_analysis price_data p in
  let score := p.1 in
  let reasons := p.2 in
  let '(recommendation, risk_level) :=
    if 85 <=? score then ("🟢 STRONG BUY - High Confidence", "Low")
    else if 65 <=? score then ("🟡 MODERATE BUY - Medium Confidence", "Medium")
    else if 45 <=? score then ("🟠 CAUTION - Low Confidence", "High")
    else if 25 <=? score then ("🔴 AVOID - Very Low Confidence", "Very High")
    else ("⛔ STRONG AVOID - No Confidence", "Extremely High") in
  {| recommendation := recommendation;
     score := score;
     risk_level := risk_level;
     reasons := reasons;
     analysis_quality := "High - Based on verified data";
     confidence := if 65 <=? score then "High" else if 45 <=? score then "Medium" else "Low" |}.

(** Sample market data: a liquid market, and one whose liquidity field has
    two decimal points. *)
Definition liquid_market : Price.data :=
  {| Price.price_usd := "0.0042";
     Price.market_cap := "4200000";
     Price.liquidity := "150,000.50";
     Price.volume_24h := "60000";
     Price.price_change_24h := "12.5";
     Price.dex := "raydium";
     Price.success := true;
     Price.fallback := false;
     Price.source := "DexScreener" |}.

Definition garbled_market : Price.data :=
  {| Price.price_usd := "0.0042";
     Price.market_cap := "4200000";
     Price.liquidity := "1.500.000";
     Price.volume_24h := "60000";
     Price.price_change_24h := "12.5";
     Price.dex := "raydium";
     Price.success := true;
     Price.fallback := false;
     Price.source := "DexScreener" |}.

(** Three verified mentions, one of them by a notable account. *)
Definition three_verified : list Mention :=
  [set_verification_score launch_post 130; set_verification_score trading_post 70;
   influencer_post].

(** The liquid market with a fifth of the liquidity. *)
Definition thin_market : Price.data :=
  {| Price.price_usd := "0.0042";
     Price.market_cap := "4200000";
     Price.liquidity := "30000";
     Price.volume_24h := "60000";
     Price.price_change_24h := "12.5";
     Price.dex := "raydium";
     Price.success := true;
     Price.fallback := false;
     Price.source := "DexScreener" |}.

(** A network where only Solscan answers, with an error object. *)
Definition solscan_error_only (url : string) : Response :=
  if String.eqb url
       ("https://public-api.solscan.io/token/meta?tokenAddress=" ++ test_contract)%string
  then Http 200 (Some (JObj {[ "error" := JStr "token not found" ]}))
  else Raises.

(** ** Price resolver ([get_comprehensive_price_data]) *)

Section price_sources.
(** [str(x)] for a decoded JSON value [x], as the fields of [Price.data]
    hold it; the properties below use of it that [str] of a string is the
    string, and nothing else. *)
Variable py_str : json -> string.

Definition _parse_dexscreener_price_data (data : json) (contract_address : string)
    : option (Parsed Price.data) :=
  pairs ← Py.get data "pairs";
  if negb (Py.truthy pairs) then Some NoData
  else
    pairs ← Py.item data "pairs";
    n ← Py.len pairs;
    if n =? 0 then Some NoData
    else
      pair ← (Py.item data "pairs" ≫= Py.first);
      price_usd ← Py.get_default pair "priceUsd" (JStr "0");
      market_cap ← Py.get_default pair "fdv" (JStr "Unknown");
      liquidity ← (Py.get_default pair "liquidity" (JObj ∅)
                     ≫= fun d => Py.get_default d "usd" (JStr "Unknown"));
      volume_24h ← (Py.get_default pair "volume" (JObj ∅)
                      ≫= fun d => Py.get_default d "h24" (JStr "Unknown"));
      price_change_24h ← (Py.get_default pair "priceChange" (JObj ∅)
                            ≫= fun d => Py.get_default d "h24" (JStr "Unknown"));
      dex ← Py.get_default pair "dexId" (JStr "Unknown");
      Some (Data {| Price.price_usd := py_str price_usd;
                    Price.market_cap := py_str market_cap;
                    Price.liquidity := py_str liquidity;
                    Price.volume_24h := py_str volume_24h;
                    Price.price_change_24h := py_str price_change_24h;
                    Price.dex := py_str dex;
                    Price.success := true;
                    Price.fallback := false;
                    Price.source := "DexScreener" |}).

Definition _parse_jupiter_price_data (data : json) (contract_address : string)
    : option (Parsed Price.data) :=
  d ← Py.get data "data";
  if negb (Py.truthy d) then Some NoData
  else
    entry ← (Py.item data "data" ≫= fun d => Py.get d contract_address);
    if negb (Py.truthy entry) then Some NoData
    else
      price_info ← (Py.item data "data" ≫= fun d => Py.item d contract_address);
      price ← Py.get_default price_info "price" (JNum 0);
      Some (Data {| Price.price_usd := py_str price;
                    Price.market_cap := "Unknown";
                    Price.liquidity := "Unknown";
                    Price.volume_24h := "Unknown";
                    Price.price_change_24h := "Unknown";
                    Price.dex := "Jupiter Aggregator";
                    Price.success := true;
                    Price.fallback := false;
                    Price.source := "Jupiter" |}).

Definition price_sources (contract_address : string) : list (Source Price.data) :=
  [ {| source_name := "DexScreener";
       source_url := "https://api.dexscreener.com/latest/dex/tokens/" ++ contract_address;
       source_parser := _parse_dexscreener_price_data |};
    {| source_name := "Jupiter Price API";
       source_url := "https://price.jup.ag/v4/price?ids=" ++ contract_address;
       source_parser := _parse_jupiter_price_data |} ]%string.

(** The function returns the price data; the second component lists the
    URLs it has requested. *)
Definition get_comprehensive_price_data (fetch : string -> Response)
    (contract_address : string) : Price.data * list string :=
  let sources := price_sources contract_address in
  match try_sources Price.success fetch sources contract_address [] with
  | (Some price_data, requested) => (price_data, requested)
  | (None, requested) => (_create_fallback_price_data, requested)
  end.
End price_sources.

(** A rendering of the scalars, for examples. *)
Definition str_of_scalar (x : json) : string :=
  match x with
  | JStr s => s
  | JNum z => pretty z
  | JBool true => "True"
  | JBool false => "False"
  | _ => "None"
  end.

(** ** Query synthesis and simulated search ([improved_social_media_search]) *)

(** The double quote, and a text between double quotes. *)
Definition dq : string := String "034" EmptyString.
Definition quoted (s : string) : string := (dq ++ s ++ dq)%string.

Definition _create_targeted_search_queries
    (contract_address token_name token_symbol : string) : list string :=
  let queries : list string := [] in
  let queries :=
    if PyStr.contains "pump" (PyStr.lower contract_address)
       || existsb (fun keyword => PyStr.contains keyword (PyStr.lower token_name))
            ["pump"; "meme"]
    then (queries ++
          [ "site:x.com " ++ quoted "pump.fun" ++ " " ++ quoted (PyStr.take 12 contract_address);
            "site:twitter.com " ++ quoted "pump.fun" ++ " " ++ quoted (PyStr.take 8 contract_address);
            "site:x.com " ++ quoted "pump fun" ++ " " ++ quoted (PyStr.take 12 contract_address)
          ]%string)%list
    else queries in
  let queries :=
    if PyStr.truthy token_symbol && negb (String.eqb token_symbol "UNKNOWN")
       && (PyStr.len token_symbol <=? 6)
    then (queries ++
          [ "site:x.com " ++ quoted ("$" ++ token_symbol) ++ " solana pump";
            "site:twitter.com " ++ quoted token_symbol ++ " pump.fun";
            "site:x.com " ++ quoted ("$" ++ token_symbol) ++ " " ++ quoted "just launched"
          ]%string)%list
    else queries in
  let queries :=
    (queries ++
     [ "site:x.com " ++ quoted (PyStr.take 16 contract_address ++ "...") ++ " solana";
       "site:twitter.com " ++ quoted (PyStr.take 12 contract_address) ++ " pump";
       "site:x.com " ++ quoted (PyStr.take 8 contract_address) ++ " memecoin"
     ]%string)%list in
  let queries :=
    (queries ++
     [ "site:x.com " ++ quoted "new token" ++ " " ++ quoted "pump.fun" ++ " solana";
       "site:twitter.com " ++ quoted "gem found" ++ " solana pump";
       "site:x.com " ++ quoted "moonshot" ++ " pump.fun"
     ]%string)%list in
  queries.

(** [s.isascii()]: every byte is below 128, so that bytes are characters
    and [lower] is [str.lower]. *)
Definition isascii (s : string) : bool :=
  PyStr.all_chars (fun c => (nat_of_ascii c <? 128)%nat) s.

(** The readings of [int(time.time())], in the order the program takes
    them. *)
Definition Clock : Type := nat -> Z.

(** The post of "Scenario 1"; the keys ["type"], ["verified"] and
    ["relevance_score"], which nothing reads, are left out of [Mention]. *)
Definition launch_announcement (contract_address token_symbol : string) (now : Z)
    : Mention :=
  {| title := "🚀 New token launch on pump.fun! " ++ token_symbol;
     content := "Just launched $" ++ token_symbol ++ " on pump.fun! Contract: "
                ++ PyStr.take 12 contract_address
                ++ "... Let's pump this to the moon! 🌙 #Solana #PumpFun #Memecoin";
     url := "https://x.com/crypto_trader/status/" ++ pretty now;
     author := "@crypto_trader_123";
     engagement := {[ "likes" := 45; "retweets" := 12; "replies" := 8 ]};
     verification_score := None |}%string.

(** The post of "Scenario 2". *)
Definition trading_discussion (token_symbol : string) (now : Z) : Mention :=
  {| title := "Trading $" ++ token_symbol ++ " on Solana";
     content := "Bought some $" ++ token_symbol
                ++ " earlier today. Chart looking good on pump.fun! Anyone else in on this? #SolanaMemes";
     url := "https://x.com/solana_degen/status/" ++ pretty (now + 100);
     author := "@solana_degen";
     engagement := {[ "likes" := 23; "retweets" := 5; "replies" := 15 ]};
     verification_score := None |}%string.

(** [tick] counts the clock readings taken so far; the function returns the
    posts and the new count. *)
Definition _simulate_realistic_social_search
    (query contract_address token_name token_symbol : string)
    (clock : Clock) (tick : nat) : list Mention * nat :=
  let realistic_results : list Mention := [] in
  let '(realistic_results, tick) :=
    if PyStr.contains "pump.fun" (PyStr.lower query) then
      if existsb (fun addr => PyStr.contains addr query)
           [PyStr.take 12 contract_address; PyStr.take 8 contract_address]
      then ((realistic_results
             ++ [launch_announcement contract_address token_symbol (clock tick)])%list,
            S tick)
      else (realistic_results, tick)
    else (realistic_results, tick) in
  let '(realistic_results, tick) :=
    if PyStr.truthy token_symbol && negb (String.eqb token_symbol "UNKNOWN")
    then ((realistic_results ++ [trading_discussion token_symbol (clock tick)])%list,
          S tick)
    else (realistic_results, tick) in
  (realistic_results, tick).

(** *** The three steps on the values a provider sends

    [improved_social_media_search] replaces its [token_name] and
    [token_symbol] by the ["name"] and ["symbol"] of the token information,
    which are decoded JSON values of any kind, and passes them on.  The
    functions of [Untyped] are the three functions above read on such
    values: a method a value lacks raises, which is [None]. *)
Module Untyped.
Section values.
(** [str(x)] for a value [x] that is no [str]. *)
Variable py_str : json -> string.

(** [x] as an f-string renders it: a [str] is itself. *)
Definition format (x : json) : string :=
  match x with
  | JStr s => s
  | _ => py_str x
  end.

(** [x.lower()]: [AttributeError] unless [x] is a [str]. *)
Definition lower (x : json) : option string :=
  match x with
  | JStr s => Some (PyStr.lower s)
  | _ => None
  end.

(** [x != s] for a string [s]. *)
Definition differs_from (x : json) (s : string) : bool :=
  match x with
  | JStr t => negb (String.eqb t s)
  | _ => true
  end.

(** [any(keyword in token_name.lower() ...)] is reached, and
    [token_name.lower()] evaluated, only when the address does not contain
    "pump". *)
Definition _create_targeted_search_queries
    (contract_address : string) (token_name token_symbol : json)
    : option (list string) :=
  let queries : list string := [] in
  pump_token ←
    (if PyStr.contains "pump" (PyStr.lower contract_address) then Some true
     else name ← lower token_name;
          Some (existsb (fun keyword => PyStr.contains keyword name) ["pump"; "meme"]));
  let queries :=
    if pump_token : bool
    then (queries ++
          [ "site:x.com " ++ quoted "pump.fun" ++ " " ++ quoted (PyStr.take 12 contract_address);
            "site:twitter.com " ++ quoted "pump.fun" ++ " " ++ quoted (PyStr.take 8 contract_address);
            "site:x.com " ++ quoted "pump fun" ++ " " ++ quoted (PyStr.take 12 contract_address)
          ]%string)%list
    else queries in
  real_symbol ←
    (if Py.truthy token_symbol && differs_from token_symbol "UNKNOWN"
     then n ← Py.len token_symbol; Some (n <=? 6)
     else Some false);
  let queries :=
    if real_symbol : bool
    then (queries ++
          [ "site:x.com " ++ quoted ("$" ++ format token_symbol) ++ " solana pump";
            "site:twitter.com " ++ quoted (format token_symbol) ++ " pump.fun";
            "site:x.com " ++ quoted ("$" ++ format token_symbol) ++ " " ++ quoted "just launched"
          ]%string)%list
    else queries in
  let queries :=
    (queries ++
     [ "site:x.com " ++ quoted (PyStr.take 16 contract_address ++ "...") ++ " solana";
       "site:twitter.com " ++ quoted (PyStr.take 12 contract_address) ++ " pump";
       "site:x.com " ++ quoted (PyStr.take 8 contract_address) ++ " memecoin"
     ]%string)%list in
  let queries :=
    (queries ++
     [ "site:x.com " ++ quoted "new token" ++ " " ++ quoted "pump.fun" ++ " solana";
       "site:twitter.com " ++ quoted "gem found" ++ " solana pump";
       "site:x.com " ++ quoted "moonshot" ++ " pump.fun"
     ]%string)%list in
  Some queries.

(** Nothing here can raise: the symbol is only tested and rendered. *)
Definition _simulate_realistic_social_search
    (query contract_address : string) (token_name token_symbol : json)
    (clock : Clock) (tick : nat) : list Mention * nat :=
  let realistic_results : list Mention := [] in
  let '(realistic_results, tick) :=
    if PyStr.contains "pump.fun" (PyStr.lower query) then
      if existsb (fun addr => PyStr.contains addr query)
           [PyStr.take 12 contract_address; PyStr.take 8 contract_address]
      then ((realistic_results
             ++ [launch_announcement contract_address (format token_symbol) (clock tick)])%list,
            S tick)
      else (realistic_results, tick)
    else (realistic_results, tick) in
  let '(realistic_results, tick) :=
    if Py.truthy token_symbol && differs_from token_symbol "UNKNOWN"
    then ((realistic_results
           ++ [trading_discussion (format token_symbol) (clock tick)])%list,
          S tick)
    else (realistic_results, tick) in
  (realistic_results, tick).

(** The loop over [search_queries[:5]], threading [all_results] and the
    clock. *)
Fixpoint simulate_queries (queries : list string)
    (contract_address : string) (token_name token_symbol : json)
    (clock : Clock) (tick : nat) (all_results : list Mention) : list Mention * nat :=
  match queries with
  | [] => (all_results, tick)
  | query :: rest =>
      let '(results, tick) :=
        _simulate_realistic_social_search query contract_address token_name token_symbol
          clock tick in
      let all_results :=
        match results with
        | [] => all_results
        | _ => (all_results ++ results)%list
        end in
      simulate_queries rest contract_address token_name token_symbol clock tick all_results
  end.

(** The score of one [result]; [token_symbol.lower()] raises for a symbol
    that is true and no [str]. *)
Definition verification_score_of
    (result : Mention) (contract_address : string) (token_symbol : json) : option Z :=
  let content := scored_text result in
  let verification_score := 0 in
  let verification_score :=
    if address_fragment_in contract_address content
    then verification_score + 50 else verification_score in
  verification_score ←
    (if Py.truthy token_symbol && differs_from token_symbol "UNKNOWN" then
       symbol ← lower token_symbol;
       Some (if PyStr.contains symbol content
                || PyStr.contains ("$" ++ symbol)%string content
             then verification_score + 30 else verification_score)
     else Some verification_score);
  let verification_score :=
    if PyStr.contains "pump" content
       && (PyStr.contains "fun" content || PyStr.contains "solana" content)
    then verification_score + 20 else verification_score in
  let url := url result in
  let verification_score :=
    if PyStr.contains "x.com" url || PyStr.contains "twitter.com" url
    then verification_score + 20 else verification_score in
  let verification_score :=
    if has_engagement_or_author result
    then verification_score + 10 else verification_score in
  Some verification_score.

Fixpoint verify_loop (results : list Mention)
    (contract_address : string) (token_name token_symbol : json)
    (verified_results : list Mention) : option (list Mention) :=
  match results with
  | [] => Some verified_results
  | result :: rest =>
      verification_score ← verification_score_of result contract_address token_symbol;
      if 70 <=? verification_score
      then verify_loop rest contract_address token_name token_symbol
             (verified_results ++ [set_verification_score result verification_score])%list
      else verify_loop rest contract_address token_name token_symbol verified_results
  end.

Definition _verify_and_filter_results (results : list Mention)
    (contract_address : string) (token_name token_symbol : json)
    : option (list Mention) :=
  verify_loop results contract_address token_name token_symbol [].

End values.
End Untyped.

Record SocialSearch := {
  social_success : bool;
  social_total_mentions : Z;
  social_results : list Mention;
  search_queries_used : Z;
  verification_passed : bool;
  analysis_method : string
}.

(** The name and the symbol the search goes on with: the values of the
    token information when it reports success, the arguments otherwise. *)
Definition resolved_identity (token_info : Token.info) (token_name token_symbol : string)
    : json * json :=
  if Token.success token_info
  then (Token.name token_info, Token.symbol token_info)
  else (JStr token_name, JStr token_symbol).

(** [None] when the function raises: building the queries and verifying
    the results are outside every [try]. *)
Definition improved_social_media_search (py_str : json -> string)
    (fetch : string -> Response) (clock : Clock)
    (contract_address token_name token_symbol : string) : option SocialSearch :=
  let token_info := (get_token_info_from_multiple_sources fetch contract_address).1 in
  let '(token_name, token_symbol) :=
    resolved_identity token_info token_name token_symbol in
  search_queries ←
    Untyped._create_targeted_search_queries py_str contract_address token_name token_symbol;
  let all_results :=
    (Untyped.simulate_queries py_str (take 5 search_queries) contract_address
       token_name token_symbol clock 0 []).1 in
  verified_results ←
    Untyped._verify_and_filter_results all_results contract_address token_name token_symbol;
  Some {| social_success := true;
          social_total_mentions := Z.of_nat (length verified_results);
          social_results := verified_results;
          search_queries_used := Z.of_nat (length search_queries);
          verification_passed := (0 <? Z.of_nat (length verified_results));
          analysis_method := "improved_multi_source" |}.

(** An address without "pump" in it. *)
Definition wrapped_sol : string := "So11111111111111111111111111111111111111112".

(** A network where only Solscan answers, with a symbol and a null name. *)
Definition solscan_null_name (url : string) : Response :=
  if PyStr.contains "solscan" url
  then Http 200 (Some (JObj {[ "name" := JNull; "symbol" := JStr "BONK" ]}))
  else Raises.

(** A network where DexScreener is down and Jupiter quotes a price. *)
Definition jupiter_price_only (url : string) : Response :=
  if String.eqb url ("https://price.jup.ag/v4/price?ids=" ++ test_contract)%string then
    Http 200 (Some (JObj {[ "data" :=
      JObj {[ test_contract := JObj {[ "price" := JNum 3 ]} ]} ]}))
  else Raises.

(** ** The earlier pipeline ([standalone_test.py], [app.py]) *)

(** *** [get_token_info_from_solscan] *)

(** The dictionary built from a 200 answer.  It has no ["source"] key; the
    field is left empty. *)
Definition solscan_meta (data : json) (contract_address : string)
    : option (Parsed Token.info) :=
  name ← (Py.get_default data "symbol" (JStr "Unknown Token")
            ≫= fun dflt => Py.get_default data "name" dflt);
  symbol ← Py.get_default data "symbol" (JStr "UNKNOWN");
  decimals ← Py.get_default data "decimals" (JNum 9);
  supply ← (Py.get_default data "totalSupply" (JStr "Unknown")
              ≫= fun dflt => Py.get_default data "supply" dflt);
  Some (Data {| Token.name := name; Token.symbol := symbol;
                Token.decimals := decimals; Token.supply := supply;
                Token.success := true; Token.fallback := false;
                Token.source := "" |}).

(** The two endpoints, which have no name of their own. *)
Definition solscan_endpoints (contract_address : string) : list (Source Token.info) :=
  [ {| source_name := "";
       source_url := "https://api.solscan.io/token/meta?token=" ++ contract_address;
       source_parser := solscan_meta |};
    {| source_name := "";
       source_url := "https://public-api.solscan.io/token/meta?tokenAddress=" ++ contract_address;
       source_parser := solscan_meta |} ]%string.

(** The fallback of [get_token_info_from_solscan], again without
    ["source"]. *)
Definition solscan_fallback (contract_address : string) : Token.info :=
  {| Token.name := JStr (placeholder_name contract_address);
     Token.symbol := JStr "UNKNOWN";
     Token.decimals := JNum 9;
     Token.supply := JStr "Unknown";
     Token.success := false;
     Token.fallback := true;
     Token.source := "" |}.

(** A status of 429, like any status other than 200, and any exception lead
    to the next endpoint. *)
Definition get_token_info_from_solscan (fetch : string -> Response)
    (contract_address : string) : Token.info * list string :=
  match try_sources Token.success fetch (solscan_endpoints contract_address)
          contract_address [] with
  | (Some token_info, requested) => (token_info, requested)
  | (None, requested) => (solscan_fallback contract_address, requested)
  end.

(** *** [get_token_price_data] *)

(** The dictionary of [get_token_price_data], whose values are the decoded
    JSON values as they come.  The success dictionary has no ["fallback"]
    key, which reads as [false]. *)
Module Quote.
Record data := {
  price_usd : json;
  market_cap : json;
  liquidity : json;
  volume_24h : json;
  price_change_24h : json;
  dex : json;
  success : bool;
  fallback : bool
}.
End Quote.

(** "Token exists but no trading pairs found" *)
Definition no_trading_data : Quote.data :=
  {| Quote.price_usd := JStr "0";
     Quote.market_cap := JStr "No trading data";
     Quote.liquidity := JStr "No liquidity";
     Quote.volume_24h := JStr "0";
     Quote.price_change_24h := JStr "0";
     Quote.dex := JStr "None";
     Quote.success := false;
     Quote.fallback := true |}.

(** "Fallback response" *)
Definition unknown_price_data : Quote.data :=
  {| Quote.price_usd := JStr "Unknown";
     Quote.market_cap := JStr "Unknown";
     Quote.liquidity := JStr "Unknown";
     Quote.volume_24h := JStr "Unknown";
     Quote.price_change_24h := JStr "Unknown";
     Quote.dex := JStr "Unknown";
     Quote.success := false;
     Quote.fallback := true |}.

(** [pair.get(key, {}).get(sub, "Unknown")] for a dictionary [pair]; [None]
    when the value under [key] is no dictionary and the second [.get]
    raises. *)
Definition nested_get (pair : gmap string json) (key sub : string) : option json :=
  match pair !! key with
  | None => Some (JStr "Unknown")
  | Some (JObj d) => Some (default (JStr "Unknown") (d !! sub))
  | Some _ => None
  end.

(** What the [try] block returns on a decoded 200 answer; [None] when it
    raises. *)
Definition price_from_pairs (data : json) : option Quote.data :=
  pairs ← Py.get data "pairs";
  has_pairs ← (if Py.truthy pairs
               then n ← (Py.item data "pairs" ≫= Py.len); Some (0 <? n)
               else Some false);
  if has_pairs : bool then
    pair ← (Py.item data "pairs" ≫= Py.first);
    price_usd ← Py.get_default pair "priceUsd" (JStr "0");
    market_cap ← Py.get_default pair "fdv" (JStr "Unknown");
    liquidity ← (Py.get_default pair "liquidity" (JObj ∅)
                   ≫= fun d => Py.get_default d "usd" (JStr "Unknown"));
    volume_24h ← (Py.get_default pair "volume" (JObj ∅)
                    ≫= fun d => Py.get_default d "h24" (JStr "Unknown"));
    price_change_24h ← (Py.get_default pair "priceChange" (JObj ∅)
                          ≫= fun d => Py.get_default d "h24" (JStr "Unknown"));
    dex ← Py.get_default pair "dexId" (JStr "Unknown");
    Some {| Quote.price_usd := price_usd;
            Quote.market_cap := market_cap;
            Quote.liquidity := liquidity;
            Quote.volume_24h := volume_24h;
            Quote.price_change_24h := price_change_24h;
            Quote.dex := dex;
            Quote.success := true;
            Quote.fallback := false |}
  else Some no_trading_data.

(** Any status other than 200 falls through to the fallback response, as
    does any exception. *)
Definition get_token_price_data (fetch : string -> Response) (contract_address : string)
    : Quote.data :=
  let url := ("https://api.dexscreener.com/latest/dex/tokens/" ++ contract_address)%string in
  match fetch url with
  | Raises => unknown_price_data
  | Http status_code body =>
      if status_code =? 200 then
        match body with
        | None => unknown_price_data
        | Some data =>
            match price_from_pairs data with
            | Some price_data => price_data
            | None => unknown_price_data
            end
        end
      else unknown_price_data
  end.

(** *** [search_x_mentions] *)

(** The characters [str.split()] splits at, among the first 128 (white
    space of other scripts is not modelled). *)
Definition is_space (c : ascii) : bool :=
  let n := nat_of_ascii c in
  ((9 <=? n) && (n <=? 13) || (28 <=? n) && (n <=? 32))%nat.

(** [len(s.split())]: the number of maximal runs of other characters;
    [in_word] tells whether the character before belongs to one. *)
Fixpoint word_count_from (in_word : bool) (s : string) : nat :=
  match s with
  | EmptyString => 0
  | String c rest =>
      if is_space c then word_count_from false rest
      else ((if in_word then 0 else 1) + word_count_from true rest)%nat
  end.

Definition word_count (s : string) : nat := word_count_from false s.

(** [x in [a, b]] for strings. *)
Definition one_of (x : string) (l : list string) : bool :=
  existsb (String.eqb x) l.

(** The list [queries] as [search_x_mentions] builds it. *)
Definition search_queries (contract_address token_name token_symbol : string)
    : list string :=
  let queries : list string := [] in
  let queries := (queries ++ [contract_address])%list in
  let queries := (queries ++ [PyStr.take 12 contract_address])%list in
  let queries := (queries ++ [PyStr.take 8 contract_address])%list in
  let queries := (queries ++ [contract_address ++ " solana"]%string)%list in
  let queries := (queries ++ [contract_address ++ " pump"]%string)%list in
  let queries :=
    if PyStr.truthy token_symbol && negb (one_of token_symbol ["Unknown"; "UNKNOWN"])
    then (((queries ++ [token_symbol ++ " " ++ PyStr.take 8 contract_address]%string)
             ++ ["$" ++ token_symbol ++ " solana"]%string)
            ++ ["$" ++ token_symbol ++ " pump.fun"]%string)%list
    else queries in
  let queries :=
    if PyStr.truthy token_name && negb (one_of token_name ["Unknown"; "Unknown Token"])
       && (word_count token_name <=? 3)%nat
    then ((queries ++ [quoted token_name ++ " " ++ PyStr.take 8 contract_address]%string)
            ++ [quoted token_name ++ " solana"]%string)%list
    else queries in
  queries.

(** The loop over the queries: [search query] is what the client returns
    for [query] ([None] when the call raises); a failing query is passed
    over. *)
Fixpoint gather_results (search : string -> option (list Exa.result))
    (queries : list string) (all_results : list Exa.result) : list Exa.result :=
  match queries with
  | [] => all_results
  | query :: rest =>
      match search query with
      | Some (r :: found) => gather_results search rest (all_results ++ r :: found)%list
      | Some [] => gather_results search rest all_results
      | None => gather_results search rest all_results
      end
  end.

Inductive SearchResponse :=
  | SearchFailed (error : string)
  | SearchDone (outcome : SearchOutcome).

(** [exa_client] is [None] when no client was set up. *)
Definition search_x_mentions (exa_client : option (string -> option (list Exa.result)))
    (contract_address token_name token_symbol : string) : SearchResponse :=
  match exa_client with
  | None => SearchFailed "Exa client not initialized"
  | Some search =>
      let queries := search_queries contract_address token_name token_symbol in
      let all_results := gather_results search queries [] in
      SearchDone (rank_mentions all_results contract_address token_name token_symbol)
  end.

(** *** [analyze_social_engagement] of [app.py] *)

Module App.

(** The summary dictionary; the two indicator counts are absent from the
    summary of an empty input, where the fields hold 0.  [notable_accounts]
    is [list(set(...))], whose order Python leaves open; nothing below
    depends on it. *)
Record summary := {
  engagement_score : Z;
  notable_accounts : list string;
  total_mentions : Z;
  engagement_level : string;
  risk_assessment : string;
  positive_indicators : Z;
  negative_indicators : Z
}.

Definition notable_patterns : list string :=
  [ "@elonmusk"; "@stoolpresidente"; "@VitalikButerin";
    "@binance"; "@coinbase"; "@cz_binance"; "@krakenfx"; "@okx";
    "@justinsuntron"; "@bgarlinghouse"; "@saylor"; "@novogratz";
    "@altcoingordon"; "@whalechart"; "@thecryptolark"; "@cryptocobain";
    "@pentosh1"; "@hsaka"; "@scottmelker"; "@cryptokaleo";
    "@solana"; "@aeyakovenko"; "@rajgokal"; "@stepnofficial";
    "@cointelegraph"; "@coindesk"; "@blockchain"; "@crypto" ].

Definition positive_words : list string :=
  [ "viral"; "moon"; "pump"; "trending"; "bullish"; "gem"; "diamond";
    "hold"; "hodl"; "rocket"; "lambo"; "ath"; "breakout"; "rally";
    "surge"; "exploding"; "fire"; "huge"; "massive" ].

Definition negative_words : list string :=
  [ "scam"; "rug"; "dump"; "bearish"; "avoid"; "dead"; "rekt";
    "crash"; "tanking"; "falling"; "losing"; "panic"; "sell";
    "warning"; "caution"; "sketchy"; "sus" ].

(** The lists the loop appends to; an indicator is [true] for "positive"
    and [false] for "negative". *)
Record tally := {
  tally_accounts : list string;
  tally_indicators : list bool
}.

(** One iteration of [for result in search_results]. *)
Definition tally_step (t : tally) (result : Exa.result) : tally :=
  let content := ranked_text result in
  let notable_accounts :=
    fold_left
      (fun accounts pattern =>
         if PyStr.contains (PyStr.lower pattern) content
         then (accounts ++ [pattern])%list else accounts)
      notable_patterns (tally_accounts t) in
  let engagement_indicators :=
    if existsb (fun word => PyStr.contains word content) positive_words
    then (tally_indicators t ++ [true])%list
    else if existsb (fun word => PyStr.contains word content) negative_words
    then (tally_indicators t ++ [false])%list
    else tally_indicators t in
  {| tally_accounts := notable_accounts; tally_indicators := engagement_indicators |}.

(** The list [queries] of [search_x_mentions] in [app.py]. *)
Definition search_queries (contract_address token_name token_symbol : string)
    : list string :=
  let queries : list string := [] in
  let queries := (queries ++ ["site:x.com " ++ quoted contract_address]%string)%list in
  let queries :=
    if PyStr.truthy token_name && negb (String.eqb token_name "Unknown")
    then (queries ++ ["site:x.com " ++ quoted token_name ++ " Solana token"]%string)%list
    else queries in
  let queries :=
    if PyStr.truthy token_symbol && negb (String.eqb token_symbol "Unknown")
    then (queries
            ++ ["site:x.com " ++ quoted ("$" ++ token_symbol) ++ " Solana memecoin"]%string)%list
    else queries in
  queries.

(** [search_x_mentions] of [app.py]: the same loop over the queries, and the
    gathered results returned as they are. *)
Definition search_x_mentions (exa_client : option (string -> option (list Exa.result)))
    (contract_address token_name token_symbol : string) : SearchResponse :=
  match exa_client with
  | None => SearchFailed "Exa client not initialized"
  | Some search =>
      let queries := search_queries contract_address token_name token_symbol in
      let all_results := gather_results search queries [] in
      SearchDone {| search_total_mentions := Z.of_nat (length all_results);
                    search_results := all_results |}
  end.

Definition analyze_social_engagement (search_results : list Exa.result) : summary :=
  match search_results with
  | [] =>
      {| engagement_score := 0;
         notable_accounts := [];
         total_mentions := 0;
         engagement_level := "None";
         risk_assessment := "Very High";
         positive_indicators := 0;
         negative_indicators := 0 |}
  | _ =>
      let t := fold_left tally_step search_results
                 {| tally_accounts := []; tally_indicators := [] |} in
      let base_score := Z.min (Z.of_nat (length search_results) * 10) 100 in
      let notable_bonus :=
        Z.of_nat (size (list_to_set (tally_accounts t) : gset string)) * 20 in
      let engagement_score := Z.min (base_score + notable_bonus) 100 in
      let '(engagement_level, risk_level) :=
        if 70 <=? engagement_score then ("High", "Low")
        else if 40 <=? engagement_score then ("Medium", "Medium")
        else if 10 <=? engagement_score then ("Low", "High")
        else ("None", "Very High") in
      {| engagement_score := engagement_score;
         notable_accounts := elements (list_to_set (tally_accounts t) : gset string);
         total_mentions := Z.of_nat (length search_results);
         engagement_level := engagement_level;
         risk_assessment := risk_level;
         positive_indicators :=
           Z.of_nat (length (filter (fun i => i = true) (tally_indicators t)));
         negative_indicators :=
           Z.of_nat (length (filter (fun i => i = false) (tally_indicators t))) |}
  end.

End App.

(** Sample search results: warnings of a scam, seven times over. *)
Definition scam_warning (n : nat) : Exa.result :=
  {| Exa.title := Some "SCAM ALERT";
     Exa.text := Some "This token is a rug, avoid it";
     Exa.url := Some ("https://x.com/watchdog/status/" ++ pretty n) |}.

Definition seven_warnings : list Exa.result := scam_warning <$> seq 0 7.

(** A search client that never finds anything. *)
Definition finds_nothing (query : string) : option (list Exa.result) := Some [].

(** A search client that fails on the queries with a space and finds the
    seven warnings for the others. *)
Definition flaky_search (query : string) : option (list Exa.result) :=
  if PyStr.contains " " query then None else Some seven_warnings.

(** A network where DexScreener knows the token and lists no pair. *)
Definition no_pairs_listed (url : string) : Response :=
  Http 200 (Some (JObj {[ "schemaVersion" := JStr "1.0.0"; "pairs" := JNull ]})).

(** A network where both Solscan endpoints answer, each with a name of its
    own. *)
Definition both_endpoints_answer (url : string) : Response :=
  if PyStr.contains "public-api" url
  then Http 200 (Some (JObj {[ "name" := JStr "second" ]}))
  else Http 200 (Some (JObj {[ "name" := JStr "first" ]})).

(** A search client that finds the same posts for every query. *)
Definition always_finds (found : list Exa.result) (query : string)
    : option (list Exa.result) := Some found.

(* ===================================================================== *)
(** * Properties *)
(* ===================================================================== *)

(** ** Facts about the string primitives *)

Lemma char_in_spec c chars :
  PyStr.char_in c chars = true <-> In c (list_ascii_of_string chars).
Proof.
  induction chars as [|d rest IH]; simpl.
  - split; [discriminate | tauto].
  - rewrite orb_true_iff, IH, Ascii.eqb_eq. split; intros [H|H]; auto.
Qed.

Lemma all_chars_spec p s :
  PyStr.all_chars p s = true <-> Forall (fun c => p c = true) (list_ascii_of_string s).
Proof.
  induction s as [|c rest IH]; simpl.
  - split; [constructor | reflexivity].
  - rewrite andb_true_iff, IH. split.
    + intros [H1 H2]. by constructor.
    + intros H. by inversion H.
Qed.

Lemma length_list_ascii s : length (list_ascii_of_string s) = String.length s.
Proof. induction s; simpl; congruence. Qed.

(** ** The validator *)

(** The base58 alphabet has 58 symbols. *)
Lemma valid_chars_length : PyStr.len valid_chars = 58.
Proof. reflexivity. Qed.

(** C9: [validate_solana_contract s] is [true] exactly when the length of [s]
    is within 32..44 and every character is of the base58 alphabet; so it is
    [false] for the empty string, for a length below 32 or above 44 and for a
    string with a character outside the alphabet, and [true] for every
    base58 string of length 32..44. *)
Theorem validate_solana_contract_spec (s : string) :
  validate_solana_contract s = true <->
  (32 <= PyStr.len s <= 44 /\ base58_only s).
Proof.
  unfold validate_solana_contract, base58_only.
  destruct s as [|c s]; simpl PyStr.truthy; simpl negb; cbv iota.
  - split; [discriminate|]. intros [[H _] _]. cbv in H. by destruct H.
  - set (t := String c s).
    destruct (PyStr.len t <? 32) eqn:E1; simpl orb; cbv iota.
    { split; [discriminate|]. apply Z.ltb_lt in E1. lia. }
    destruct (PyStr.len t >? 44) eqn:E2; cbv iota.
    { split; [discriminate|]. rewrite Z.gtb_gt in E2. lia. }
    apply Z.ltb_ge in E1. rewrite Z.gtb_ltb in E2. apply Z.ltb_ge in E2.
    rewrite all_chars_spec, List.Forall_forall.
    split.
    + intros H. split; [lia|]. intros d Hd. apply char_in_spec. by apply H.
    + intros [_ H] d Hd. apply char_in_spec. by apply H.
Qed.

(** The address of the test run is valid; a three-letter string is not. *)
Example validate_test_contract : validate_solana_contract test_contract = true.
Proof. reflexivity. Qed.

Example validate_abc : validate_solana_contract "abc" = false.
Proof. reflexivity. Qed.

(** ** String containment and ranges *)

Lemma prefix_spec n h :
  String.prefix n h = true <-> exists after, h = (n ++ after)%string.
Proof.
  revert h. induction n as [|c n IH]; intros h; simpl.
  - split; [intros _; by exists h | by destruct h].
  - destruct h as [|d h]; simpl.
    + split; [discriminate | intros [after H]; discriminate].
    + destruct (ascii_dec c d) as [->|Hne].
      * rewrite IH. split; intros [after H]; exists after.
        -- by rewrite H.
        -- by injection H.
      * split; [discriminate | intros [after H]; injection H; intros _ E; by destruct Hne].
Qed.

Lemma contains_unfold n h :
  PyStr.contains n h =
  String.prefix n h ||
  match h with EmptyString => false | String _ rest => PyStr.contains n rest end.
Proof. by destruct h. Qed.

Lemma contains_spec n h : PyStr.contains n h = true <-> occurs_in n h.
Proof.
  unfold occurs_in. split.
  - induction h as [|c h IH]; rewrite contains_unfold, orb_true_iff.
    + intros [H|H]; [|discriminate].
      apply prefix_spec in H as [after H]. by exists "", after.
    + intros [H|H].
      * apply prefix_spec in H as [after H]. by exists "", after.
      * destruct (IH H) as (before & after & ->). by exists (String c before), after.
  - intros (before & after & ->). induction before as [|c before IH].
    + rewrite contains_unfold, orb_true_iff. left. apply prefix_spec. by exists after.
    + simpl. by rewrite IH, orb_true_r.
Qed.

Lemma contains_false_spec n h : PyStr.contains n h = false <-> ~ occurs_in n h.
Proof. rewrite <- contains_spec. by destruct (PyStr.contains n h). Qed.

Lemma range_from_spec fuel i stop step x :
  0 < step -> stop - i <= Z.of_nat fuel ->
  In x (PyStr.range_from fuel i stop step) <->
  (exists k : nat, x = i + Z.of_nat k * step) /\ x < stop.
Proof.
  intros Hstep. revert i. induction fuel as [|fuel IH]; intros i Hfuel; simpl.
  - split; [tauto|]. intros [[k ->] H]. nia.
  - destruct (Z.ltb_spec i stop) as [Hlt|Hge]; simpl.
    + rewrite IH by lia. split.
      * intros [<-|[[k ->] H]]; [split; [exists 0%nat|]; lia|].
        split; [exists (S k)|]; lia.
      * intros [[[|k] ->] H]; [left; lia|right].
        split; [exists k|]; lia.
    + split; [tauto|]. intros [[k ->] H]. nia.
Qed.

Lemma range0_spec stop step x :
  0 < step ->
  In x (PyStr.range0 stop step) <-> (exists k : nat, x = Z.of_nat k * step) /\ x < stop.
Proof.
  intros Hstep. unfold PyStr.range0. rewrite range_from_spec by lia.
  by setoid_rewrite Z.add_0_l.
Qed.

Lemma truthy_spec s : PyStr.truthy s = true <-> s <> "".
Proof. destruct s; simpl; split; congruence. Qed.

(** ** The relevance verifier *)

Lemma address_fragment_in_spec identifier text :
  address_fragment_in identifier text = true <-> mentions_identifier identifier text.
Proof.
  unfold address_fragment_in, mentions_identifier, PyStr.slice, PyStr.len.
  rewrite List.existsb_exists. split.
  - intros (i & Hi & Hc). apply range0_spec in Hi as [[k ->] Hlt]; [|lia].
    exists k. split; [lia|]. apply contains_spec in Hc.
    by replace (Z.to_nat (Z.of_nat k * 4)) with (4 * k)%nat in Hc by lia.
  - intros (k & Hk & Hc). exists (Z.of_nat k * 4). split.
    + apply range0_spec; [lia|]. split; [by exists k | lia].
    + apply contains_spec.
      by replace (Z.to_nat (Z.of_nat k * 4)) with (4 * k)%nat by lia.
Qed.

Lemma symbol_known_spec symbol :
  symbol_known symbol = true <-> symbol <> "" /\ symbol <> "UNKNOWN".
Proof.
  unfold symbol_known.
  by rewrite andb_true_iff, negb_true_iff, truthy_spec, String.eqb_neq.
Qed.

Lemma has_engagement_or_author_spec m :
  has_engagement_or_author m = true <-> has_metadata m.
Proof.
  unfold has_engagement_or_author, has_metadata.
  by rewrite orb_true_iff, bool_decide_eq_true, truthy_spec.
Qed.

Lemma awards_reflect w P (b : bool) :
  (b = true <-> P) -> awards w P (if b then w else 0).
Proof.
  intros H. destruct b; [left | right]; split; try done.
  - by apply H.
  - intros HP. by apply H in HP.
Qed.

Lemma awards_functional w P s s' : awards w P s -> awards w P s' -> s = s'.
Proof. intros [[? ->]|[? ->]] [[? ->]|[? ->]]; tauto. Qed.

Lemma mentions_symbol_spec symbol text :
  symbol_known symbol &&
    (PyStr.contains (PyStr.lower symbol) text
     || PyStr.contains ("$" ++ PyStr.lower symbol)%string text) = true
  <-> mentions_symbol symbol text.
Proof.
  unfold mentions_symbol.
  rewrite andb_true_iff, orb_true_iff, symbol_known_spec, !contains_spec. tauto.
Qed.

Lemma has_domain_context_spec text :
  PyStr.contains "pump" text
    && (PyStr.contains "fun" text || PyStr.contains "solana" text) = true
  <-> has_domain_context text.
Proof.
  unfold has_domain_context.
  by rewrite andb_true_iff, orb_true_iff, !contains_spec.
Qed.

Lemma on_target_domain_spec u :
  PyStr.contains "x.com" u || PyStr.contains "twitter.com" u = true
  <-> on_target_domain u.
Proof. unfold on_target_domain. by rewrite orb_true_iff, !contains_spec. Qed.

(** The accumulation of the loop body, signal by signal. *)
Lemma verification_score_of_sum m identifier symbol :
  verification_score_of m identifier symbol =
  (if address_fragment_in identifier (scored_text m) then 50 else 0)
  + (if symbol_known symbol &&
        (PyStr.contains (PyStr.lower symbol) (scored_text m)
         || PyStr.contains ("$" ++ PyStr.lower symbol)%string (scored_text m))
     then 30 else 0)
  + (if PyStr.contains "pump" (scored_text m)
        && (PyStr.contains "fun" (scored_text m) || PyStr.contains "solana" (scored_text m))
     then 20 else 0)
  + (if PyStr.contains "x.com" (url m) || PyStr.contains "twitter.com" (url m)
     then 20 else 0)
  + (if has_engagement_or_author m then 10 else 0).
Proof.
  unfold verification_score_of. set (text := scored_text m).
  destruct (address_fragment_in identifier text), (symbol_known symbol),
    (PyStr.contains (PyStr.lower symbol) text
     || PyStr.contains ("$" ++ PyStr.lower symbol)%string text),
    (PyStr.contains "pump" text
     && (PyStr.contains "fun" text || PyStr.contains "solana" text)),
    (PyStr.contains "x.com" (url m) || PyStr.contains "twitter.com" (url m)),
    (has_engagement_or_author m); reflexivity.
Qed.

Lemma verification_score_of_signals m identifier symbol :
  signal_sum on_target_domain identifier symbol m
    (verification_score_of m identifier symbol).
Proof.
  rewrite verification_score_of_sum.
  change (scored_text m) with (folded_text m).
  do 5 eexists. repeat split.
  - apply awards_reflect, address_fragment_in_spec.
  - apply awards_reflect, mentions_symbol_spec.
  - apply awards_reflect, has_domain_context_spec.
  - apply awards_reflect, on_target_domain_spec.
  - apply awards_reflect, has_engagement_or_author_spec.
Qed.

Lemma verification_score_of_bounds m identifier symbol :
  0 <= verification_score_of m identifier symbol <= 130.
Proof.
  rewrite verification_score_of_sum.
  repeat match goal with |- context [if ?b then _ else _] => destruct b end; lia.
Qed.

Lemma signal_sum_functional domain_signal identifier symbol m s s' :
  signal_sum domain_signal identifier symbol m s ->
  signal_sum domain_signal identifier symbol m s' -> s = s'.
Proof.
  intros (a1 & a2 & a3 & a4 & a5 & A1 & A2 & A3 & A4 & A5 & ->)
         (b1 & b2 & b3 & b4 & b5 & B1 & B2 & B3 & B4 & B5 & ->).
  by rewrite (awards_functional _ _ _ _ A1 B1), (awards_functional _ _ _ _ A2 B2),
    (awards_functional _ _ _ _ A3 B3), (awards_functional _ _ _ _ A4 B4),
    (awards_functional _ _ _ _ A5 B5).
Qed.

Lemma verify_loop_spec results identifier name symbol acc :
  verify_loop results identifier name symbol acc =
  (acc ++ ((fun m => set_verification_score m (verification_score_of m identifier symbol))
             <$> filter (fun m => 70 <= verification_score_of m identifier symbol) results))%list.
Proof.
  revert acc. induction results as [|m results IH]; intros acc; simpl.
  - by rewrite app_nil_r.
  - destruct (Z.leb_spec 70 (verification_score_of m identifier symbol)) as [Hge|Hlt].
    + rewrite IH, filter_cons_True by done. by rewrite <- app_assoc.
    + rewrite IH, filter_cons_False by lia. done.
Qed.

Lemma carries_score_set m s : carries_score m s (set_verification_score m s).
Proof. by repeat split. Qed.

(** C1 fails on the code at the signal on the URL.  The claim awards +20 to
    a candidate whose URL is on a target domain; the program tests whether
    the URL contains the text x.com or twitter.com, under its comment "Must
    be from social media platform".  The host of the streaming post's URL is
    netflix.com, which is no target domain and under none, so that the sum
    of the claim's signals for it is 50 and no other number, below the
    threshold; the program scores it 70, for the text x.com in netflix.com,
    and retains it with that score attached. *)
Theorem foreign_host_earns_domain_credit :
  url_host (url streaming_post) = "netflix.com" /\
  host_on_target_domain (url streaming_post) = false /\
  signal_sum (fun u => host_on_target_domain u = true) test_contract "BONK"
    streaming_post 50 /\
  (forall s,
     signal_sum (fun u => host_on_target_domain u = true) test_contract "BONK"
       streaming_post s -> s = 50) /\
  exists v,
    _verify_and_filter_results [streaming_post] test_contract "" "BONK" = [v] /\
    carries_score streaming_post 70 v.
Proof.
  assert (signal_sum (fun u => host_on_target_domain u = true) test_contract "BONK"
            streaming_post 50) as Hsum.
  { exists 0, 30, 20, 0, 0. split_and!; [| | | | |done].
    - right. split; [|done]. rewrite <- address_fragment_in_spec. by vm_compute.
    - left. split; [|done]. apply mentions_symbol_spec. by vm_compute.
    - left. split; [|done]. apply has_domain_context_spec. by vm_compute.
    - right. split; [|done]. by vm_compute.
    - right. split; [|done]. rewrite <- has_engagement_or_author_spec. by vm_compute. }
  split_and!; [by vm_compute|by vm_compute|done| |].
  - intros s Hs. exact (signal_sum_functional _ _ _ _ _ _ Hs Hsum).
  - eexists. split; [by vm_compute|]. by repeat split.
Qed.

(** The reading of the specification is not an empty one: it takes the URLs
    of the platform, also under a subdomain, and refuses a URL that only
    mentions it. *)
Example target_hosts_recognised :
  host_on_target_domain (url launch_post) = true /\
  host_on_target_domain "https://mobile.twitter.com/solana_degen/status/1700000100" = true /\
  host_on_target_domain "https://example.org/share?to=twitter.com" = false /\
  on_target_domain "https://example.org/share?to=twitter.com".
Proof.
  split_and!; [by vm_compute..|]. apply on_target_domain_spec. by vm_compute.
Qed.

(** What the verifier does, signal by signal.  The score it accumulates for
    a candidate is the sum of the five independent signals over the
    case-folded title and body (+50 identifier fragment at stride 4, +30
    known symbol bare or sigil-prefixed, +20 keyword pair, +20 for a URL
    that contains the text x.com or twitter.com, +10 engagement or author
    metadata), and no other number is; the verifier returns exactly the
    candidates whose sum is at least 70, in their order, each unchanged but
    for the sum attached as [verification_score]. *)
Theorem verify_and_filter_retains_threshold
    (results : list Mention) (identifier name symbol : string) :
  exists score : Mention -> Z,
    (forall m s, signal_sum on_target_domain identifier symbol m s <-> s = score m) /\
    Forall2 (fun m v => carries_score m (score m) v)
      (filter (fun m => 70 <= score m) results)
      (_verify_and_filter_results results identifier name symbol).
Proof.
  exists (fun m => verification_score_of m identifier symbol). split.
  - intros m s. split.
    + intros H.
      exact (signal_sum_functional _ _ _ _ _ _ H
               (verification_score_of_signals m identifier symbol)).
    + intros ->. apply verification_score_of_signals.
  - unfold _verify_and_filter_results. rewrite verify_loop_spec, app_nil_l.
    induction (filter _ results) as [|m kept IH]; [constructor|].
    rewrite fmap_cons. constructor; [apply carries_score_set|exact IH].
Qed.

(** The verifier's output, member by member. *)
Lemma elem_of_verified results identifier name symbol v :
  v ∈ _verify_and_filter_results results identifier name symbol <->
  exists m, m ∈ results /\ 70 <= verification_score_of m identifier symbol /\
            v = set_verification_score m (verification_score_of m identifier symbol).
Proof.
  unfold _verify_and_filter_results. rewrite verify_loop_spec, app_nil_l.
  rewrite list_elem_of_fmap. split.
  - intros (m & -> & [Hge Hin]%list_elem_of_filter). by exists m.
  - intros (m & Hin & Hge & ->). exists m. by rewrite list_elem_of_filter.
Qed.

(** C2, as the code has it: every mention the verifier retains carries a
    [verification_score] that is an integer between 70 and 130; the five
    weights add up to 130 and nothing caps the sum at 100. *)
Theorem verified_score_between_70_and_130
    (results : list Mention) (identifier name symbol : string) (v : Mention) :
  v ∈ _verify_and_filter_results results identifier name symbol ->
  exists s, verification_score v = Some s /\ 70 <= s <= 130.
Proof.
  intros (m & _ & Hge & ->)%elem_of_verified.
  exists (verification_score_of m identifier symbol). split; [done|].
  pose proof (verification_score_of_bounds m identifier symbol). lia.
Qed.

Lemma verified_score_between_70_and_130_witness :
  exists s, verification_score (set_verification_score launch_post 130) = Some s
            /\ 70 <= s <= 130.
Proof.
  apply (verified_score_between_70_and_130 [launch_post] test_contract "" "BONK").
  vm_compute. apply list_elem_of_here.
Defined.

(** C2, as stated, fails: the launch post that quotes the address, names the
    symbol, has the keyword pair, an x.com URL and an author scores 130. *)
Lemma verified_score_can_exceed_100 :
  ~ (forall (results : list Mention) (identifier name symbol : string) (v : Mention),
       v ∈ _verify_and_filter_results results identifier name symbol ->
       exists s, verification_score v = Some s /\ 0 <= s <= 100).
Proof.
  intros H.
  destruct (H [launch_post] test_contract "" "BONK"
              (set_verification_score launch_post 130)) as (s & Hs & Hr).
  - vm_compute. apply list_elem_of_here.
  - simpl in Hs. injection Hs as <-. lia.
Qed.

Lemma no_identifier_substring identifier text :
  forallb
    (fun i => negb (PyStr.contains (PyStr.lower (String.substring i 8 identifier)) text))
    (seq 0 (String.length identifier - 7)) = true ->
  forall i : nat, (i + 8 <= String.length identifier)%nat ->
    ~ occurs_in (PyStr.lower (String.substring i 8 identifier)) text.
Proof.
  rewrite List.forallb_forall. intros Hall i Hi.
  apply contains_false_spec, negb_true_iff, Hall, in_seq. lia.
Qed.

(** C10: a candidate can pass the gate without any identifier match: the
    trading post contains, case-folded, no 8-character substring of the
    (valid) identifier at any position, let alone at the sampled ones, and
    carries no author or engagement data, yet the known symbol (+30), the
    keyword pair (+20) and the x.com URL (+20) give exactly 70 and it is
    retained with that score. *)
Theorem identifier_match_not_necessary :
  exists (m : Mention) (identifier symbol : string),
    validate_solana_contract identifier = true /\
    (forall i : nat, (i + 8 <= String.length identifier)%nat ->
       ~ occurs_in (PyStr.lower (String.substring i 8 identifier)) (scored_text m)) /\
    ~ mentions_identifier identifier (scored_text m) /\
    mentions_symbol symbol (scored_text m) /\
    has_domain_context (scored_text m) /\
    on_target_domain (url m) /\
    ~ has_metadata m /\
    verification_score_of m identifier symbol = 70 /\
    _verify_and_filter_results [m] identifier "" symbol = [set_verification_score m 70].
Proof.
  exists trading_post, test_contract, "BONK".
  split; [by vm_compute|].
  split. { apply no_identifier_substring. by vm_compute. }
  split. { rewrite <- address_fragment_in_spec. by vm_compute. }
  split. { apply mentions_symbol_spec. by vm_compute. }
  split. { apply has_domain_context_spec. by vm_compute. }
  split. { apply on_target_domain_spec. by vm_compute. }
  split. { rewrite <- has_engagement_or_author_spec. by vm_compute. }
  split; by vm_compute.
Qed.

(** ** The ranking path *)

Section ranking.
Context {A : Type} (key : A -> Z).

Lemma insert_by_key_perm x l : insert_by_key key x l ≡ₚ x :: l.
Proof.
  induction l as [|y l IH]; simpl; [done|].
  destruct (key x <? key y); [|done].
  by rewrite IH, Permutation_swap.
Qed.

Lemma sort_reverse_perm l : sort_reverse key l ≡ₚ l.
Proof.
  induction l as [|x l IH]; simpl; [done|].
  by rewrite insert_by_key_perm, IH.
Qed.

Lemma insert_by_key_sorted x l :
  StronglySorted (key_ge key) l -> StronglySorted (key_ge key) (insert_by_key key x l).
Proof.
  induction 1 as [|y l Hl IH Hy]; simpl.
  - repeat constructor.
  - destruct (Z.ltb_spec (key x) (key y)) as [Hlt|Hge].
    + constructor; [done|].
      rewrite insert_by_key_perm. constructor; [unfold key_ge; lia | done].
    + constructor; [by constructor|].
      constructor; [done|].
      eapply Forall_impl; [exact Hy|]. unfold key_ge. intros; simpl in *; lia.
Qed.

Lemma sort_reverse_sorted l : StronglySorted (key_ge key) (sort_reverse key l).
Proof.
  induction l as [|x l IH]; simpl; [constructor | by apply insert_by_key_sorted].
Qed.

(** The sort is stable: entries of equal key keep their order. *)
Lemma insert_by_key_stable (k : Z) x l :
  filter (fun y => key y = k) (insert_by_key key x l) =
  filter (fun y => key y = k) (x :: l).
Proof.
  induction l as [|y l IH]; simpl; [done|].
  destruct (Z.ltb_spec (key x) (key y)) as [Hlt|Hge]; [|done].
  rewrite filter_cons, IH, !filter_cons.
  destruct (decide (key y = k)), (decide (key x = k)); try done. lia.
Qed.

Lemma sort_reverse_stable (k : Z) l :
  filter (fun y => key y = k) (sort_reverse key l) = filter (fun y => key y = k) l.
Proof.
  induction l as [|x l IH]; simpl; [done|].
  by rewrite insert_by_key_stable, !filter_cons, IH.
Qed.

Lemma StronglySorted_sublist (R : relation A) (l k : list A) :
  l `sublist_of` k -> StronglySorted R k -> StronglySorted R l.
Proof.
  induction 1 as [|x l k Hs IH|x l k Hs IH]; intros Hk; [done|..].
  - inversion Hk as [|? ? Hk' Hx]; subst. constructor; [by apply IH|].
    apply List.Forall_forall. intros y Hy%list_elem_of_In.
    rewrite List.Forall_forall in Hx. apply Hx, list_elem_of_In.
    by eapply elem_of_sublist.
  - inversion Hk; subst. by apply IH.
Qed.
End ranking.

Lemma fold_left_count {B} (p : B -> bool) (w : Z) (l : list B) (s0 : Z) :
  fold_left (fun s k => if p k then s + w else s) l s0 =
  s0 + w * Z.of_nat (length (filter (fun k => p k = true) l)).
Proof.
  revert s0. induction l as [|k l IH]; intros s0; simpl; [lia|].
  rewrite IH, filter_cons. destruct (p k) eqn:E.
  - rewrite decide_True by done. simpl length. lia.
  - rewrite decide_False by congruence. lia.
Qed.

Lemma calculate_relevance_weights identifier name symbol r :
  calculate_relevance identifier name symbol r =
  relevance_by_weights 2 identifier name symbol r.
Proof.
  unfold calculate_relevance, relevance_by_weights, keywords_present, bonus.
  rewrite fold_left_count. simpl fold_left.
  change (Z.to_nat 12) with 12%nat. change (Z.to_nat 8) with 8%nat.
  change (Z.to_nat 6) with 6%nat.
  repeat match goal with |- context [if ?b then _ else _] => destruct b end; lia.
Qed.

(** C4, as the code has it: the ranking score is +100 for the full
    identifier, +50, +30 and +20 for its prefixes of 12, 8 and 6 characters,
    +20 for the symbol, +15 for the name and two points for each generic
    crypto keyword present; the de-duplicated candidates are sorted by this
    score in decreasing order, only those with a strictly positive score are
    kept and counted, and the first ten of them are returned. *)
Theorem ranking_weights_and_order
    (all_results : list Exa.result) (identifier name symbol : string) :
  let key := calculate_relevance identifier name symbol in
  let outcome := rank_mentions all_results identifier name symbol in
  (forall r, key r = relevance_by_weights 2 identifier name symbol r) /\
  exists relevant : list Exa.result,
    relevant ≡ₚ filter (fun r => 0 < key r) (remove_duplicates all_results) /\
    StronglySorted (key_ge key) relevant /\
    Forall (fun r => 0 < key r) relevant /\
    search_results outcome = take 10 relevant /\
    search_total_mentions outcome = Z.of_nat (length relevant).
Proof.
  intros key outcome. split; [apply calculate_relevance_weights|].
  exists (filter (fun r => 0 < key r) (sort_reverse key (remove_duplicates all_results))).
  repeat split.
  - by rewrite sort_reverse_perm.
  - eapply StronglySorted_sublist; [apply sublist_filter | apply sort_reverse_sorted].
  - apply List.Forall_forall. intros r Hr%list_elem_of_In.
    by apply list_elem_of_filter in Hr as [Hr _].
Qed.

(** C4, as stated, fails: a result whose text is the single keyword "pump"
    scores 2, not 1. *)
Lemma keyword_scores_two_points :
  calculate_relevance test_contract "" "" keyword_only_result = 2 /\
  keywords_present (ranked_text keyword_only_result) = 1 /\
  ~ (forall (identifier name symbol : string) (r : Exa.result),
       calculate_relevance identifier name symbol r =
       relevance_by_weights 1 identifier name symbol r).
Proof.
  split; [by vm_compute|]. split; [by vm_compute|].
  intros H. specialize (H test_contract "" "" keyword_only_result).
  vm_compute in H. discriminate H.
Qed.

(** ** De-duplication by URL *)

Lemma remove_duplicates_loop_acc l seen acc :
  remove_duplicates_loop l seen acc = (acc ++ remove_duplicates_loop l seen [])%list.
Proof.
  revert seen acc. induction l as [|x l IH]; intros seen acc; simpl.
  - by rewrite app_nil_r.
  - destruct (PyStr.truthy (result_url x) && negb (bool_decide (result_url x ∈ seen))).
    + rewrite (IH _ (acc ++ [x])%list), (IH _ ([] ++ [x])%list).
      by rewrite <- !app_assoc.
    + apply IH.
Qed.

(** One step of the loop: the head is kept when its URL is non-empty and
    new, and dropped otherwise. *)
Lemma remove_duplicates_loop_cons x l seen :
  remove_duplicates_loop (x :: l) seen [] =
  if decide (result_url x <> "" /\ (result_url x ∉ seen))
  then x :: remove_duplicates_loop l ({[ result_url x ]} ∪ seen) []
  else remove_duplicates_loop l seen [].
Proof.
  simpl. destruct (decide _) as [[Hne Hnew]|Hno].
  - apply truthy_spec in Hne. rewrite Hne, bool_decide_eq_false_2 by done. simpl.
    by rewrite remove_duplicates_loop_acc.
  - destruct (PyStr.truthy (result_url x)) eqn:Ht; [|done].
    apply truthy_spec in Ht.
    destruct (decide (result_url x ∈ seen)) as [Hin|Hnin]; [|tauto].
    by rewrite bool_decide_eq_true_2.
Qed.

Lemma remove_duplicates_loop_sublist l seen :
  remove_duplicates_loop l seen [] `sublist_of` l.
Proof.
  revert seen. induction l as [|x l IH]; intros seen; [done|].
  rewrite remove_duplicates_loop_cons. destruct (decide _).
  - by apply sublist_skip.
  - by apply sublist_cons.
Qed.

Lemma remove_duplicates_loop_elem_of l seen r :
  r ∈ remove_duplicates_loop l seen [] <->
  result_url r <> "" /\ (result_url r ∉ seen) /\ first_with_url l r.
Proof.
  unfold first_with_url.
  revert seen. induction l as [|x l IH]; intros seen.
  - simpl. split; [by intros ?%elem_of_nil|].
    intros (_ & _ & before & after & H & _). by destruct before.
  - rewrite remove_duplicates_loop_cons. destruct (decide _) as [[Hne Hnew]|Hno].
    + rewrite elem_of_cons, IH. split.
      * intros [->|(Hr & [Hx Hseen]%not_elem_of_union & before & after & -> & Hfirst)].
        -- repeat split; [done..|]. exists [], l. split; [done|].
           by intros r' ?%elem_of_nil.
        -- apply not_elem_of_singleton in Hx.
           repeat split; [done..|].
           exists (x :: before), after. split; [done|].
           intros r' [->|Hin]%elem_of_cons; [congruence|by apply Hfirst].
      * intros (Hr & Hseen & before & after & Heq & Hfirst).
        destruct before as [|y before]; simpl in Heq;
          injection Heq as Hhead Htail; subst.
        { by left. }
        right. repeat split; [done| |].
        -- assert (result_url y <> result_url r) as Hy by (apply Hfirst; left).
           apply not_elem_of_union. split; [|done].
           apply not_elem_of_singleton. congruence.
        -- exists before, after. split; [done|].
           intros r' Hin. apply Hfirst. by right.
    + rewrite IH. split.
      * intros (Hr & Hseen & before & after & -> & Hfirst).
        repeat split; [done..|].
        exists (x :: before), after. split; [done|].
        intros r' [->|Hin]%elem_of_cons; [|by apply Hfirst].
        intros Heq. apply Hno. by rewrite Heq.
      * intros (Hr & Hseen & before & after & Heq & Hfirst).
        destruct before as [|y before]; simpl in Heq;
          injection Heq as Hhead Htail; subst.
        { by destruct Hno. }
        repeat split; [done..|].
        exists before, after. split; [done|].
        intros r' Hin. apply Hfirst. by right.
Qed.

Lemma remove_duplicates_loop_NoDup l seen :
  NoDup (result_url <$> remove_duplicates_loop l seen []).
Proof.
  revert seen. induction l as [|x l IH]; intros seen; [constructor|].
  rewrite remove_duplicates_loop_cons. destruct (decide _) as [[Hne Hnew]|Hno]; [|done].
  rewrite fmap_cons. apply NoDup_cons. split; [|done].
  intros (r & Heq & Hin)%list_elem_of_fmap.
  apply remove_duplicates_loop_elem_of in Hin as (_ & Hseen & _).
  apply not_elem_of_union in Hseen as [Hx _].
  apply not_elem_of_singleton in Hx. congruence.
Qed.

Lemma search_results_sublist all_results identifier name symbol :
  search_results (rank_mentions all_results identifier name symbol) `sublist_of`
  sort_reverse (calculate_relevance identifier name symbol) (remove_duplicates all_results).
Proof.
  unfold rank_mentions; simpl.
  etrans; [apply sublist_take | apply sublist_filter].
Qed.

(** C3, as the code has it: the ranking path removes duplicates by URL before
    it scores: the pass keeps, in their original order, exactly the results
    that have a non-empty URL and are the first with that URL, so no URL
    occurs twice; the results [search_x_mentions] returns are taken among
    them and hold at most one entry per URL. *)
Theorem url_deduplication_in_ranking
    (all_results : list Exa.result) (identifier name symbol : string) :
  let unique_results := remove_duplicates all_results in
  let returned := search_results (rank_mentions all_results identifier name symbol) in
  unique_results `sublist_of` all_results /\
  NoDup (result_url <$> unique_results) /\
  (forall r, r ∈ unique_results <-> result_url r <> "" /\ first_with_url all_results r) /\
  NoDup (result_url <$> returned) /\
  (forall r, r ∈ returned -> r ∈ unique_results).
Proof.
  intros unique_results returned. subst unique_results returned.
  unfold remove_duplicates.
  split; [apply remove_duplicates_loop_sublist|].
  split; [apply remove_duplicates_loop_NoDup|].
  split.
  { intros r. rewrite remove_duplicates_loop_elem_of.
    split; [tauto|]. intros [? ?]. repeat split; [done| |done]. apply not_elem_of_empty. }
  pose proof (search_results_sublist all_results identifier name symbol) as Hsub.
  unfold remove_duplicates in Hsub. split.
  - eapply sublist_NoDup; [|by apply fmap_sublist].
    rewrite sort_reverse_perm. apply remove_duplicates_loop_NoDup.
  - intros r Hr. eapply elem_of_sublist in Hr; [|exact Hsub].
    by rewrite sort_reverse_perm in Hr.
Qed.

(** C3, as stated, fails for the verified output: the verifier has no
    de-duplication step, and two candidates with the same URL that both
    reach the threshold are both retained. *)
Lemma verifier_keeps_repeated_url :
  url launch_post = url launch_post_again /\
  _verify_and_filter_results [launch_post; launch_post_again] test_contract "" "BONK" =
    [set_verification_score launch_post 130;
     set_verification_score launch_post_again 130] /\
  ~ (forall (results : list Mention) (identifier name symbol u : string),
       (length (filter (fun m => url m = u)
                  (_verify_and_filter_results results identifier name symbol)) <= 1)%nat).
Proof.
  split; [done|]. split; [by vm_compute|].
  intros H.
  specialize (H [launch_post; launch_post_again] test_contract "" "BONK" (url launch_post)).
  vm_compute in H. lia.
Qed.

(** ** The engagement aggregator *)

Lemma tally_totals l t0 :
  total_likes (fold_left tally_step l t0) = total_likes t0 + sum_of "likes" l /\
  total_retweets (fold_left tally_step l t0) = total_retweets t0 + sum_of "retweets" l /\
  total_replies (fold_left tally_step l t0) = total_replies t0 + sum_of "replies" l.
Proof.
  revert t0. induction l as [|m l IH]; intros t0; simpl.
  - lia.
  - destruct (IH (tally_step t0 m)) as (-> & -> & ->). simpl. lia.
Qed.

Lemma is_notable_spec m :
  existsb (fun pattern => PyStr.contains pattern (PyStr.lower (author m))) notable_patterns
    && (engagement_get m "likes" >? 100) = true
  <-> is_notable m.
Proof.
  unfold is_notable.
  rewrite andb_true_iff, List.existsb_exists, Z.gtb_gt.
  setoid_rewrite contains_spec. setoid_rewrite <- list_elem_of_In.
  by rewrite Z.gt_lt_iff.
Qed.

Lemma tally_step_notable t m a :
  a ∈ tally_notable_accounts (tally_step t m) <->
  a ∈ tally_notable_accounts t \/ (is_notable m /\ a = PyStr.lower (author m)).
Proof.
  rewrite <- is_notable_spec. unfold tally_step.
  destruct (existsb _ notable_patterns); cbn [tally_notable_accounts andb].
  - destruct (engagement_get m "likes" >? 100).
    + rewrite elem_of_app, list_elem_of_singleton. intuition.
    + intuition discriminate.
  - intuition discriminate.
Qed.

Lemma tally_notable l t0 a :
  a ∈ tally_notable_accounts (fold_left tally_step l t0) <->
  a ∈ tally_notable_accounts t0 \/
  exists m, m ∈ l /\ is_notable m /\ a = PyStr.lower (author m).
Proof.
  revert t0. induction l as [|m l IH]; intros t0; simpl.
  - split; [by left|]. intros [H|(m & Hm%elem_of_nil & _)]; done.
  - rewrite IH, tally_step_notable. split.
    + intros [[H|[Hn ->]]|(m' & Hin & Hn & ->)].
      * by left.
      * right. exists m. split; [left|]; done.
      * right. exists m'. split; [by right|done].
    + intros [H|(m' & [->|Hin]%elem_of_cons & Hn & ->)].
      * by left; left.
      * by left; right.
      * right. by exists m'.
Qed.

Lemma sum_of_nonneg key l :
  Forall (fun m => 0 <= engagement_get m key) l -> 0 <= sum_of key l.
Proof. induction 1; simpl; lia. Qed.

(** Rationals with denominator ten. *)
Lemma inject_Z_tenths z : (inject_Z z == (10 * z) # 10)%Q.
Proof. unfold Qeq, inject_Z; simpl. lia. Qed.

Lemma Qplus_tenths a b : ((a # 10) + (b # 10) == (a + b) # 10)%Q.
Proof. unfold Qeq, Qplus; simpl. lia. Qed.

Lemma Qmin_tenths a b : (Qmin (a # 10) (b # 10) == Z.min a b # 10)%Q.
Proof.
  destruct (Z.min_spec a b) as [[Hlt ->]|[Hle ->]].
  - apply Q.min_l. unfold Qle; simpl. lia.
  - apply Q.min_r. unfold Qle; simpl. lia.
Qed.

Lemma round1_tenths q k : (q == k # 10)%Q -> (round1 q == k # 10)%Q.
Proof.
  intros Hq.
  assert (q * 10 == inject_Z k)%Q as Hk.
  { rewrite Hq. unfold Qeq, Qmult, inject_Z; simpl. lia. }
  unfold round1, round_half_even.
  rewrite (Qfloor_comp _ _ Hk), Qfloor_Z.
  assert ((q * 10 - inject_Z k ?= 1 # 2)%Q = Lt) as ->; [|reflexivity].
  rewrite <- Qlt_alt. rewrite Hk. unfold Qlt, Qminus, Qplus, Qopp, inject_Z; simpl. lia.
Qed.

Lemma engagement_formula_tenths count likes reposts notable :
  (engagement_formula count likes reposts notable ==
   Z.min (10 * Z.min (count * 15) 60 + Z.min (likes + 2 * reposts) 300 + 10 * (10 * notable))
         1000 # 10)%Q.
Proof.
  unfold engagement_formula.
  assert (30 == 300 # 10)%Q as -> by reflexivity.
  assert (100 == 1000 # 10)%Q as -> by reflexivity.
  rewrite (inject_Z_tenths (Z.min _ _)), (inject_Z_tenths (10 * notable)).
  by rewrite !Qmin_tenths, !Qplus_tenths, Qmin_tenths.
Qed.

Lemma final_score_formula l :
  final_score l =
  engagement_formula (Z.of_nat (length l)) (sum_of "likes" l) (sum_of "retweets" l)
    (Z.of_nat (size (list_to_set (tally_notable_accounts (tally_all l)) : gset string))).
Proof.
  unfold final_score, engagement_formula, tally_all.
  destruct (tally_totals l {| total_likes := 0; total_retweets := 0; total_replies := 0;
                              tally_notable_accounts := [] |}) as (-> & -> & _).
  simpl.
  replace (0 + sum_of "likes" l + (0 + sum_of "retweets" l) * 2)
    with (sum_of "likes" l + 2 * sum_of "retweets" l) by lia.
  by rewrite (Z.mul_comm _ 10).
Qed.

Lemma engagement_score_nonempty m l addr sym :
  engagement_score (analyze_verified_social_engagement (m :: l) addr sym) =
  round1 (final_score (m :: l)).
Proof.
  unfold analyze_verified_social_engagement.
  repeat match goal with |- context [if ?b then _ else _] => destruct b end;
    reflexivity.
Qed.

Lemma tally_all_notable_set l :
  notable_set l (list_to_set (tally_notable_accounts (tally_all l))).
Proof.
  intros a. rewrite elem_of_list_to_set. unfold tally_all.
  rewrite tally_notable. simpl. split.
  - by intros [?%elem_of_nil|?].
  - by right.
Qed.

(** C5: on the empty list the aggregator returns the zero summary (score 0,
    level "None", risk "Very High - No Social Media Presence"); on every
    list whose engagement counts are not negative, the empty one included,
    the returned score is min(count*15, 60) + min((likes + 2*reposts)/10, 30)
    + 10 per distinct notable account, capped at 100, and lies between 0 and
    100. *)
Theorem engagement_score_bounded
    (verified : list Mention) (contract_address token_symbol : string) :
  counts_nonnegative verified ->
  let summary := analyze_verified_social_engagement verified contract_address token_symbol in
  (verified = [] ->
     engagement_score summary = 0%Q /\
     engagement_level summary = "None" /\
     risk_assessment summary = "Very High - No Social Media Presence") /\
  exists accounts : gset string,
    notable_set verified accounts /\
    (engagement_score summary ==
       engagement_formula (Z.of_nat (length verified)) (sum_of "likes" verified)
         (sum_of "retweets" verified) (Z.of_nat (size accounts)))%Q /\
    (0 <= engagement_score summary)%Q /\ (engagement_score summary <= 100)%Q.
Proof.
  intros Hcounts summary. split.
  { intros ->. by subst summary. }
  exists (list_to_set (tally_notable_accounts (tally_all verified))).
  split; [apply tally_all_notable_set|].
  set (accounts := Z.of_nat (size (list_to_set _ : gset string))).
  pose proof (engagement_formula_tenths (Z.of_nat (length verified))
                (sum_of "likes" verified) (sum_of "retweets" verified) accounts) as Hf.
  set (k := Z.min _ 1000) in Hf.
  assert (0 <= k <= 1000) as Hk.
  { assert (0 <= sum_of "likes" verified).
    { apply sum_of_nonneg. eapply Forall_impl; [exact Hcounts|]. by intros ? (? & _). }
    assert (0 <= sum_of "retweets" verified).
    { apply sum_of_nonneg. eapply Forall_impl; [exact Hcounts|]. by intros ? (_ & ? & _). }
    subst k accounts. lia. }
  assert (engagement_score summary == k # 10)%Q as Hs.
  { subst summary. destruct verified as [|m l].
    - rewrite <- Hf. by vm_compute.
    - rewrite engagement_score_nonempty. apply round1_tenths.
      by rewrite final_score_formula. }
  split; [by rewrite Hs, Hf|].
  rewrite Hs. unfold Qle; simpl. lia.
Qed.

Lemma engagement_score_bounded_witness :
  let summary :=
    analyze_verified_social_engagement
      three_verified test_contract "BONK" in
  (engagement_score summary == 838 # 10)%Q /\
  (0 <= engagement_score summary)%Q /\ (engagement_score summary <= 100)%Q.
Proof.
  intros summary. split; [by vm_compute|].
  assert (counts_nonnegative three_verified) as Hcounts.
  { repeat constructor; by vm_compute. }
  destruct (engagement_score_bounded _ test_contract "BONK" Hcounts)
    as (_ & accounts & _ & _ & Hbounds).
  exact Hbounds.
Defined.

(** ** The source resolver *)

Section resolver_facts.
Context {R : Type} (succeeded : R -> bool) (fetch : string -> Response).
Implicit Types (sources : list (Source R)) (source : Source R).

Lemma try_source_succeeds source contract_address info :
  source_succeeds succeeded fetch contract_address source info ->
  try_source succeeded fetch source contract_address = Some info.
Proof.
  intros (data & Hfetch & Hparse & Hok). unfold try_source.
  by rewrite Hfetch, Hparse, Hok.
Qed.

Lemma try_source_fails source contract_address :
  source_fails succeeded fetch contract_address source ->
  try_source succeeded fetch source contract_address = None.
Proof.
  unfold try_source.
  intros [->|[(code & body & -> & Hcode)|[->|(data & -> & Hparse)]]]; try done.
  - by apply Z.eqb_neq in Hcode as ->.
  - simpl. destruct Hparse as [->|[->|(info & -> & ->)]]; done.
Qed.

(** A source the loop passes by has failed. *)
Lemma try_source_None source contract_address :
  try_source succeeded fetch source contract_address = None ->
  source_fails succeeded fetch contract_address source.
Proof.
  unfold try_source, source_fails.
  destruct (fetch (source_url source)) as [|code body] eqn:Hfetch; [by left|].
  destruct (Z.eqb_spec code 200) as [->|Hcode]; [|right; left; eauto].
  destruct body as [data|]; [|by right; right; left].
  intros H. right; right; right. exists data. split; [done|].
  destruct (source_parser source data contract_address) as [[|info]|]; [tauto| |tauto].
  destruct (succeeded info) eqn:Hok; [done|]. right; right. by exists info.
Qed.

Lemma try_sources_short_circuit sources contract_address i source info requested :
  sources !! i = Some source ->
  (forall j source', (j < i)%nat -> sources !! j = Some source' ->
                     source_fails succeeded fetch contract_address source') ->
  source_succeeds succeeded fetch contract_address source info ->
  try_sources succeeded fetch sources contract_address requested =
  (Some info, (requested ++ (source_url <$> take (S i) sources))%list).
Proof.
  revert i requested. induction sources as [|s sources IH]; intros i requested Hi Hbefore Hok.
  - done.
  - destruct i as [|i]; simpl in Hi.
    + injection Hi as ->. simpl. rewrite (try_source_succeeds _ _ _ Hok).
      by destruct sources.
    + simpl try_sources. rewrite try_source_fails by (apply (Hbefore 0%nat); [lia|done]).
      rewrite (IH i _ Hi); [|intros j s' Hj Hs'; apply (Hbefore (S j)); [lia|done]|done].
      by rewrite <- app_assoc.
Qed.

Lemma try_sources_all_fail sources contract_address requested :
  (forall source, source ∈ sources ->
                  source_fails succeeded fetch contract_address source) ->
  try_sources succeeded fetch sources contract_address requested =
  (None, (requested ++ (source_url <$> sources))%list).
Proof.
  revert requested. induction sources as [|s sources IH]; intros requested Hall; simpl.
  - by rewrite app_nil_r.
  - rewrite try_source_fails by (apply Hall; left).
    rewrite IH by (intros s' Hs'; apply Hall; by right).
    by rewrite <- app_assoc.
Qed.
End resolver_facts.

(** Case analysis along a parser that has returned a result. *)
Ltac parser_cases H :=
  repeat match type of H with
    | context [mbind _ ?o] => destruct o eqn:?; simpl in H; try discriminate H
    | context [if ?b then _ else _] => destruct b eqn:?; try discriminate H
    end;
  injection H as <-.

(** Each parser of [token_sources] stamps its own label. *)
Lemma token_parser_label contract_address i source data info :
  token_sources contract_address !! i = Some source ->
  source_parser source data contract_address = Some (Data info) ->
  parser_labels !! i = Some (Token.source info) /\ Token.success info = true.
Proof.
  intros Hi Hparse.
  destruct i as [|[|[|i]]]; simpl in Hi;
    try (rewrite lookup_nil in Hi; discriminate Hi);
    injection Hi as <-; simpl in Hparse.
  - unfold _parse_dexscreener_token_info in Hparse. by parser_cases Hparse.
  - unfold _parse_jupiter_token_info in Hparse. by parser_cases Hparse.
  - unfold _parse_solscan_token_info in Hparse. by parser_cases Hparse.
Qed.

(** C7, as the code has it: when provider [i] of an ordered provider list is
    the first to succeed (all providers before it fail by transport failure,
    non-200 status or unsuccessful parse), the loop returns provider [i]'s
    parsed result and has requested exactly the providers up to [i], none
    after it; for the program's own list the returned [source] is the label
    the parser of provider [i] stamps: DexScreener, Jupiter or Solscan. *)
Theorem resolver_short_circuit
    (fetch : string -> Response) (sources : list (Source Token.info))
    (contract_address : string) (i : nat) (source : Source Token.info)
    (info : Token.info) :
  sources !! i = Some source ->
  (forall j source', (j < i)%nat -> sources !! j = Some source' ->
                     source_fails Token.success fetch contract_address source') ->
  source_succeeds Token.success fetch contract_address source info ->
  try_sources Token.success fetch sources contract_address [] =
    (Some info, source_url <$> take (S i) sources) /\
  (sources = token_sources contract_address ->
   get_token_info_from_multiple_sources fetch contract_address =
     (info, source_url <$> take (S i) sources) /\
   parser_labels !! i = Some (Token.source info)).
Proof.
  intros Hi Hbefore Hok.
  pose proof (try_sources_short_circuit _ _ _ _ _ _ _ [] Hi Hbefore Hok) as Hrun.
  rewrite app_nil_l in Hrun. split; [done|].
  intros ->. unfold get_token_info_from_multiple_sources. rewrite Hrun.
  split; [done|].
  destruct Hok as (data & _ & Hparse & _).
  by destruct (token_parser_label _ _ _ _ _ Hi Hparse).
Qed.

Lemma jupiter_only_dexscreener_fails :
  forall j source', (j < 1)%nat -> token_sources test_contract !! j = Some source' ->
    source_fails Token.success jupiter_only test_contract source'.
Proof.
  intros [|j] source' Hj Hs; [|lia]. injection Hs as <-. by left.
Qed.

Lemma resolver_short_circuit_witness :
  get_token_info_from_multiple_sources jupiter_only test_contract =
    ({| Token.name := JStr "Bonk"; Token.symbol := JStr "BONK";
        Token.decimals := JNum 9; Token.supply := JStr "Unknown";
        Token.success := true; Token.fallback := false;
        Token.source := "Jupiter" |},
     ["https://api.dexscreener.com/latest/dex/tokens/GBUxQFRXQjSPjkxymAUKPfbUbSpRY8Ui7az1HCxtpump";
      "https://price.jup.ag/v4/price?ids=GBUxQFRXQjSPjkxymAUKPfbUbSpRY8Ui7az1HCxtpump"]).
Proof.
  refine (proj1 (proj2 (resolver_short_circuit jupiter_only (token_sources test_contract)
                          test_contract 1 _ _ eq_refl jupiter_only_dexscreener_fails _)
                   eq_refl)).
  eexists. split; [by vm_compute|]. split; by vm_compute.
Defined.

(** C7, as stated, fails in its [source] clause: the second provider is
    listed under the name "Jupiter API" and its parser stamps "Jupiter". *)
Lemma jupiter_source_is_not_its_list_name :
  ~ (forall (fetch : string -> Response) (contract_address : string) (i : nat)
            (source : Source Token.info) (info : Token.info),
       token_sources contract_address !! i = Some source ->
       (forall j source', (j < i)%nat ->
          token_sources contract_address !! j = Some source' ->
          source_fails Token.success fetch contract_address source') ->
       source_succeeds Token.success fetch contract_address source info ->
       Token.source (get_token_info_from_multiple_sources fetch contract_address).1 =
       source_name source).
Proof.
  intros H.
  specialize (H jupiter_only test_contract 1%nat _
                (get_token_info_from_multiple_sources jupiter_only test_contract).1
                eq_refl jupiter_only_dexscreener_fails).
  assert (Token.source (get_token_info_from_multiple_sources jupiter_only test_contract).1
          = "Jupiter API") as Habs.
  { apply H. eexists. split; [by vm_compute|]. split; by vm_compute. }
  vm_compute in Habs. discriminate Habs.
Qed.

(** C8: when every provider fails, the resolver returns (it is a total
    function: nothing is raised) the fallback object, after one request to
    each provider: [success] is false, [fallback] is true, and the display
    name is "Token ", the first eight characters of the identifier and
    "...", so that it depends on that prefix of the input only. *)
Theorem all_providers_fail_fallback
    (fetch : string -> Response) (contract_address : string) :
  (forall source, source ∈ token_sources contract_address ->
                  source_fails Token.success fetch contract_address source) ->
  let result := get_token_info_from_multiple_sources fetch contract_address in
  result.1 = _create_fallback_token_info contract_address /\
  result.2 = source_url <$> token_sources contract_address /\
  Token.success result.1 = false /\
  Token.fallback result.1 = true /\
  Token.name result.1 = JStr ("Token " ++ PyStr.take 8 contract_address ++ "...")%string /\
  (forall other : string,
     PyStr.take 8 other = PyStr.take 8 contract_address ->
     Token.name (_create_fallback_token_info other) = Token.name result.1).
Proof.
  intros Hall result. subst result.
  unfold get_token_info_from_multiple_sources.
  rewrite (try_sources_all_fail _ _ _ _ [] Hall), app_nil_l.
  repeat split. intros other Hother. simpl. unfold placeholder_name. by rewrite Hother.
Qed.

Lemma all_providers_fail_fallback_witness :
  let result := get_token_info_from_multiple_sources network_down test_contract in
  Token.name result.1 = JStr "Token GBUxQFRX..." /\
  Token.success result.1 = false /\ Token.fallback result.1 = true.
Proof.
  intros result.
  assert (forall source, source ∈ token_sources test_contract ->
            source_fails Token.success network_down test_contract source) as Hall.
  { intros source _. by left. }
  destruct (all_providers_fail_fallback network_down test_contract Hall)
    as (_ & _ & Hs & Hf & Hn & _).
  split; [exact Hn|]. split; [exact Hs | exact Hf].
Defined.

(** ** The recommendation scorer *)

(** C6: with unparsable liquidity and volume (as in the fallback price
    object), no verified mention and no notable account, the scorer returns
    a complete recommendation: score 0, label STRONG AVOID, risk Extremely
    High, confidence Low, and the reasons, in order, no verified social media
    mentions found, no notable accounts, unknown liquidity data, unknown
    volume data; whatever the token metadata is. *)
Theorem total_failure_recommendation
    (token_data : Token.info) (price_data : Price.data) (social_data : EngagementSummary) :
  looks_numeric (Price.liquidity price_data) = false ->
  looks_numeric (Price.volume_24h price_data) = false ->
  authentic_mentions social_data = 0 ->
  notable_accounts social_data = [] ->
  let r := generate_accurate_investment_recommendation token_data price_data social_data in
  r = {| recommendation := "⛔ STRONG AVOID - No Confidence";
         score := 0;
         risk_level := "Extremely High";
         reasons := [NoVerifiedMentions; NoNotableAccounts; UnknownLiquidity; UnknownVolume];
         analysis_quality := "High - Based on verified data";
         confidence := "Low" |} /\
  reason_text <$> reasons r =
    ["❌ No verified social media mentions found"; "❌ No notable accounts discussing";
     "❌ Unknown liquidity data"; "❌ Unknown volume data"].
Proof.
  intros Hliq Hvol Hmentions Hnotable r. subst r.
  unfold generate_accurate_investment_recommendation, social_analysis, notable_analysis,
    market_analysis, liquidity_analysis, volume_analysis.
  by rewrite Hliq, Hvol, Hmentions, Hnotable.
Qed.

Lemma total_failure_recommendation_witness :
  let r :=
    generate_accurate_investment_recommendation
      (get_token_info_from_multiple_sources network_down test_contract).1
      _create_fallback_price_data
      (analyze_verified_social_engagement [] test_contract "UNKNOWN") in
  score r = 0 /\ recommendation r = "⛔ STRONG AVOID - No Confidence" /\
  risk_level r = "Extremely High" /\
  reasons r = [NoVerifiedMentions; NoNotableAccounts; UnknownLiquidity; UnknownVolume].
Proof.
  intros r.
  destruct (total_failure_recommendation
              (get_token_info_from_multiple_sources network_down test_contract).1
              _create_fallback_price_data
              (analyze_verified_social_engagement [] test_contract "UNKNOWN")
              eq_refl eq_refl eq_refl eq_refl) as [Hr _].
  subst r. by rewrite Hr.
Defined.

(** The scorer on a run with data: three verified mentions (engagement score
    83.8) give +40, one notable account +10, liquidity 150,000.50 gives +20
    and volume 60000 gives +10. *)
Example recommendation_with_data :
  let r :=
    generate_accurate_investment_recommendation
      (_create_fallback_token_info test_contract) liquid_market
      (analyze_verified_social_engagement three_verified test_contract "BONK") in
  score r = 80 /\
  recommendation r = "🟡 MODERATE BUY - Medium Confidence" /\
  risk_level r = "Medium" /\ confidence r = "High" /\
  reasons r = [StrongSocialPresence 3; SomeNotableAccounts 1;
               StrongLiquidity (15000050 # 100); ModerateVolume 60000].
Proof. by vm_compute. Qed.

(** A liquidity field on which [float] raises ends the market analysis: the
    volume is not looked at. *)
Example recommendation_on_garbled_liquidity :
  let r :=
    generate_accurate_investment_recommendation
      (_create_fallback_token_info test_contract) garbled_market
      (analyze_verified_social_engagement three_verified test_contract "BONK") in
  score r = 50 /\
  reasons r = [StrongSocialPresence 3; SomeNotableAccounts 1; UnableToAnalyze].
Proof. by vm_compute. Qed.

(** * Further properties of the pipeline *)

(** ** The relevance verifier, continued *)

(** The score does not read the key the verifier writes. *)
Lemma verification_score_of_set m x identifier symbol :
  verification_score_of (set_verification_score m x) identifier symbol =
  verification_score_of m identifier symbol.
Proof. reflexivity. Qed.

Lemma verify_cons m results identifier name symbol :
  _verify_and_filter_results (m :: results) identifier name symbol =
  if decide (70 <= verification_score_of m identifier symbol)
  then set_verification_score m (verification_score_of m identifier symbol)
         :: _verify_and_filter_results results identifier name symbol
  else _verify_and_filter_results results identifier name symbol.
Proof.
  unfold _verify_and_filter_results. rewrite !verify_loop_spec, !app_nil_l, filter_cons.
  by destruct (decide _).
Qed.

(** Verifying the verified list again changes nothing: every retained
    mention is retained again, with the same score. *)
Theorem verify_idempotent
    (results : list Mention) (identifier name name' symbol : string) :
  _verify_and_filter_results
    (_verify_and_filter_results results identifier name symbol) identifier name' symbol =
  _verify_and_filter_results results identifier name symbol.
Proof.
  induction results as [|m results IH]; [done|].
  rewrite (verify_cons m results). destruct (decide _) as [Hge|Hlt]; [|exact IH].
  rewrite verify_cons, verification_score_of_set, decide_True by done.
  by rewrite IH.
Qed.

(** Each candidate is judged on its own: the verified list of a
    concatenation is the concatenation of the verified lists. *)
Theorem verify_app
    (results1 results2 : list Mention) (identifier name symbol : string) :
  _verify_and_filter_results (results1 ++ results2)%list identifier name symbol =
  (_verify_and_filter_results results1 identifier name symbol ++
   _verify_and_filter_results results2 identifier name symbol)%list.
Proof.
  induction results1 as [|m results1 IH]; [done|].
  rewrite <- app_comm_cons, !verify_cons, IH. by destruct (decide _).
Qed.

(** The signals a retained mention needs: without an identifier fragment and
    without the known symbol the other three signals give 50 at most. *)
Lemma score_without_identity m identifier symbol :
  ~ mentions_identifier identifier (scored_text m) ->
  ~ mentions_symbol symbol (scored_text m) ->
  verification_score_of m identifier symbol <= 50.
Proof.
  rewrite <- address_fragment_in_spec, <- mentions_symbol_spec.
  intros Hid Hsym. rewrite verification_score_of_sum.
  apply not_true_is_false in Hid, Hsym. rewrite Hid, Hsym.
  repeat match goal with |- context [if ?b then _ else _] => destruct b end; lia.
Qed.

(** A keyword, domain or metadata hit alone never passes the gate: every
    retained mention contains a sampled identifier fragment or the known
    symbol. *)
Theorem retained_mentions_identity
    (results : list Mention) (identifier name symbol : string) (v : Mention) :
  v ∈ _verify_and_filter_results results identifier name symbol ->
  mentions_identifier identifier (scored_text v) \/
  mentions_symbol symbol (scored_text v).
Proof.
  intros (m & _ & Hge & ->)%elem_of_verified.
  change (scored_text (set_verification_score m _)) with (scored_text m).
  destruct (address_fragment_in identifier (scored_text m)) eqn:Hid.
  { left. by apply address_fragment_in_spec. }
  destruct (symbol_known symbol &&
            (PyStr.contains (PyStr.lower symbol) (scored_text m)
             || PyStr.contains ("$" ++ PyStr.lower symbol)%string (scored_text m))) eqn:Hsym.
  { right. by apply mentions_symbol_spec. }
  pose proof (score_without_identity m identifier symbol) as Hle.
  rewrite <- address_fragment_in_spec, <- mentions_symbol_spec, Hid, Hsym in Hle.
  specialize (Hle ltac:(discriminate) ltac:(discriminate)). lia.
Qed.

Lemma retained_mentions_identity_witness :
  mentions_identifier test_contract
    (scored_text (set_verification_score launch_post 130)) \/
  mentions_symbol "BONK" (scored_text (set_verification_score launch_post 130)).
Proof.
  apply (retained_mentions_identity [launch_post] test_contract "" "BONK").
  vm_compute. apply list_elem_of_here.
Defined.



(** ** The recommendation scorer, continued *)

Lemma social_analysis_credit social_data p :
  exists c r, social_analysis social_data p = credit p c r /\
    ((authentic_mentions social_data = 0 /\ c = 0 /\ r = NoVerifiedMentions) \/
     (authentic_mentions social_data <> 0 /\ (c = 10 \/ c = 25 \/ c = 40) /\
      r <> NoVerifiedMentions /\
      (25 <= c <-> Qle_bool 40 (engagement_score social_data) = true))).
Proof.
  unfold social_analysis.
  destruct (Z.eqb_spec (authentic_mentions social_data) 0) as [H0|H0].
  { do 2 eexists. split; [done|]. by left. }
  destruct (Qle_bool 70 (engagement_score social_data)) eqn:H70.
  { do 2 eexists. split; [done|]. right. split_and!; [done|lia|done|].
    split; [|lia]. intros _. apply Qle_bool_iff. apply Qle_bool_iff in H70.
    eapply Qle_trans; [|exact H70]. by vm_compute. }
  destruct (Qle_bool 40 (engagement_score social_data)) eqn:H40.
  { do 2 eexists. split; [done|]. right. split_and!; [done|lia|done|]. split; [done|lia]. }
  do 2 eexists. split; [done|]. right. split_and!; [done|lia|done|].
  split; [lia|done].
Qed.

Lemma notable_analysis_credit social_data p :
  exists c r, notable_analysis social_data p = credit p c r /\
    ((notable_accounts social_data = [] /\ c = 0) \/
     (notable_accounts social_data <> [] /\ (c = 10 \/ c = 20))).
Proof.
  unfold notable_analysis.
  destruct (notable_accounts social_data) as [|a [|b [|d l]]]; simpl;
    do 2 eexists; (split; [done|]); [left|right..]; split; (done || lia).
Qed.

(** What one market field contributes, whatever has been credited before:
    a credit of 0, 10 or 20, with at least 25,000 parsed for a credit above
    0, or an exception. *)
Lemma liquidity_analysis_credit price_data :
  (exists c r, (forall p, liquidity_analysis price_data p = Some (credit p c r)) /\
     (c = 0 \/ c = 10 \/ c = 20) /\
     (0 < c -> exists q,
        looks_numeric (Price.liquidity price_data) = true /\
        py_float (PyStr.remove_char "," (Price.liquidity price_data)) = Some q /\
        Qle_bool 25000 q = true)) \/
  (looks_numeric (Price.liquidity price_data) = true /\
   py_float (PyStr.remove_char "," (Price.liquidity price_data)) = None /\
   forall p, liquidity_analysis price_data p = None).
Proof.
  unfold liquidity_analysis.
  destruct (looks_numeric (Price.liquidity price_data)) eqn:Hnum.
  - destruct (py_float _) as [q|] eqn:Hq; simpl; [left|by right].
    destruct (Qle_bool 100000 q) eqn:H100.
    { do 2 eexists. split; [done|]. split; [lia|]. intros _. exists q.
      split_and!; [done..|]. apply Qle_bool_iff. apply Qle_bool_iff in H100.
      eapply Qle_trans; [|exact H100]. by vm_compute. }
    destruct (Qle_bool 25000 q) eqn:H25.
    { do 2 eexists. split; [done|]. split; [lia|]. intros _. by exists q. }
    do 2 eexists. split; [done|]. split; [lia|]. lia.
  - left. do 2 eexists. split; [done|]. split; [lia|]. lia.
Qed.

Lemma volume_analysis_credit price_data :
  (exists c r, (forall p, volume_analysis price_data p = Some (credit p c r)) /\
     (c = 0 \/ c = 10 \/ c = 20) /\
     (0 < c -> exists q,
        looks_numeric (Price.volume_24h price_data) = true /\
        py_float (PyStr.remove_char "," (Price.volume_24h price_data)) = Some q /\
        Qle_bool 25000 q = true)) \/
  (looks_numeric (Price.volume_24h price_data) = true /\
   py_float (PyStr.remove_char "," (Price.volume_24h price_data)) = None /\
   forall p, volume_analysis price_data p = None).
Proof.
  unfold volume_analysis.
  destruct (looks_numeric (Price.volume_24h price_data)) eqn:Hnum.
  - destruct (py_float _) as [q|] eqn:Hq; simpl; [left|by right].
    destruct (Qle_bool 100000 q) eqn:H100.
    { do 2 eexists. split; [done|]. split; [lia|]. intros _. exists q.
      split_and!; [done..|]. apply Qle_bool_iff. apply Qle_bool_iff in H100.
      eapply Qle_trans; [|exact H100]. by vm_compute. }
    destruct (Qle_bool 25000 q) eqn:H25.
    { do 2 eexists. split; [done|]. split; [lia|]. intros _. by exists q. }
    do 2 eexists. split; [done|]. split; [lia|]. lia.
  - left. do 2 eexists. split; [done|]. split; [lia|]. lia.
Qed.

(** The fields of the result in terms of the three analyses. *)
Lemma recommendation_fields token_data price_data social_data :
  let p := market_analysis price_data
             (notable_analysis social_data (social_analysis social_data (0, []))) in
  let r := generate_accurate_investment_recommendation token_data price_data social_data in
  score r = p.1 /\ reasons r = p.2 /\
  (recommendation r = "🟢 STRONG BUY - High Confidence" <-> 85 <= p.1) /\
  (confidence r = "High" <-> 65 <= p.1) /\
  (recommendation r = "⛔ STRONG AVOID - No Confidence" <-> p.1 < 25).
Proof.
  intros p r. subst r. unfold generate_accurate_investment_recommendation. fold p.
  destruct (Z.leb_spec 85 p.1), (Z.leb_spec 65 p.1), (Z.leb_spec 45 p.1),
    (Z.leb_spec 25 p.1); simpl; repeat split; try done; try lia.
Qed.

(** The score is the sum of four credits, each with what it takes to earn
    it. *)
Lemma score_anatomy token_data price_data social_data :
  let r := generate_accurate_investment_recommendation token_data price_data social_data in
  exists cs cn cl cv : Z,
    score r = cs + cn + cl + cv /\
    (cs = 0 \/ cs = 10 \/ cs = 25 \/ cs = 40) /\
    (cn = 0 \/ cn = 10 \/ cn = 20) /\
    (cl = 0 \/ cl = 10 \/ cl = 20) /\
    (cv = 0 \/ cv = 10 \/ cv = 20) /\
    (authentic_mentions social_data = 0 <-> cs = 0) /\
    (25 <= cs <-> authentic_mentions social_data <> 0 /\
                  Qle_bool 40 (engagement_score social_data) = true) /\
    (0 < cn <-> notable_accounts social_data <> []) /\
    (0 < cl -> exists q,
       looks_numeric (Price.liquidity price_data) = true /\
       py_float (PyStr.remove_char "," (Price.liquidity price_data)) = Some q /\
       Qle_bool 25000 q = true) /\
    (0 < cv -> exists q,
       looks_numeric (Price.volume_24h price_data) = true /\
       py_float (PyStr.remove_char "," (Price.volume_24h price_data)) = Some q /\
       Qle_bool 25000 q = true).
Proof.
  intros r. subst r.
  destruct (recommendation_fields token_data price_data social_data) as (-> & _).
  destruct (social_analysis_credit social_data (0, [])) as (cs & rs & -> & Hs).
  destruct (notable_analysis_credit social_data (credit (0, []) cs rs))
    as (cn & rn & -> & Hn).
  unfold market_analysis.
  assert (cs = 0 \/ cs = 10 \/ cs = 25 \/ cs = 40) as Hcs by (destruct Hs; lia).
  assert (authentic_mentions social_data = 0 <-> cs = 0) as Hzero by (destruct Hs; lia).
  assert (25 <= cs <-> authentic_mentions social_data <> 0 /\
                        Qle_bool 40 (engagement_score social_data) = true) as H40.
  { destruct Hs as [(? & -> & _)|(? & _ & _ & H)]; [split; [lia|tauto]|tauto]. }
  assert (cn = 0 \/ cn = 10 \/ cn = 20) as Hcn by (destruct Hn; lia).
  assert (0 < cn <-> notable_accounts social_data <> []) as Hnot.
  { destruct Hn as [[-> ->]|[? ?]]; split; (done || lia). }
  destruct (liquidity_analysis_credit price_data)
    as [(cl & rl & -> & Hcl & Hl)|(_ & _ & ->)].
  - destruct (volume_analysis_credit price_data)
      as [(cv & rv & -> & Hcv & Hv)|(_ & _ & ->)].
    + exists cs, cn, cl, cv. simpl. split_and!; (done || lia).
    + exists cs, cn, cl, 0. simpl. split_and!; (done || lia).
  - exists cs, cn, 0, 0. simpl. split_and!; (done || lia).
Qed.

(** The score is the sum of four credits: 0, 10, 25 or 40 for the social
    presence and 0, 10 or 20 each for the notable accounts, the liquidity
    and the volume.  So it is a multiple of five between 0 and 100, whatever
    the inputs are: nothing needs to clamp it. *)
Theorem recommendation_score_bounded
    (token_data : Token.info) (price_data : Price.data) (social_data : EngagementSummary) :
  let r := generate_accurate_investment_recommendation token_data price_data social_data in
  (exists social notable liquidity volume : Z,
     score r = social + notable + liquidity + volume /\
     (social = 0 \/ social = 10 \/ social = 25 \/ social = 40) /\
     (notable = 0 \/ notable = 10 \/ notable = 20) /\
     (liquidity = 0 \/ liquidity = 10 \/ liquidity = 20) /\
     (volume = 0 \/ volume = 10 \/ volume = 20)) /\
  0 <= score r <= 100 /\ (score r mod 5 = 0).
Proof.
  intros r. subst r.
  destruct (score_anatomy token_data price_data social_data)
    as (cs & cn & cl & cv & Hr & Hs & Hn & Hl & Hv & _).
  split; [by exists cs, cn, cl, cv|].
  rewrite Hr.
  destruct Hs as [->|[->|[->| ->]]], Hn as [->|[->| ->]], Hl as [->|[->| ->]],
    Hv as [->|[->| ->]]; by vm_compute.
Qed.

(** A STRONG BUY takes everything at once: verified mentions with an
    engagement score of 40 or more, a notable account, and liquidity and
    volume that both parse to 25,000 or more. *)
Theorem strong_buy_requirements
    (token_data : Token.info) (price_data : Price.data) (social_data : EngagementSummary) :
  recommendation
    (generate_accurate_investment_recommendation token_data price_data social_data)
    = "🟢 STRONG BUY - High Confidence" ->
  authentic_mentions social_data <> 0 /\
  Qle_bool 40 (engagement_score social_data) = true /\
  notable_accounts social_data <> [] /\
  (exists q, py_float (PyStr.remove_char "," (Price.liquidity price_data)) = Some q /\
             Qle_bool 25000 q = true) /\
  (exists q, py_float (PyStr.remove_char "," (Price.volume_24h price_data)) = Some q /\
             Qle_bool 25000 q = true).
Proof.
  intros Hbuy.
  destruct (recommendation_fields token_data price_data social_data) as (Hp & _ & Hlabel & _).
  apply Hlabel in Hbuy. rewrite <- Hp in Hbuy.
  destruct (score_anatomy token_data price_data social_data)
    as (cs & cn & cl & cv & Hr & Hs & Hn & Hl & Hv & Hzero & H40 & Hnot & Hliq & Hvol).
  rewrite Hr in Hbuy.
  split_and!.
  - intros H0. apply Hzero in H0. lia.
  - apply H40. lia.
  - apply Hnot. lia.
  - destruct Hliq as (q & _ & ? & ?); [lia|]. by exists q.
  - destruct Hvol as (q & _ & ? & ?); [lia|]. by exists q.
Qed.

Lemma strong_buy_requirements_witness :
  notable_accounts (analyze_verified_social_engagement three_verified test_contract "BONK")
  <> [].
Proof.
  refine (proj1 (proj2 (proj2
    (strong_buy_requirements (_create_fallback_token_info test_contract)
       {| Price.price_usd := "0.0042"; Price.market_cap := "4200000";
          Price.liquidity := "150,000.50"; Price.volume_24h := "250000";
          Price.price_change_24h := "12.5"; Price.dex := "raydium";
          Price.success := true; Price.fallback := false;
          Price.source := "DexScreener" |}
       (analyze_verified_social_engagement three_verified test_contract "BONK") _)))).
  by vm_compute.
Defined.

(** A liquidity field that passes the digit test and on which [float]
    raises (two decimal points) ends the market analysis: the volume is not
    looked at, the breakdown ends with the "unable to analyze" line, and the
    score cannot exceed 60. *)
Theorem malformed_liquidity_hides_volume
    (token_data : Token.info) (price_data : Price.data) (social_data : EngagementSummary) :
  looks_numeric (Price.liquidity price_data) = true ->
  py_float (PyStr.remove_char "," (Price.liquidity price_data)) = None ->
  let r := generate_accurate_investment_recommendation token_data price_data social_data in
  (exists r1 r2, reasons r = [r1; r2; UnableToAnalyze]) /\
  score r <= 60 /\
  forall volume : string,
    let price_data' :=
      {| Price.price_usd := Price.price_usd price_data;
         Price.market_cap := Price.market_cap price_data;
         Price.liquidity := Price.liquidity price_data;
         Price.volume_24h := volume;
         Price.price_change_24h := Price.price_change_24h price_data;
         Price.dex := Price.dex price_data;
         Price.success := Price.success price_data;
         Price.fallback := Price.fallback price_data;
         Price.source := Price.source price_data |} in
    generate_accurate_investment_recommendation token_data price_data' social_data = r.
Proof.
  intros Hnum Hfloat r.
  assert (forall pd, Price.liquidity pd = Price.liquidity price_data ->
            forall p, market_analysis pd p = credit p 0 UnableToAnalyze) as Hmarket.
  { intros pd Hpd p. unfold market_analysis, liquidity_analysis.
    by rewrite Hpd, Hnum, Hfloat. }
  destruct (recommendation_fields token_data price_data social_data) as (Hscore & Hreasons & _).
  fold r in Hscore, Hreasons. rewrite Hmarket in Hscore, Hreasons by done.
  destruct (social_analysis_credit social_data (0, [])) as (cs & rs & Hsoc & Hs).
  destruct (notable_analysis_credit social_data (credit (0, []) cs rs))
    as (cn & rn & Hnot & Hn).
  rewrite Hsoc, Hnot in Hscore, Hreasons. simpl in Hscore, Hreasons.
  split_and!.
  - by exists rs, rn.
  - rewrite Hscore. destruct Hs as [?|?], Hn as [?|?]; lia.
  - intros volume price_data'. subst r.
    unfold generate_accurate_investment_recommendation.
    by rewrite !Hmarket.
Qed.

Lemma malformed_liquidity_hides_volume_witness :
  score (generate_accurate_investment_recommendation
           (_create_fallback_token_info test_contract) garbled_market
           (analyze_verified_social_engagement three_verified test_contract "BONK")) <= 60.
Proof.
  exact (proj1 (proj2 (malformed_liquidity_hides_volume
    (_create_fallback_token_info test_contract) garbled_market
    (analyze_verified_social_engagement three_verified test_contract "BONK")
    eq_refl eq_refl))).
Defined.

Lemma liquidity_analysis_parsed price_data q p :
  looks_numeric (Price.liquidity price_data) = true ->
  py_float (PyStr.remove_char "," (Price.liquidity price_data)) = Some q ->
  exists c r, liquidity_analysis price_data p = Some (credit p c r) /\
    c = (if Qle_bool 100000 q then 20 else if Qle_bool 25000 q then 10 else 0).
Proof.
  intros Hnum Hq. unfold liquidity_analysis. rewrite Hnum, Hq. simpl.
  destruct (Qle_bool 100000 q); [by eauto|]. destruct (Qle_bool 25000 q); by eauto.
Qed.

Lemma Qle_bool_mono (t q1 q2 : Q) :
  (q1 <= q2)%Q -> Qle_bool t q1 = true -> Qle_bool t q2 = true.
Proof.
  rewrite !Qle_bool_iff. intros H12 H1. by eapply Qle_trans.
Qed.

(** More liquidity never lowers the score: for the same social data and the
    same volume field, a liquidity that parses to a larger amount scores at
    least as much. *)
Theorem score_monotone_in_liquidity
    (token_data token_data' : Token.info) (price_data price_data' : Price.data)
    (social_data : EngagementSummary) (q q' : Q) :
  Price.volume_24h price_data = Price.volume_24h price_data' ->
  looks_numeric (Price.liquidity price_data) = true ->
  py_float (PyStr.remove_char "," (Price.liquidity price_data)) = Some q ->
  looks_numeric (Price.liquidity price_data') = true ->
  py_float (PyStr.remove_char "," (Price.liquidity price_data')) = Some q' ->
  (q <= q')%Q ->
  score (generate_accurate_investment_recommendation token_data price_data social_data) <=
  score (generate_accurate_investment_recommendation token_data' price_data' social_data).
Proof.
  intros Hvol Hnum Hq Hnum' Hq' Hle.
  destruct (recommendation_fields token_data price_data social_data) as (-> & _).
  destruct (recommendation_fields token_data' price_data' social_data) as (-> & _).
  set (p := notable_analysis social_data (social_analysis social_data (0, []))).
  unfold market_analysis.
  destruct (liquidity_analysis_parsed price_data q p Hnum Hq) as (c & r & -> & Hc).
  destruct (liquidity_analysis_parsed price_data' q' p Hnum' Hq') as (c' & r' & -> & Hc').
  assert (c <= c' /\ 0 <= c) as [Hcc Hc0].
  { subst c c'.
    destruct (Qle_bool 100000 q) eqn:H1.
    { by rewrite (Qle_bool_mono _ _ _ Hle H1). }
    destruct (Qle_bool 25000 q) eqn:H2.
    { rewrite (Qle_bool_mono _ _ _ Hle H2). by destruct (Qle_bool 100000 q'). }
    destruct (Qle_bool 100000 q'), (Qle_bool 25000 q'); lia. }
  assert (forall p1, volume_analysis price_data' p1 = volume_analysis price_data p1) as Hext.
  { intros p1. unfold volume_analysis. by rewrite Hvol. }
  rewrite !Hext.
  destruct (volume_analysis_credit price_data) as [(cv & rv & Hv & _)|(_ & _ & Hv)];
    rewrite !Hv; simpl; lia.
Qed.

Lemma score_monotone_in_liquidity_witness :
  score (generate_accurate_investment_recommendation
           (_create_fallback_token_info test_contract) thin_market
           (analyze_verified_social_engagement three_verified test_contract "BONK")) <=
  score (generate_accurate_investment_recommendation
           (_create_fallback_token_info test_contract) liquid_market
           (analyze_verified_social_engagement three_verified test_contract "BONK")).
Proof.
  refine (score_monotone_in_liquidity
            (_create_fallback_token_info test_contract)
            (_create_fallback_token_info test_contract) thin_market liquid_market
            (analyze_verified_social_engagement three_verified test_contract "BONK")
            30000 (15000050 # 100) eq_refl eq_refl eq_refl eq_refl eq_refl _).
  by vm_compute.
Defined.

(** ** The engagement aggregator, continued *)

Lemma sum_of_perm key l l' : l ≡ₚ l' -> sum_of key l = sum_of key l'.
Proof. induction 1; simpl; lia. Qed.

Lemma tally_all_set_perm l l' :
  l ≡ₚ l' ->
  (list_to_set (tally_notable_accounts (tally_all l)) : gset string) =
  list_to_set (tally_notable_accounts (tally_all l')).
Proof.
  intros Hperm. apply set_eq. intros a.
  rewrite (tally_all_notable_set l a), (tally_all_notable_set l' a).
  by setoid_rewrite Hperm.
Qed.

Lemma tally_all_totals_perm l l' :
  l ≡ₚ l' ->
  total_likes (tally_all l) = total_likes (tally_all l') /\
  total_retweets (tally_all l) = total_retweets (tally_all l') /\
  total_replies (tally_all l) = total_replies (tally_all l').
Proof.
  intros Hperm. unfold tally_all.
  destruct (tally_totals l {| total_likes := 0; total_retweets := 0; total_replies := 0;
                              tally_notable_accounts := [] |}) as (-> & -> & ->).
  destruct (tally_totals l' {| total_likes := 0; total_retweets := 0; total_replies := 0;
                               tally_notable_accounts := [] |}) as (-> & -> & ->).
  by rewrite !(sum_of_perm _ _ _ Hperm).
Qed.

(** The summary does not depend on the order of the verified mentions (nor
    on the address and symbol it is given): score, level, risk, counts and
    totals are the same, and the notable accounts are the same accounts. *)
Theorem engagement_order_independent
    (verified verified' : list Mention)
    (contract_address contract_address' token_symbol token_symbol' : string) :
  verified ≡ₚ verified' ->
  let s := analyze_verified_social_engagement verified contract_address token_symbol in
  let s' := analyze_verified_social_engagement verified' contract_address' token_symbol' in
  engagement_score s = engagement_score s' /\
  engagement_level s = engagement_level s' /\
  risk_assessment s = risk_assessment s' /\
  total_mentions s = total_mentions s' /\
  authentic_mentions s = authentic_mentions s' /\
  total_engagement s = total_engagement s' /\
  notable_accounts s ≡ₚ notable_accounts s'.
Proof.
  intros Hperm s s'. assert (s = s') as ->; [|done]. subst s s'.
  destruct verified as [|m l], verified' as [|m' l'].
  - done.
  - by apply Permutation_nil_cons in Hperm.
  - symmetry in Hperm. by apply Permutation_nil_cons in Hperm.
  - unfold analyze_verified_social_engagement. cbv zeta.
    assert (final_score (m :: l) = final_score (m' :: l')) as ->.
    { rewrite !final_score_formula, (tally_all_set_perm _ _ Hperm).
      by rewrite (Permutation_length Hperm), !(sum_of_perm _ _ _ Hperm). }
    rewrite (tally_all_set_perm _ _ Hperm), (Permutation_length Hperm).
    by destruct (tally_all_totals_perm _ _ Hperm) as (-> & -> & ->).
Qed.

Lemma engagement_order_independent_witness :
  engagement_score (analyze_verified_social_engagement three_verified test_contract "BONK") =
  engagement_score (analyze_verified_social_engagement (rev three_verified) "" "").
Proof.
  exact (proj1 (engagement_order_independent three_verified (rev three_verified)
                  test_contract "" "BONK" "" (Permutation_rev _))).
Defined.

Lemma tally_notable_length l t0 :
  (length (tally_notable_accounts (fold_left tally_step l t0)) <=
   length (tally_notable_accounts t0) + length l)%nat.
Proof.
  revert t0. induction l as [|m l IH]; intros t0; simpl; [lia|].
  etrans; [apply IH|]. unfold tally_step; simpl.
  repeat match goal with |- context [if ?b then _ else _] => destruct b end;
    rewrite ?length_app; simpl; lia.
Qed.

Lemma size_list_to_set_le (l : list string) :
  (size (list_to_set l : gset string) <= length l)%nat.
Proof.
  induction l as [|x l IH]; [by vm_compute|].
  rewrite list_to_set_cons, size_union_alt, size_singleton.
  assert (list_to_set l ∖ {[x]} ⊆ (list_to_set l : gset string)) as Hsub.
  { intros y Hy. by apply elem_of_difference in Hy as [? _]. }
  apply subseteq_size in Hsub. simpl. lia.
Qed.

(** The notable accounts of the summary: each once, each the case-folded
    author of a verified mention whose handle contains one of the keywords
    and that has more than 100 likes, and no more of them than mentions. *)
Theorem notable_accounts_distinct
    (verified : list Mention) (contract_address token_symbol : string) :
  let accounts :=
    notable_accounts
      (analyze_verified_social_engagement verified contract_address token_symbol) in
  NoDup accounts /\
  (forall a, a ∈ accounts <->
     exists m, m ∈ verified /\ is_notable m /\ a = PyStr.lower (author m)) /\
  (length accounts <= length verified)%nat.
Proof.
  intros accounts. subst accounts. destruct verified as [|m l].
  - simpl. split_and!; [constructor| |lia].
    intros a. split; [by intros ?%elem_of_nil|].
    by intros (? & ?%elem_of_nil & _).
  - assert (notable_accounts
              (analyze_verified_social_engagement (m :: l) contract_address token_symbol) =
            elements (list_to_set (tally_notable_accounts (tally_all (m :: l)))
                      : gset string)) as ->.
    { unfold analyze_verified_social_engagement.
      repeat match goal with |- context [if ?b then _ else _] => destruct b end;
        reflexivity. }
    split_and!.
    + apply NoDup_elements.
    + intros a. rewrite elem_of_elements. apply tally_all_notable_set.
    + change (length (elements ?X)) with (size X).
      etrans; [apply size_list_to_set_le|].
      pose proof (tally_notable_length (m :: l)
                    {| total_likes := 0; total_retweets := 0; total_replies := 0;
                       tally_notable_accounts := [] |}) as H.
      exact H.
Qed.

(** The score before rounding, in tenths. *)
Lemma final_score_tenths l :
  exists notable : Z, 0 <= notable /\
  (final_score l ==
   Z.min (10 * Z.min (Z.of_nat (length l) * 15) 60
          + Z.min (sum_of "likes" l + 2 * sum_of "retweets" l) 300
          + 10 * (10 * notable)) 1000 # 10)%Q.
Proof.
  eexists. split; [|rewrite final_score_formula; apply engagement_formula_tenths]. lia.
Qed.

Lemma Qle_bool_tenths (t k : Z) : Qle_bool (inject_Z t) (k # 10) = (10 * t <=? k).
Proof.
  apply eq_true_iff_eq. rewrite Qle_bool_iff, Z.leb_le.
  unfold Qle, inject_Z; simpl. lia.
Qed.

(** Four verified mentions are enough to leave the lowest band: with like
    and retweet counts that are not negative they give an engagement score of 60 or more (level
    High or Very High), which the scorer credits with at least 25, so that
    the recommendation is not STRONG AVOID whatever the market data say. *)
Theorem four_mentions_leave_strong_avoid
    (verified : list Mention) (contract_address token_symbol : string)
    (token_data : Token.info) (price_data : Price.data) :
  Forall (fun m => 0 <= engagement_get m "likes" /\ 0 <= engagement_get m "retweets")
    verified ->
  (4 <= length verified)%nat ->
  let summary := analyze_verified_social_engagement verified contract_address token_symbol in
  let r := generate_accurate_investment_recommendation token_data price_data summary in
  (60 <= engagement_score summary)%Q /\
  (engagement_level summary = "High" \/ engagement_level summary = "Very High") /\
  25 <= score r /\
  recommendation r <> "⛔ STRONG AVOID - No Confidence".
Proof.
  intros Hcounts Hlen summary r.
  destruct verified as [|m l]; [simpl in Hlen; lia|].
  destruct (final_score_tenths (m :: l)) as (notable & Hnotable & Hfs).
  set (k := Z.min _ 1000) in Hfs.
  assert (600 <= k) as Hk.
  { assert (0 <= sum_of "likes" (m :: l)).
    { apply sum_of_nonneg. eapply Forall_impl; [exact Hcounts|]. by intros ? [? _]. }
    assert (0 <= sum_of "retweets" (m :: l)).
    { apply sum_of_nonneg. eapply Forall_impl; [exact Hcounts|]. by intros ? [_ ?]. }
    subst k. lia. }
  assert (Qle_bool 60 (final_score (m :: l)) = true) as H60.
  { rewrite Hfs. change 60%Q with (inject_Z 60). rewrite Qle_bool_tenths. apply Z.leb_le. lia. }
  assert (engagement_score summary == k # 10)%Q as Hscore.
  { subst summary. rewrite engagement_score_nonempty. by apply round1_tenths. }
  assert (Qle_bool 40 (engagement_score summary) = true) as H40.
  { rewrite Hscore. change 40%Q with (inject_Z 40). rewrite Qle_bool_tenths.
    apply Z.leb_le. lia. }
  assert (authentic_mentions summary <> 0) as Hauth.
  { subst summary. unfold analyze_verified_social_engagement.
    repeat match goal with |- context [if ?b then _ else _] => destruct b end;
      simpl; lia. }
  split_and!.
  - rewrite Hscore. unfold Qle; simpl. lia.
  - subst summary. unfold analyze_verified_social_engagement. cbv zeta. rewrite H60.
    destruct (Qle_bool 80 (final_score (m :: l))); simpl; tauto.
  - destruct (score_anatomy token_data price_data summary)
      as (cs & cn & cl & cv & Hr & _ & Hn & Hl & Hv & _ & Hcs & _).
    fold r in Hr. rewrite Hr. assert (25 <= cs) by (by apply Hcs). lia.
  - destruct (recommendation_fields token_data price_data summary)
      as (Hp & _ & _ & _ & Havoid).
    fold r in Hp, Havoid. rewrite Havoid, <- Hp.
    destruct (score_anatomy token_data price_data summary)
      as (cs & cn & cl & cv & Hr & _ & Hn & Hl & Hv & _ & Hcs & _).
    fold r in Hr. rewrite Hr. assert (25 <= cs) by (by apply Hcs). lia.
Qed.

Lemma four_mentions_leave_strong_avoid_witness :
  25 <= score (generate_accurate_investment_recommendation
                 (_create_fallback_token_info test_contract) _create_fallback_price_data
                 (analyze_verified_social_engagement
                    (set_verification_score trading_post 70 :: three_verified)
                    test_contract "BONK")).
Proof.
  assert (Forall (fun m => 0 <= engagement_get m "likes" /\ 0 <= engagement_get m "retweets")
            (set_verification_score trading_post 70 :: three_verified))
    as Hcounts.
  { repeat constructor; by vm_compute. }
  exact (proj1 (proj2 (proj2 (four_mentions_leave_strong_avoid _ test_contract "BONK"
    (_create_fallback_token_info test_contract) _create_fallback_price_data
    Hcounts ltac:(simpl; lia))))).
Defined.

(** ** The source resolver, continued *)

Section resolver_outcomes.
Context {R : Type} (succeeded : R -> bool) (fetch : string -> Response).

Lemma try_source_Some (source : Source R) contract_address info :
  try_source succeeded fetch source contract_address = Some info ->
  source_succeeds succeeded fetch contract_address source info.
Proof.
  unfold try_source, source_succeeds.
  destruct (fetch (source_url source)) as [|code body]; [done|].
  destruct (Z.eqb_spec code 200) as [->|]; [|done].
  destruct body as [data|]; [|done].
  destruct (source_parser source data contract_address) as [[|r]|] eqn:Hparse; try done.
  destruct (succeeded r) eqn:Hok; [|done].
  intros [= <-]. by exists data.
Qed.

(** How the loop ends: with the first source that succeeds, after the
    failure of the ones before it, or with nothing after the failure of all. *)
Lemma try_sources_outcome (sources : list (Source R)) contract_address requested :
  (exists i source info,
     sources !! i = Some source /\
     source_succeeds succeeded fetch contract_address source info /\
     (forall j source', (j < i)%nat -> sources !! j = Some source' ->
        source_fails succeeded fetch contract_address source') /\
     try_sources succeeded fetch sources contract_address requested =
       (Some info, (requested ++ (source_url <$> take (S i) sources))%list)) \/
  ((forall source, source ∈ sources ->
      source_fails succeeded fetch contract_address source) /\
   try_sources succeeded fetch sources contract_address requested =
     (None, (requested ++ (source_url <$> sources))%list)).
Proof.
  revert requested. induction sources as [|s sources IH]; intros requested.
  - right. split; [by intros ? ?%elem_of_nil|]. simpl. by rewrite app_nil_r.
  - simpl try_sources.
    destruct (try_source succeeded fetch s contract_address) as [info|] eqn:Htry.
    + left. exists 0%nat, s, info. split_and!; [done| |intros; lia|].
      * by apply try_source_Some.
      * by destruct sources.
    + apply try_source_None in Htry.
      destruct (IH (requested ++ [source_url s])%list)
        as [(i & source & info & Hi & Hok & Hbefore & ->)|[Hall ->]].
      * left. exists (S i), source, info. split_and!; [done..| |].
        -- intros [|j] source' Hj Hs'; [by injection Hs' as <-|].
           apply (Hbefore j); [lia|done].
        -- by rewrite <- app_assoc.
      * right. split; [|by rewrite <- app_assoc].
        intros source [->|Hin]%elem_of_cons; [done|by apply Hall].
Qed.
End resolver_outcomes.

(** The resolver ends in one of two ways.  Either a provider succeeded: the
    result has [success] set and [fallback] not, its [source] is DexScreener,
    Jupiter or Solscan, and the requests stop with that provider.  Or all
    three were requested and failed and the result is the fallback object.
    One to three providers are requested, each once, in the order of the
    list. *)
Theorem resolver_outcomes_exhaustive
    (fetch : string -> Response) (contract_address : string) :
  let result := get_token_info_from_multiple_sources fetch contract_address in
  let urls := source_url <$> token_sources contract_address in
  (exists k, (1 <= k <= 3)%nat /\ result.2 = take k urls) /\
  ((Token.success result.1 = true /\ Token.fallback result.1 = false /\
    Token.source result.1 ∈ parser_labels /\ Token.source result.1 <> "Fallback") \/
   (result.1 = _create_fallback_token_info contract_address /\ result.2 = urls /\
    forall source, source ∈ token_sources contract_address ->
      source_fails Token.success fetch contract_address source)).
Proof.
  intros result urls. subst result urls.
  unfold get_token_info_from_multiple_sources.
  destruct (try_sources_outcome Token.success fetch (token_sources contract_address)
              contract_address [])
    as [(i & source & info & Hi & Hok & _ & ->)|[Hall ->]]; rewrite app_nil_l; simpl fst; simpl snd.
  - assert (i < 3)%nat as Hlt by (apply lookup_lt_Some in Hi; exact Hi).
    split.
    { exists (S i). split; [lia|]. by rewrite fmap_take. }
    left. destruct Hok as (data & _ & Hparse & Hsucc).
    destruct (token_parser_label _ _ _ _ _ Hi Hparse) as [Hlabel _].
    assert (Token.source info ∈ parser_labels) as Hin
      by (eapply list_elem_of_lookup_2; exact Hlabel).
    split_and!; [done| |done|].
    + clear Hin. destruct i as [|[|[|i]]]; simpl in Hi; [| | |lia]; injection Hi as <-;
        simpl in Hparse.
      * unfold _parse_dexscreener_token_info in Hparse. by parser_cases Hparse.
      * unfold _parse_jupiter_token_info in Hparse. by parser_cases Hparse.
      * unfold _parse_solscan_token_info in Hparse. by parser_cases Hparse.
    + intros Heq. rewrite Heq in Hin. vm_compute in Hin.
      repeat (apply elem_of_cons in Hin as [Hin|Hin]; [discriminate Hin|]).
      by apply elem_of_nil in Hin.
  - split; [exists 3%nat; split; [lia|done]|]. by right.
Qed.

(** Solscan's parser accepts every JSON object: whatever the object holds,
    the parse reports success, with the placeholder name and "UNKNOWN" for a
    missing name and symbol; so a 200 answer from Solscan with an object as
    body (an error object, say) keeps the resolver from the fallback. *)
Theorem solscan_accepts_any_object
    (fetch : string -> Response) (contract_address : string)
    (members : gmap string json) :
  fetch ("https://public-api.solscan.io/token/meta?tokenAddress=" ++ contract_address)%string
    = Http 200 (Some (JObj members)) ->
  (exists info,
     _parse_solscan_token_info (JObj members) contract_address = Some (Data info) /\
     Token.success info = true /\
     Token.name info =
       default (default (JStr (placeholder_name contract_address)) (members !! "symbol"))
               (members !! "name") /\
     Token.symbol info = default (JStr "UNKNOWN") (members !! "symbol")) /\
  let result := get_token_info_from_multiple_sources fetch contract_address in
  Token.success result.1 = true /\ Token.fallback result.1 = false.
Proof.
  intros Hfetch. split; [by eexists|].
  intros result. subst result. unfold get_token_info_from_multiple_sources.
  destruct (try_sources_outcome Token.success fetch (token_sources contract_address)
              contract_address [])
    as [(i & source & info & Hi & Hok & _ & ->)|[Hall _]]; simpl fst.
  - destruct Hok as (data & _ & Hparse & Hsucc). split; [done|].
    destruct i as [|[|[|i]]]; simpl in Hi;
      try (rewrite lookup_nil in Hi; discriminate Hi); injection Hi as <-;
      simpl in Hparse.
    + unfold _parse_dexscreener_token_info in Hparse. by parser_cases Hparse.
    + unfold _parse_jupiter_token_info in Hparse. by parser_cases Hparse.
    + unfold _parse_solscan_token_info in Hparse. by parser_cases Hparse.
  - exfalso.
    assert (try_source Token.success fetch
              {| source_name := "Solscan";
                 source_url := ("https://public-api.solscan.io/token/meta?tokenAddress="
                                ++ contract_address)%string;
                 source_parser := _parse_solscan_token_info |} contract_address = None)
      as Hnone.
    { apply try_source_fails, Hall. by do 2 right; left. }
    unfold try_source in Hnone. simpl in Hnone. by rewrite Hfetch in Hnone.
Qed.

Lemma solscan_accepts_any_object_witness :
  let result := get_token_info_from_multiple_sources solscan_error_only test_contract in
  Token.name result.1 = JStr "Token GBUxQFRX..." /\
  Token.success result.1 = true /\ Token.fallback result.1 = false.
Proof.
  intros result. split; [by vm_compute|].
  exact (proj2 (solscan_accepts_any_object solscan_error_only test_contract
                  {[ "error" := JStr "token not found" ]} eq_refl)).
Defined.

(** ** Strings, continued *)

Lemma lower_app a b : PyStr.lower (a ++ b) = (PyStr.lower a ++ PyStr.lower b)%string.
Proof. induction a as [|c a IH]; simpl; [done|by rewrite IH]. Qed.

Lemma string_app_assoc (a b c : string) : ((a ++ b) ++ c = a ++ (b ++ c))%string.
Proof.
  induction a as [|x a IH]; [done|].
  change (String x ((a ++ b) ++ c) = String x (a ++ (b ++ c)))%string. by rewrite IH.
Qed.

Lemma occurs_in_refl n : occurs_in n n.
Proof.
  exists "", "". change (n = n ++ "")%string.
  induction n as [|c n IH]; [done|].
  change (String c n = String c (n ++ ""))%string. by rewrite <- IH.
Qed.

Lemma occurs_in_app_l n a b : occurs_in n a -> occurs_in n (a ++ b).
Proof.
  intros (before & after & ->). exists before, (after ++ b)%string.
  by rewrite !string_app_assoc.
Qed.

Lemma occurs_in_app_r n a b : occurs_in n b -> occurs_in n (a ++ b).
Proof.
  intros (before & after & ->). exists (a ++ before)%string, after.
  by rewrite !string_app_assoc.
Qed.

Lemma occurs_in_cons n c a : occurs_in n a -> occurs_in n (String c a).
Proof. apply (occurs_in_app_r n (String c "") a). Qed.

Lemma substring_0_add (n m : nat) (s : string) :
  String.substring 0 (n + m) s =
  (String.substring 0 n s ++ String.substring n m s)%string.
Proof.
  revert s. induction n as [|n IH]; intros s.
  - simpl. by destruct s, m.
  - destruct s as [|c s]; simpl; [by destruct m|]. by rewrite IH.
Qed.

(** Looks for an occurrence along the structure of a concatenation; a leaf
    is the needle itself or a text to search by evaluation. *)
Ltac find_occurrence :=
  lazymatch goal with
  | |- occurs_in ?n ?n => apply occurs_in_refl
  | |- occurs_in ?n (String.append ?a ?b) =>
      first [ apply occurs_in_app_l; find_occurrence
            | apply occurs_in_app_r; find_occurrence ]
  | |- occurs_in ?n ?leaf => apply contains_spec; vm_compute; reflexivity
  end.

(** ** Query synthesis and simulated search *)

Lemma trading_discussion_score symbol now identifier :
  symbol_known symbol = true ->
  80 <= verification_score_of (trading_discussion symbol now) identifier symbol.
Proof.
  intros Hknown. rewrite verification_score_of_sum.
  assert (mentions_symbol symbol (scored_text (trading_discussion symbol now))) as Hs.
  { apply symbol_known_spec in Hknown as [? ?]. split_and!; [done..|]. left.
    unfold scored_text, trading_discussion; cbn [title content]. rewrite !lower_app.
    find_occurrence. }
  assert (has_domain_context (scored_text (trading_discussion symbol now))) as Hc.
  { unfold scored_text, trading_discussion; cbn [title content]. rewrite !lower_app.
    split; [|left]; find_occurrence. }
  assert (on_target_domain (url (trading_discussion symbol now))) as Hd.
  { left. unfold trading_discussion; cbn [url]. find_occurrence. }
  assert (has_metadata (trading_discussion symbol now)) as Hm.
  { right. unfold trading_discussion; cbn [author]. discriminate. }
  apply mentions_symbol_spec in Hs. apply has_domain_context_spec in Hc.
  apply on_target_domain_spec in Hd. apply has_engagement_or_author_spec in Hm.
  rewrite Hs, Hc, Hd, Hm. destruct (address_fragment_in _ _); lia.
Qed.

Lemma launch_announcement_score identifier symbol now :
  8 <= PyStr.len identifier \/ symbol_known symbol = true ->
  80 <= verification_score_of (launch_announcement identifier symbol now) identifier symbol.
Proof.
  intros Hor. rewrite verification_score_of_sum.
  assert (has_domain_context
            (scored_text (launch_announcement identifier symbol now))) as Hc.
  { unfold scored_text, launch_announcement; cbn [title content].
    rewrite !lower_app. split; [|left]; find_occurrence. }
  assert (on_target_domain (url (launch_announcement identifier symbol now))) as Hd.
  { left. unfold launch_announcement; cbn [url]. find_occurrence. }
  assert (has_metadata (launch_announcement identifier symbol now)) as Hm.
  { right. unfold launch_announcement; cbn [author]. discriminate. }
  apply has_domain_context_spec in Hc.
  apply on_target_domain_spec in Hd. apply has_engagement_or_author_spec in Hm.
  rewrite Hc, Hd, Hm.
  destruct Hor as [Hlen|Hknown].
  - assert (mentions_identifier identifier
              (scored_text (launch_announcement identifier symbol now))) as Hi.
    { exists 0%nat. split; [unfold PyStr.len in Hlen; lia|].
      unfold scored_text, launch_announcement, PyStr.take, PyStr.slice;
        cbn [title content].
      rewrite (substring_0_add 8 4 identifier : String.substring 0 12 identifier = _).
      rewrite !lower_app. change (4 * 0)%nat with 0%nat. find_occurrence. }
    apply address_fragment_in_spec in Hi. rewrite Hi.
    match goal with |- context [if ?b then 30 else 0] => destruct b end; lia.
  - assert (mentions_symbol symbol
              (scored_text (launch_announcement identifier symbol now))) as Hs.
    { apply symbol_known_spec in Hknown as [? ?]. split_and!; [done..|]. left.
      unfold scored_text, launch_announcement; cbn [title content].
      rewrite !lower_app. find_occurrence. }
    apply mentions_symbol_spec in Hs. rewrite Hs.
    destruct (address_fragment_in _ _); lia.
Qed.

Lemma verify_all_pass results identifier name symbol :
  Forall (fun m => 70 <= verification_score_of m identifier symbol) results ->
  _verify_and_filter_results results identifier name symbol =
  (fun m => set_verification_score m (verification_score_of m identifier symbol))
    <$> results.
Proof.
  induction 1 as [|m l Hm _ IH]; [done|].
  by rewrite verify_cons, decide_True, IH.
Qed.

Lemma simulate_posts_score query identifier name symbol clock tick :
  8 <= PyStr.len identifier \/ symbol_known symbol = true ->
  Forall (fun m => 80 <= verification_score_of m identifier symbol)
    (_simulate_realistic_social_search query identifier name symbol clock tick).1.
Proof.
  intros Hor. unfold _simulate_realistic_social_search.
  fold (symbol_known symbol).
  destruct (PyStr.contains "pump.fun" (PyStr.lower query)); [destruct (existsb _ _)|];
    destruct (symbol_known symbol) eqn:Hknown; cbn [fst];
    rewrite ?app_nil_l, ?Forall_app, ?Forall_singleton;
    repeat split;
    lazymatch goal with
    | |- Forall _ [] => constructor
    | |- _ <= verification_score_of (launch_announcement _ _ _) _ _ =>
        apply launch_announcement_score;
        destruct Hor as [Hlen|Hk]; [by left | right; congruence]
    | |- _ <= verification_score_of (trading_discussion _ _) _ _ =>
        apply trading_discussion_score; exact Hknown
    end.
Qed.

(** For an identifier and a symbol in ASCII, whatever the query, the posts
    the simulated search makes up pass the verification gate, with a score
    of 80 or more each, as soon as the identifier has eight characters or
    the symbol is known.  (The query only decides which of the two posts are
    made up.) *)
Theorem simulated_posts_pass_verification
    (query identifier name symbol : string) (clock : Clock) (tick : nat) :
  isascii identifier = true ->
  isascii symbol = true ->
  8 <= PyStr.len identifier \/ symbol_known symbol = true ->
  let posts :=
    (_simulate_realistic_social_search query identifier name symbol clock tick).1 in
  Forall (fun m => 80 <= verification_score_of m identifier symbol) posts /\
  length (_verify_and_filter_results posts identifier name symbol) = length posts.
Proof.
  intros _ _ Hor posts.
  pose proof (simulate_posts_score query identifier name symbol clock tick Hor) as Hall.
  fold posts in Hall. split; [done|].
  rewrite verify_all_pass, length_fmap; [done|].
  eapply Forall_impl; [exact Hall|]. intros; simpl in *; lia.
Qed.

Lemma simulated_posts_pass_verification_witness :
  length (_verify_and_filter_results
            (_simulate_realistic_social_search
               ("site:x.com " ++ quoted "pump.fun" ++ " " ++ quoted (PyStr.take 12 test_contract))
               test_contract "" "UNKNOWN" (fun _ => 1700000000) 0).1
            test_contract "" "UNKNOWN") = 1%nat.
Proof.
  refine (eq_trans (proj2 (simulated_posts_pass_verification _ test_contract ""
                             "UNKNOWN" (fun _ => 1700000000) 0 _ _ _)) _).
  - by vm_compute.
  - by vm_compute.
  - left. by vm_compute.
  - by vm_compute.
Defined.

Lemma simulate_nonempty query identifier name symbol clock tick :
  symbol_known symbol = true ->
  (1 <= length (_simulate_realistic_social_search query identifier name symbol
                  clock tick).1)%nat.
Proof.
  intros Hknown. unfold _simulate_realistic_social_search.
  fold (symbol_known symbol). rewrite Hknown.
  destruct (PyStr.contains "pump.fun" (PyStr.lower query)); [destruct (existsb _ _)|];
    cbn [fst]; rewrite ?length_app; simpl length; lia.
Qed.

Lemma untyped_simulate_str py_str query identifier name symbol clock tick :
  Untyped._simulate_realistic_social_search py_str query identifier (JStr name)
    (JStr symbol) clock tick =
  _simulate_realistic_social_search query identifier name symbol clock tick.
Proof. reflexivity. Qed.

Lemma untyped_queries_str py_str identifier name symbol :
  Untyped._create_targeted_search_queries py_str identifier (JStr name) (JStr symbol) =
  Some (_create_targeted_search_queries identifier name symbol).
Proof.
  unfold Untyped._create_targeted_search_queries, _create_targeted_search_queries.
  cbn [Untyped.lower Untyped.format Untyped.differs_from Py.truthy Py.len
       mbind option_bind].
  destruct (PyStr.contains "pump" (PyStr.lower identifier));
    cbn [mbind option_bind orb];
    destruct (PyStr.truthy symbol && negb (String.eqb symbol "UNKNOWN"));
    cbn [mbind option_bind andb]; reflexivity.
Qed.

Lemma untyped_score_str m identifier symbol :
  Untyped.verification_score_of m identifier (JStr symbol) =
  Some (verification_score_of m identifier symbol).
Proof.
  unfold Untyped.verification_score_of, verification_score_of, symbol_known.
  cbn [Untyped.lower Untyped.differs_from Py.truthy].
  destruct (PyStr.truthy symbol && negb (String.eqb symbol "UNKNOWN")); reflexivity.
Qed.

Lemma untyped_verify_str results identifier name symbol :
  Untyped._verify_and_filter_results results identifier name (JStr symbol) =
  Some (_verify_and_filter_results results identifier "" symbol).
Proof.
  unfold Untyped._verify_and_filter_results, _verify_and_filter_results.
  generalize (@nil Mention). induction results as [|m results IH]; intros acc; [done|].
  cbn [Untyped.verify_loop verify_loop]. rewrite untyped_score_str.
  cbn [mbind option_bind].
  destruct (70 <=? verification_score_of m identifier symbol); apply IH.
Qed.

Lemma simulate_queries_posts py_str queries identifier name symbol clock tick all_results :
  symbol_known symbol = true ->
  exists posts,
    (Untyped.simulate_queries py_str queries identifier name (JStr symbol) clock tick
       all_results).1 = (all_results ++ posts)%list /\
    Forall (fun m => 80 <= verification_score_of m identifier symbol) posts /\
    (length queries <= length posts)%nat.
Proof.
  intros Hknown. revert tick all_results.
  induction queries as [|query queries IH]; intros tick all_results.
  - exists []. simpl. by rewrite app_nil_r.
  - cbn [Untyped.simulate_queries].
    change (Untyped._simulate_realistic_social_search py_str query identifier name
              (JStr symbol) clock tick)
      with (_simulate_realistic_social_search query identifier "" symbol clock tick).
    pose proof (simulate_posts_score query identifier "" symbol clock tick
                  (or_intror Hknown)) as Hscore.
    pose proof (simulate_nonempty query identifier "" symbol clock tick Hknown) as Hne.
    destruct (_simulate_realistic_social_search query identifier "" symbol clock tick)
      as [results tick'].
    cbn [fst] in Hscore, Hne.
    destruct (IH tick' (match results with
                        | [] => all_results
                        | _ => (all_results ++ results)%list
                        end)) as (posts & -> & Hposts & Hlen).
    exists (results ++ posts)%list. split_and!.
    + destruct results; [by rewrite app_nil_l|by rewrite app_assoc].
    + by apply Forall_app.
    + rewrite length_app. simpl. lia.
Qed.

Lemma targeted_queries_length identifier name symbol :
  (6 <= length (_create_targeted_search_queries identifier name symbol) <= 12)%nat.
Proof.
  unfold _create_targeted_search_queries.
  repeat match goal with |- context [if ?b then _ else _] => destruct b end;
    rewrite ?length_app; simpl length; lia.
Qed.

(** The number of queries built is between 6 and 12, and each of them is
    restricted to x.com or twitter.com. *)
Theorem targeted_queries_site_restricted (identifier name symbol : string) :
  let queries := _create_targeted_search_queries identifier name symbol in
  (6 <= length queries <= 12)%nat /\
  Forall (fun q => String.prefix "site:x.com " q = true \/
                   String.prefix "site:twitter.com " q = true) queries.
Proof.
  intros queries. split; [apply targeted_queries_length|].
  subst queries. unfold _create_targeted_search_queries.
  repeat match goal with |- context [if ?b then _ else _] => destruct b end;
    rewrite ?app_nil_l, ?Forall_app; repeat split;
    repeat (apply Forall_cons; split; [first [left; reflexivity | right; reflexivity]|]);
    by apply Forall_nil.
Qed.

(** When the name and the symbol the search goes on with are strings, the
    symbol known and, like the address, in ASCII, the simulated search
    reports evidence whatever the network answers beyond that: five queries
    are issued (of the six or more that [search_queries_used] counts), each
    of them yields a made-up post, and all of these pass the gate, so that
    at least five verified mentions with a score of 80 or more are
    returned. *)
Theorem known_symbol_yields_mentions
    (py_str : json -> string) (fetch : string -> Response) (clock : Clock)
    (contract_address token_name token_symbol name symbol : string) :
  resolved_identity (get_token_info_from_multiple_sources fetch contract_address).1
    token_name token_symbol = (JStr name, JStr symbol) ->
  isascii contract_address = true ->
  isascii symbol = true ->
  symbol_known symbol = true ->
  exists r,
    improved_social_media_search py_str fetch clock contract_address token_name token_symbol
      = Some r /\
    5 <= social_total_mentions r /\
    verification_passed r = true /\
    6 <= search_queries_used r /\
    Forall (fun v => exists x, verification_score v = Some x /\ 80 <= x) (social_results r).
Proof.
  intros Hid _ _ Hknown. unfold improved_social_media_search. rewrite Hid.
  rewrite untyped_queries_str. cbn [mbind option_bind].
  pose proof (targeted_queries_length contract_address name symbol) as Hq.
  destruct (simulate_queries_posts py_str
              (take 5 (_create_targeted_search_queries contract_address name symbol))
              contract_address (JStr name) symbol clock 0 [] Hknown)
    as (posts & -> & Hposts & Hlen).
  rewrite length_take in Hlen. rewrite app_nil_l.
  rewrite untyped_verify_str. cbn [mbind option_bind].
  eexists. split; [reflexivity|]. cbn [social_total_mentions verification_passed
    search_queries_used social_results].
  rewrite verify_all_pass
    by (eapply Forall_impl; [exact Hposts|]; intros; simpl in *; lia).
  rewrite length_fmap. split_and!; [lia | apply Z.ltb_lt; lia | lia |].
  apply Forall_fmap. eapply Forall_impl; [exact Hposts|].
  intros m Hm. by exists (verification_score_of m contract_address symbol).
Qed.

Lemma known_symbol_yields_mentions_witness :
  exists r,
    improved_social_media_search str_of_scalar network_down
      (fun n => 1700000000 + Z.of_nat n) test_contract "Bonk" "BONK" = Some r /\
    5 <= social_total_mentions r.
Proof.
  destruct (known_symbol_yields_mentions str_of_scalar network_down
              (fun n => 1700000000 + Z.of_nat n)
              test_contract "Bonk" "BONK" "Bonk" "BONK" eq_refl eq_refl eq_refl eq_refl)
    as (r & Hr & H5 & _).
  exists r. split; [exact Hr|exact H5].
Defined.

(** A name that is no string stops the search when the address does not
    contain "pump": [token_name.lower()] raises while the queries are
    built. *)
Lemma non_string_name_raises
    (py_str : json -> string) (fetch : string -> Response) (clock : Clock)
    (contract_address token_name token_symbol : string) (name symbol : json) :
  resolved_identity (get_token_info_from_multiple_sources fetch contract_address).1
    token_name token_symbol = (name, symbol) ->
  (forall text, name <> JStr text) ->
  PyStr.contains "pump" (PyStr.lower contract_address) = false ->
  improved_social_media_search py_str fetch clock contract_address token_name token_symbol
    = None.
Proof.
  intros Hid Hname Hpump. unfold improved_social_media_search. rewrite Hid.
  unfold Untyped._create_targeted_search_queries. rewrite Hpump.
  destruct name as [| | |text| |]; try done. by destruct (Hname text).
Qed.

(** Solscan answers with a null name and the symbol BONK: for the wrapped
    SOL address the search raises; for the test address, which ends in
    "pump", the name is never read and seven mentions are verified. *)
Example null_name_from_provider :
  improved_social_media_search str_of_scalar solscan_null_name (fun _ => 1700000000)
    wrapped_sol "" "" = None /\
  exists r,
    improved_social_media_search str_of_scalar solscan_null_name (fun _ => 1700000000)
      test_contract "" "" = Some r /\
    social_total_mentions r = 7.
Proof.
  split.
  - apply (non_string_name_raises _ _ _ _ _ _ JNull (JStr "BONK")).
    + by vm_compute.
    + by intros text.
    + by vm_compute.
  - eexists. split; [vm_compute; reflexivity|]. reflexivity.
Qed.

(** ** The price resolver *)

Lemma market_analysis_unparsable price_data p :
  looks_numeric (Price.liquidity price_data) = false ->
  looks_numeric (Price.volume_24h price_data) = false ->
  market_analysis price_data p = credit (credit p 0 UnknownLiquidity) 0 UnknownVolume.
Proof.
  intros Hl Hv. unfold market_analysis, liquidity_analysis, volume_analysis.
  by rewrite Hl, Hv.
Qed.

Lemma score_without_market token_data price_data social_data :
  looks_numeric (Price.liquidity price_data) = false ->
  looks_numeric (Price.volume_24h price_data) = false ->
  let r := generate_accurate_investment_recommendation token_data price_data social_data in
  score r <= 60 /\ confidence r <> "High" /\
  exists r1 r2, reasons r = [r1; r2; UnknownLiquidity; UnknownVolume].
Proof.
  intros Hl Hv r.
  destruct (recommendation_fields token_data price_data social_data)
    as (Hscore & Hreasons & _ & Hconf & _).
  fold r in Hscore, Hreasons, Hconf.
  rewrite market_analysis_unparsable in Hscore, Hreasons, Hconf by done.
  destruct (social_analysis_credit social_data (0, [])) as (cs & rs & Hsoc & Hs).
  destruct (notable_analysis_credit social_data (credit (0, []) cs rs))
    as (cn & rn & Hnot & Hn).
  rewrite Hsoc, Hnot in Hscore, Hreasons, Hconf. simpl in Hscore, Hreasons, Hconf.
  assert (cs + cn <= 60) by (destruct Hs as [?|?], Hn as [?|?]; lia).
  split_and!.
  - rewrite Hscore. lia.
  - rewrite Hconf. lia.
  - by exists rs, rn.
Qed.

(** Without DexScreener there is no market evidence: when the first price
    source fails, the price data come from Jupiter or are the fallback
    object, liquidity and volume read "Unknown" either way, and the
    recommendation built on them scores 60 at most, ends its breakdown with
    the unknown liquidity and unknown volume lines and never has confidence
    High. *)
Theorem price_without_dexscreener
    (py_str : json -> string) (fetch : string -> Response) (contract_address : string)
    (token_data : Token.info) (social_data : EngagementSummary) :
  (forall source, price_sources py_str contract_address !! 0%nat = Some source ->
     source_fails Price.success fetch contract_address source) ->
  let price_data := (get_comprehensive_price_data py_str fetch contract_address).1 in
  let r := generate_accurate_investment_recommendation token_data price_data social_data in
  Price.liquidity price_data = "Unknown" /\
  Price.volume_24h price_data = "Unknown" /\
  (Price.source price_data = "Jupiter" \/ Price.source price_data = "Fallback") /\
  score r <= 60 /\ confidence r <> "High" /\
  exists r1 r2, reasons r = [r1; r2; UnknownLiquidity; UnknownVolume].
Proof.
  intros Hdex price_data r.
  assert (Price.liquidity price_data = "Unknown" /\
          Price.volume_24h price_data = "Unknown" /\
          (Price.source price_data = "Jupiter" \/ Price.source price_data = "Fallback"))
    as (Hl & Hv & Hsrc).
  { subst price_data. unfold get_comprehensive_price_data.
    destruct (try_sources_outcome Price.success fetch
                (price_sources py_str contract_address) contract_address [])
      as [(i & source & info & Hi & Hok & _ & ->)|[_ ->]]; simpl fst.
    - destruct i as [|[|i]].
      + specialize (Hdex source Hi). apply try_source_fails in Hdex.
        apply try_source_succeeds in Hok. congruence.
      + simpl in Hi. injection Hi as <-. destruct Hok as (data & _ & Hparse & _).
        simpl in Hparse. unfold _parse_jupiter_price_data in Hparse.
        parser_cases Hparse. simpl. tauto.
      + simpl in Hi. by rewrite lookup_nil in Hi.
    - simpl. tauto. }
  split_and!; [done..| | |];
    apply (score_without_market token_data price_data social_data);
    by rewrite ?Hl, ?Hv.
Qed.

Lemma price_without_dexscreener_witness :
  let price_data :=
    (get_comprehensive_price_data str_of_scalar jupiter_price_only test_contract).1 in
  Price.price_usd price_data = "3" /\
  Price.liquidity price_data = "Unknown" /\
  score (generate_accurate_investment_recommendation
           (_create_fallback_token_info test_contract) price_data
           (analyze_verified_social_engagement three_verified test_contract "BONK")) <= 60.
Proof.
  intros price_data. split; [by vm_compute|].
  assert (forall source,
            price_sources str_of_scalar test_contract !! 0%nat = Some source ->
            source_fails Price.success jupiter_price_only test_contract source) as Hdex.
  { intros source [= <-]. by left. }
  destruct (price_without_dexscreener str_of_scalar jupiter_price_only test_contract
              (_create_fallback_token_info test_contract)
              (analyze_verified_social_engagement three_verified test_contract "BONK") Hdex)
    as (Hl & _ & _ & Hscore & _).
  split; [exact Hl | exact Hscore].
Defined.

(** ** The earlier pipeline *)

Lemma try_source_solscan_meta (fetch : string -> Response) (name url contract_address : string) :
  try_source Token.success fetch
    {| source_name := name; source_url := url; source_parser := solscan_meta |}
    contract_address =
  match fetch url with
  | Http 200 (Some (JObj members)) =>
      Some {| Token.name :=
                default (default (JStr "Unknown Token") (members !! "symbol"))
                        (members !! "name");
              Token.symbol := default (JStr "UNKNOWN") (members !! "symbol");
              Token.decimals := default (JNum 9) (members !! "decimals");
              Token.supply :=
                default (default (JStr "Unknown") (members !! "totalSupply"))
                        (members !! "supply");
              Token.success := true; Token.fallback := false; Token.source := "" |}
  | _ => None
  end.
Proof.
  unfold try_source. cbn [source_url source_parser].
  destruct (fetch url) as [|code body]; [done|].
  destruct (Z.eqb_spec code 200) as [->|Hcode].
  - destruct body as [[| | | | |members]|]; done.
  - destruct code as [|[]|]; try done; by repeat (destruct p as [p|p|]; try done).
Qed.

(** [get_token_info_from_solscan] asks the endpoints in order and takes the
    first 200 answer whose body is a JSON object for a success, without
    looking into it: a missing name and symbol give "Unknown Token" and
    "UNKNOWN".  When the first endpoint gives such an answer the second is
    not requested; when the first does not and the second does, both are
    requested and the second answer is used; when neither does, the result
    is the fallback with the placeholder name. *)
Theorem solscan_first_answer_wins
    (fetch : string -> Response) (contract_address : string) :
  let result := get_token_info_from_solscan fetch contract_address in
  let url1 := ("https://api.solscan.io/token/meta?token=" ++ contract_address)%string in
  let url2 :=
    ("https://public-api.solscan.io/token/meta?tokenAddress=" ++ contract_address)%string in
  let answers (url : string) (members : gmap string json) :=
    fetch url = Http 200 (Some (JObj members)) in
  let built (members : gmap string json) :=
    {| Token.name :=
         default (default (JStr "Unknown Token") (members !! "symbol")) (members !! "name");
       Token.symbol := default (JStr "UNKNOWN") (members !! "symbol");
       Token.decimals := default (JNum 9) (members !! "decimals");
       Token.supply :=
         default (default (JStr "Unknown") (members !! "totalSupply")) (members !! "supply");
       Token.success := true; Token.fallback := false; Token.source := "" |} in
  (forall members, answers url1 members -> result = (built members, [url1])) /\
  (forall members,
     (forall members1, ~ answers url1 members1) -> answers url2 members ->
     result = (built members, [url1; url2])) /\
  ((forall members1, ~ answers url1 members1) ->
   (forall members2, ~ answers url2 members2) ->
   result = (solscan_fallback contract_address, [url1; url2])).
Proof.
  intros result url1 url2 answers built. subst result answers.
  unfold get_token_info_from_solscan, solscan_endpoints. fold url1 url2.
  cbn [try_sources]. rewrite !try_source_solscan_meta. cbn [source_url app].
  assert (forall url,
            (forall members, fetch url <> Http 200 (Some (JObj members))) ->
            match fetch url with
            | Http 200 (Some (JObj members)) => Some (built members)
            | _ => None
            end = None) as Hnone.
  { intros url Hno. destruct (fetch url) as [|code body]; [done|].
    destruct code as [|[]|]; try done; repeat (destruct p as [p|p|]; try done).
    destruct body as [[| | | | |members]|]; try done. by destruct (Hno members). }
  subst built. cbv beta in *. split_and!.
  - intros members ->. done.
  - intros members Hno ->. by rewrite (Hnone url1 Hno).
  - intros Hno1 Hno2. by rewrite (Hnone url1 Hno1), (Hnone url2 Hno2).
Qed.

Lemma solscan_first_answer_wins_witness :
  Token.name (get_token_info_from_solscan both_endpoints_answer test_contract).1
    = JStr "first" /\
  length (get_token_info_from_solscan both_endpoints_answer test_contract).2 = 1%nat.
Proof.
  rewrite (proj1 (solscan_first_answer_wins both_endpoints_answer test_contract)
             {[ "name" := JStr "first" ]} eq_refl).
  split; reflexivity.
Defined.

(** [get_token_price_data] has three outcomes and the answer of DexScreener
    decides which.  The all-"Unknown" object stands for every failure: a
    time-out or other exception, a status other than 200, a body that
    cannot be decoded or is no JSON object, a non-empty "pairs" that is no
    list starting with an object, and a first pair whose "liquidity",
    "volume" or "priceChange" is no object.  A 200 answer whose "pairs" is
    empty, null or missing gives the "No trading data" object, with volume
    "0".  Otherwise the first pair is passed on as it is, with [success] set
    and [fallback] not. *)
Theorem price_data_outcomes (fetch : string -> Response) (contract_address : string) :
  let url := ("https://api.dexscreener.com/latest/dex/tokens/" ++ contract_address)%string in
  let price_data := get_token_price_data fetch contract_address in
  (fetch url = Raises -> price_data = unknown_price_data) /\
  (forall status_code body,
     fetch url = Http status_code body -> status_code <> 200 ->
     price_data = unknown_price_data) /\
  (fetch url = Http 200 None -> price_data = unknown_price_data) /\
  (forall data,
     fetch url = Http 200 (Some data) -> (forall members, data <> JObj members) ->
     price_data = unknown_price_data) /\
  (forall members,
     fetch url = Http 200 (Some (JObj members)) ->
     let pairs := default JNull (members !! "pairs") in
     (Py.truthy pairs = false -> price_data = no_trading_data) /\
     (Py.truthy pairs = true ->
      (forall pair rest, pairs <> JArr (JObj pair :: rest)) ->
      price_data = unknown_price_data) /\
     (forall pair rest,
        pairs = JArr (JObj pair :: rest) ->
        price_data =
          match nested_get pair "liquidity" "usd", nested_get pair "volume" "h24",
                nested_get pair "priceChange" "h24" with
          | Some liquidity, Some volume_24h, Some price_change_24h =>
              {| Quote.price_usd := default (JStr "0") (pair !! "priceUsd");
                 Quote.market_cap := default (JStr "Unknown") (pair !! "fdv");
                 Quote.liquidity := liquidity;
                 Quote.volume_24h := volume_24h;
                 Quote.price_change_24h := price_change_24h;
                 Quote.dex := default (JStr "Unknown") (pair !! "dexId");
                 Quote.success := true;
                 Quote.fallback := false |}
          | _, _, _ => unknown_price_data
          end)).
Proof.
  intros url price_data. subst price_data. unfold get_token_price_data. fold url.
  split_and!.
  - by intros ->.
  - intros code body -> Hcode. by apply Z.eqb_neq in Hcode as ->.
  - by intros ->.
  - intros data -> Hno. simpl. destruct data as [| | | | |members]; try done.
    by destruct (Hno members).
  - intros members ->. change (200 =? 200) with true. cbv iota.
    unfold price_from_pairs. cbn [Py.get Py.item mbind option_bind].
    destruct (members !! "pairs") as [p|] eqn:Hp; cbn [default mbind option_bind];
      [|by split_and!].
    split_and!.
    + by intros ->.
    + intros Htruthy Hshape. rewrite Htruthy.
      destruct p as [| | |t|items|obj]; try done;
        cbn [Py.len mbind option_bind];
        match goal with |- context [0 <? ?n] => destruct (Z.ltb_spec 0 n) as [Hpos|Hzero] end.
      * by destruct t.
      * destruct t; [done|]. unfold PyStr.len in Hzero. simpl in Hzero. lia.
      * destruct items as [|pair rest]; [done|].
        destruct pair as [| | | | |pair]; try done.
        by destruct (Hshape pair rest).
      * destruct items; [done|]. simpl in Hzero. lia.
      * done.
      * simpl in Htruthy. apply negb_true_iff, Nat.eqb_neq in Htruthy. lia.
    + intros pair rest Heq. change (p = JArr (JObj pair :: rest)) in Heq. subst p.
      cbn [Py.truthy mbind option_bind Py.len Py.first length Py.get_default].
      replace (0 <? Z.of_nat (S (length rest))) with true by (symmetry; apply Z.ltb_lt; lia).
      unfold nested_get.
      destruct (pair !! "liquidity") as [[| | | | |l]|]; try done;
        destruct (pair !! "volume") as [[| | | | |v]|]; try done;
        destruct (pair !! "priceChange") as [[| | | | |c]|]; try done.
Qed.

Lemma price_data_outcomes_witness :
  get_token_price_data no_pairs_listed test_contract = no_trading_data.
Proof.
  destruct (price_data_outcomes no_pairs_listed test_contract) as (_ & _ & _ & _ & Hobj).
  exact (proj1 (Hobj {[ "schemaVersion" := JStr "1.0.0"; "pairs" := JNull ]} eq_refl)
           eq_refl).
Defined.

(** The first five queries are always the identifier, its prefixes of 12 and
    8 characters and the identifier with "solana" and with "pump", in this
    order, so that a caller that caps the list at five keeps them; three
    symbol queries and two name queries may follow. *)
Theorem search_queries_head (contract_address token_name token_symbol : string) :
  let queries := search_queries contract_address token_name token_symbol in
  take 5 queries =
    [contract_address; PyStr.take 12 contract_address; PyStr.take 8 contract_address;
     (contract_address ++ " solana")%string; (contract_address ++ " pump")%string] /\
  (5 <= length queries <= 10)%nat.
Proof.
  intros queries. subst queries. unfold search_queries.
  split.
  - repeat match goal with |- context [if ?b then _ else _] => destruct b end;
      reflexivity.
  - repeat match goal with |- context [if ?b then _ else _] => destruct b end;
      simpl; lia.
Qed.

Lemma all_chars_impl (p q : ascii -> bool) s :
  (forall c, p c = true -> q c = true) ->
  PyStr.all_chars p s = true -> PyStr.all_chars q s = true.
Proof.
  intros Hpq. induction s as [|c s IH]; simpl; [done|].
  rewrite !andb_true_iff. intros [? ?]. auto.
Qed.

Lemma all_chars_substring (p : ascii -> bool) (n m : nat) s :
  PyStr.all_chars p s = true -> PyStr.all_chars p (String.substring n m s) = true.
Proof.
  revert n m. induction s as [|c s IH]; intros n m.
  - by destruct n, m.
  - simpl PyStr.all_chars at 1. rewrite andb_true_iff. intros [Hc Hs].
    destruct n as [|n]; simpl.
    + destruct m as [|m]; [done|]. simpl. rewrite Hc. by apply IH.
    + by apply IH.
Qed.

Lemma base58_not_space c :
  PyStr.char_in c valid_chars = true -> negb (is_space c) = true.
Proof.
  intros Hc%char_in_spec.
  assert (forallb (fun c => negb (is_space c)) (list_ascii_of_string valid_chars) = true)
    as Hall by (by vm_compute).
  rewrite List.forallb_forall in Hall. by apply Hall.
Qed.

(** A text without white space is one word, or none if it is empty. *)
Lemma word_count_from_no_space (in_word : bool) s :
  PyStr.all_chars (fun c => negb (is_space c)) s = true ->
  word_count_from in_word s =
  if in_word || negb (PyStr.truthy s) then 0%nat else 1%nat.
Proof.
  revert in_word. induction s as [|c s IH]; intros in_word.
  - by destruct in_word.
  - simpl PyStr.all_chars. rewrite andb_true_iff, negb_true_iff. intros [Hc Hs].
    simpl. rewrite Hc, (IH true Hs). by destruct in_word.
Qed.

Lemma placeholder_name_unfold contract_address :
  placeholder_name contract_address =
  String "T" (String "o" (String "k" (String "e" (String "n" (String " "
    (PyStr.take 8 contract_address ++ "...")))))).
Proof. reflexivity. Qed.

Lemma all_chars_app p a b :
  PyStr.all_chars p (a ++ b) = PyStr.all_chars p a && PyStr.all_chars p b.
Proof.
  induction a as [|c a IH]; [done|].
  change (String c a ++ b)%string with (String c (a ++ b)). simpl.
  by rewrite IH, andb_assoc.
Qed.

Lemma truthy_app_r a b : PyStr.truthy b = true -> PyStr.truthy (a ++ b) = true.
Proof. by destruct a. Qed.

(** The name guard of [search_x_mentions] lets the fallback's placeholder
    name through: for a valid identifier, "Token " followed by its first
    eight characters and "..." is no sentinel and has two words, so the two
    name queries are built with it; the default name "Unknown Token" of a
    200 answer without name, on the other hand, builds none. *)
Theorem placeholder_name_is_searched (contract_address : string) :
  validate_solana_contract contract_address = true ->
  let base :=
    [contract_address; PyStr.take 12 contract_address; PyStr.take 8 contract_address;
     (contract_address ++ " solana")%string; (contract_address ++ " pump")%string] in
  word_count (placeholder_name contract_address) = 2%nat /\
  search_queries contract_address (placeholder_name contract_address) "UNKNOWN" =
    (base ++ [ (quoted (placeholder_name contract_address) ++ " "
                ++ PyStr.take 8 contract_address)%string;
               (quoted (placeholder_name contract_address) ++ " solana")%string ])%list /\
  search_queries contract_address "Unknown Token" "UNKNOWN" = base.
Proof.
  intros Hvalid base. subst base.
  assert (word_count (placeholder_name contract_address) = 2%nat) as Hwords.
  { assert (PyStr.all_chars (fun c => negb (is_space c)) contract_address = true) as Hns.
    { unfold validate_solana_contract in Hvalid.
      destruct (negb (PyStr.truthy contract_address)); [discriminate|].
      destruct (_ || _); [discriminate|].
      eapply all_chars_impl; [|exact Hvalid]. apply base58_not_space. }
    rewrite placeholder_name_unfold. unfold word_count. simpl word_count_from.
    rewrite word_count_from_no_space.
    - rewrite truthy_app_r by done. reflexivity.
    - rewrite all_chars_app. apply andb_true_iff. split; [|done].
      by apply all_chars_substring. }
  split; [done|]. split; [|reflexivity].
  unfold search_queries. rewrite Hwords.
  rewrite placeholder_name_unfold at 1 2. reflexivity.
Qed.

Lemma placeholder_name_is_searched_witness :
  length (search_queries test_contract (placeholder_name test_contract) "UNKNOWN") = 7%nat.
Proof.
  destruct (placeholder_name_is_searched test_contract eq_refl) as (_ & -> & _).
  reflexivity.
Defined.

Lemma gather_results_elem_of search queries all_results r :
  r ∈ gather_results search queries all_results <->
  r ∈ all_results \/
  exists query found, query ∈ queries /\ search query = Some found /\ r ∈ found.
Proof.
  revert all_results. induction queries as [|q queries IH]; intros all_results; simpl.
  - split; [by left|]. intros [?|(? & ? & ?%elem_of_nil & _)]; done.
  - assert ((exists query found, query ∈ q :: queries /\ search query = Some found /\ r ∈ found)
            <-> (exists found, search q = Some found /\ r ∈ found) \/
                (exists query found, query ∈ queries /\ search query = Some found /\ r ∈ found))
      as Hsplit.
    { split.
      - intros (query & found & [->|Hin]%elem_of_cons & Hs & Hr); [left|right]; eauto.
      - intros [(found & Hs & Hr)|(query & found & Hin & Hs & Hr)].
        + exists q, found. split; [left|]; done.
        + exists query, found. split; [by right|done]. }
    rewrite Hsplit. destruct (search q) as [[|x found]|] eqn:Hq; rewrite IH.
    + split; [tauto|]. intros [?|[(found & [= <-] & ?%elem_of_nil)|?]]; tauto.
    + rewrite elem_of_app. split.
      * intros [[?|?]|?]; [tauto| |tauto]. right; left. by exists (x :: found).
      * intros [?|[(found' & [= <-] & ?)|?]]; tauto.
    + split; [tauto|]. intros [?|[(found & [=] & _)|?]]; tauto.
Qed.

(** [search_x_mentions] with a client always answers with a result list: of
    ten entries at most, never more than [total_mentions] counts, each with a
    URL and a strictly positive relevance, and each found by a query that
    did not fail.  A query that raises is passed over; when no query finds
    anything the answer is zero mentions and no results. *)
Theorem search_x_mentions_outcome
    (search : string -> option (list Exa.result))
    (contract_address token_name token_symbol : string) :
  exists outcome,
    search_x_mentions (Some search) contract_address token_name token_symbol
      = SearchDone outcome /\
    (length (search_results outcome) <= 10)%nat /\
    Z.of_nat (length (search_results outcome)) <= search_total_mentions outcome /\
    (forall r, r ∈ search_results outcome ->
       0 < calculate_relevance contract_address token_name token_symbol r /\
       result_url r <> "" /\
       exists query found,
         query ∈ search_queries contract_address token_name token_symbol /\
         search query = Some found /\ r ∈ found) /\
    ((forall query, query ∈ search_queries contract_address token_name token_symbol ->
        search query = None \/ search query = Some []) ->
     search_total_mentions outcome = 0 /\ search_results outcome = []).
Proof.
  eexists. split; [reflexivity|].
  set (queries := search_queries contract_address token_name token_symbol).
  set (all_results := gather_results search queries []).
  set (key := calculate_relevance contract_address token_name token_symbol).
  unfold rank_mentions. cbn [search_results search_total_mentions]. fold key.
  set (relevant := filter (fun r => 0 < key r) (sort_reverse key (remove_duplicates all_results))).
  split_and!.
  - rewrite length_take. lia.
  - rewrite length_take. lia.
  - intros r Hr.
    assert (r ∈ relevant) as Hrel by (eapply elem_of_sublist; [exact Hr|apply sublist_take]).
    apply list_elem_of_filter in Hrel as [Hpos Hin].
    rewrite sort_reverse_perm in Hin. unfold remove_duplicates in Hin.
    apply remove_duplicates_loop_elem_of in Hin as (Hurl & _ & before & after & Hall & _).
    split_and!; [done..|].
    assert (r ∈ all_results) as Hfound.
    { rewrite Hall. apply elem_of_app. right. left. }
    apply gather_results_elem_of in Hfound as [?%elem_of_nil|?]; done.
  - intros Hnone.
    assert (all_results = []) as Hempty.
    { apply elem_of_nil_inv. intros r Hr.
      apply gather_results_elem_of in Hr as [?%elem_of_nil|(q & found & Hq & Hs & Hin)];
        [done|].
      destruct (Hnone q Hq) as [Hn|Hn]; rewrite Hn in Hs; [done|].
      injection Hs as <-. by apply elem_of_nil in Hin. }
    subst relevant. by rewrite Hempty.
Qed.

Lemma search_x_mentions_outcome_witness :
  search_x_mentions (Some finds_nothing) test_contract "Bonk" "BONK" =
  SearchDone {| search_total_mentions := 0; search_results := [] |}.
Proof.
  destruct (search_x_mentions_outcome finds_nothing test_contract "Bonk" "BONK")
    as (outcome & -> & _ & _ & _ & Hnone).
  destruct (Hnone (fun q _ => or_intror eq_refl)) as [Htotal Hresults].
  destruct outcome as [total results]. simpl in Htotal, Hresults. by subst.
Defined.

(** Two of the five identifier queries fail, the three others find the same
    seven posts: each is returned once. *)
Example search_with_failing_queries :
  exists outcome,
    search_x_mentions (Some flaky_search) test_contract "" "" = SearchDone outcome /\
    search_total_mentions outcome = 7 /\
    length (search_results outcome) = 7%nat.
Proof. eexists. split; [reflexivity|]. vm_compute. split; reflexivity. Qed.

(** ** The earlier engagement analysis *)

Lemma app_tally_indicators_length results t0 :
  (length (App.tally_indicators (fold_left App.tally_step results t0)) <=
   length (App.tally_indicators t0) + length results)%nat.
Proof.
  revert t0. induction results as [|r results IH]; intros t0; simpl; [lia|].
  etrans; [apply IH|]. unfold App.tally_step. cbn [App.tally_indicators].
  repeat match goal with |- context [if ?b then _ else _] => destruct b end;
    rewrite ?length_app; simpl; lia.
Qed.

Lemma filter_bool_split (l : list bool) :
  (length (filter (fun i => i = true) l) + length (filter (fun i => i = false) l)
   = length l)%nat.
Proof.
  induction l as [|[] l IH]; simpl; [done| |];
    rewrite !filter_cons; simpl; lia.
Qed.

(** The earlier engagement score counts hits, not what they say: it lies
    between 0 and 100, is 10 at least for a non-empty result list, and seven
    results of any content are enough for the level "High" with risk "Low";
    ten give the full 100.  Each result is counted as positive or negative
    once at most. *)
Theorem app_engagement_counts_hits (search_results : list Exa.result) :
  let s := App.analyze_social_engagement search_results in
  let n := Z.of_nat (length search_results) in
  0 <= App.engagement_score s <= 100 /\
  Z.min (10 * n) 100 <= App.engagement_score s /\
  App.total_mentions s = n /\
  0 <= App.positive_indicators s /\ 0 <= App.negative_indicators s /\
  App.positive_indicators s + App.negative_indicators s <= n /\
  (7 <= n -> App.engagement_level s = "High" /\ App.risk_assessment s = "Low") /\
  (10 <= n -> App.engagement_score s = 100).
Proof.
  intros s n. subst s n. destruct search_results as [|r l].
  - simpl. split_and!; try lia; try done.
  - unfold App.analyze_social_engagement. set (results := r :: l).
    set (t := fold_left App.tally_step results _).
    set (k := Z.of_nat (size (list_to_set (App.tally_accounts t) : gset string))).
    assert (0 <= k) by (subst k; lia).
    assert (1 <= Z.of_nat (length results)) by (subst results; simpl; lia).
    pose proof (app_tally_indicators_length results
                  {| App.tally_accounts := []; App.tally_indicators := [] |}) as Hind.
    fold t in Hind. change (_ + _)%nat with (length results) in Hind.
    pose proof (filter_bool_split (App.tally_indicators t)) as Hsplit.
    cbv zeta.
    set (score := Z.min (Z.min (Z.of_nat (length results) * 10) 100 + k * 20) 100).
    destruct (Z.leb_spec 70 score), (Z.leb_spec 40 score), (Z.leb_spec 10 score);
      cbn [App.engagement_score App.total_mentions App.engagement_level
           App.risk_assessment App.positive_indicators App.negative_indicators];
      subst score; split_and!; try done; try lia;
      try (intros; exfalso; lia).
Qed.

Lemma app_engagement_counts_hits_witness :
  let s := App.analyze_social_engagement seven_warnings in
  App.engagement_level s = "High" /\ App.risk_assessment s = "Low" /\
  App.positive_indicators s = 0 /\ App.negative_indicators s = 7.
Proof.
  intros s.
  destruct (app_engagement_counts_hits seven_warnings)
    as (_ & _ & _ & _ & _ & _ & Hhigh & _).
  assert (7 <= Z.of_nat (length seven_warnings)) as H7 by (vm_compute; discriminate).
  destruct (Hhigh H7) as [Hlevel Hrisk].
  split; [exact Hlevel|]. split; [exact Hrisk|]. vm_compute. split; reflexivity.
Defined.

(** ** The earlier search *)

Lemma gather_results_concat search queries all_results :
  gather_results search queries all_results =
  (all_results ++ mjoin ((fun query => default [] (search query)) <$> queries))%list.
Proof.
  revert all_results. induction queries as [|q queries IH]; intros all_results.
  - simpl. by rewrite app_nil_r.
  - simpl. destruct (search q) as [[|r found]|]; rewrite IH; simpl; [done| |done].
    by rewrite <- app_assoc.
Qed.

Lemma app_engagement_score_min (search_results : list Exa.result) :
  Z.min (10 * Z.of_nat (length search_results)) 100 <=
  App.engagement_score (App.analyze_social_engagement search_results).
Proof.
  destruct search_results as [|r l]; [done|].
  unfold App.analyze_social_engagement. set (results := r :: l).
  set (t := fold_left App.tally_step results _).
  set (k := Z.of_nat (size (list_to_set (App.tally_accounts t) : gset string))).
  assert (0 <= k) by (subst k; lia).
  cbv zeta.
  set (score := Z.min (Z.min (Z.of_nat (length results) * 10) 100 + k * 20) 100).
  destruct (70 <=? score), (40 <=? score), (10 <=? score);
    cbn [App.engagement_score]; subst score; lia.
Qed.

(** [search_x_mentions] of [app.py] removes and ranks nothing: it sends one
    to three queries, and when each of them finds the same posts, every post
    is returned and counted once for each query, so that the engagement
    score computed from the answer is that of as many separate posts. *)
Theorem app_search_counts_repeats
    (search : string -> option (list Exa.result))
    (contract_address token_name token_symbol : string) (found : list Exa.result) :
  (forall query, query ∈ App.search_queries contract_address token_name token_symbol ->
     search query = Some found) ->
  let n := length (App.search_queries contract_address token_name token_symbol) in
  exists outcome,
    App.search_x_mentions (Some search) contract_address token_name token_symbol
      = SearchDone outcome /\
    (1 <= n <= 3)%nat /\
    search_results outcome = mjoin (replicate n found) /\
    search_total_mentions outcome = Z.of_nat n * Z.of_nat (length found) /\
    Z.min (10 * (Z.of_nat n * Z.of_nat (length found))) 100 <=
      App.engagement_score (App.analyze_social_engagement (search_results outcome)).
Proof.
  intros Hsame n. eexists. split; [reflexivity|]. cbn [search_results search_total_mentions].
  set (queries := App.search_queries contract_address token_name token_symbol) in *.
  assert (gather_results search queries [] = mjoin (replicate n found)) as Hall.
  { rewrite gather_results_concat, app_nil_l. subst n. clear -Hsame.
    induction queries as [|q queries IH]; [done|]. simpl.
    rewrite (Hsame q) by left. simpl. f_equal. apply IH.
    intros query Hin. apply Hsame. by right. }
  assert (length (mjoin (replicate n found)) = (n * length found)%nat) as Hlen.
  { clear. induction n as [|n IH]; [done|]. simpl. rewrite length_app, IH. lia. }
  split_and!.
  - subst n queries. unfold App.search_queries.
    repeat match goal with |- context [if ?b then _ else _] => destruct b end; simpl; lia.
  - subst n queries. unfold App.search_queries.
    repeat match goal with |- context [if ?b then _ else _] => destruct b end; simpl; lia.
  - done.
  - rewrite Hall, Hlen. lia.
  - rewrite Hall. etrans; [|apply app_engagement_score_min]. rewrite Hlen. lia.
Qed.

Lemma app_search_counts_repeats_witness :
  exists outcome,
    App.search_x_mentions (Some (always_finds [scam_warning 0])) test_contract "Bonk" "BONK"
      = SearchDone outcome /\
    search_total_mentions outcome = 3 /\
    30 <= App.engagement_score (App.analyze_social_engagement (search_results outcome)).
Proof.
  destruct (app_search_counts_repeats (always_finds [scam_warning 0]) test_contract
              "Bonk" "BONK" [scam_warning 0] (fun _ _ => eq_refl))
    as (outcome & Heq & _ & _ & Htotal & Hscore).
  exists outcome. split; [exact Heq|]. split; [exact Htotal|exact Hscore].
Defined.
